(** * Tripy: executable calling convention, constraint checking and lowering

    A shallow embedding of the parts of the Tripy frontend that the
    specification talks about:

    - [nvtripy/backend/api/executable.py]: [Executable.__init__],
      [Executable.__call__], [_get_arg_info], [encode_executable] and
      [decode_executable];
    - [tripy/frontend/trace/ops/unary_elementwise.py] and
      [nvtripy/frontend/ops/squeeze.py]: the public operations and their
      dtype-constraint declarations;
    - [nvtripy/trace/ops/convolution.py]: the [Convolution] trace node;
    - [tripy/flat_ir/ops/constant.py]: [ConstantOp.to_mlir].

    Python exceptions are modelled by a result type, the calls into the device
    runtime by an event log, and the MLIR-TensorRT runtime by an interface
    ([Runtime]) whose operations are left abstract. *)

From Stdlib Require Import ZArith NArith String Ascii Bool List Lia Permutation.
From Stdlib Require Import Strings.Byte.
Import ListNotations.
Local Open Scope string_scope.
Local Open Scope list_scope.
Local Set Warnings "-register-all".

(** ** Data types ([tripy.common.datatype]) *)

Module datatype.
Inductive dtype : Set :=
| float32 | float16 | bfloat16 | float8
| int4 | int8 | int32 | int64 | uint8
| bool.

Definition name (d : dtype) : string :=
  match d with
  | float32 => "float32" | float16 => "float16" | bfloat16 => "bfloat16"
  | float8 => "float8" | int4 => "int4" | int8 => "int8" | int32 => "int32"
  | int64 => "int64" | uint8 => "uint8" | bool => "bool"
  end.

Definition eqb (a b : dtype) : Datatypes.bool :=
  match a, b with
  | float32, float32 | float16, float16 | bfloat16, bfloat16
  | float8, float8 | int4, int4 | int8, int8 | int32, int32
  | int64, int64 | uint8, uint8 | bool, bool => true
  | _, _ => false
  end.
End datatype.

Abbreviation dtype := datatype.dtype.

(** ** Python values and exceptions *)

(** A device, as in [output_devices]. *)
Record device : Set := Device { device_kind : string; device_index : Z }.

(** The part of a trace tensor the executable looks at. *)
Record TraceTensor : Set := {
  tt_name : string;
  tt_shape : list Z;
  tt_dtype : dtype
}.

(** A frontend tensor wraps a trace tensor; [tensor.dtype] and [tensor.shape]
    read it. *)
Record Tensor : Set := fast_init { trace_tensor : TraceTensor }.

Definition Tensor_dtype (t : Tensor) : dtype := tt_dtype (trace_tensor t).
Definition Tensor_shape (t : Tensor) : list Z := tt_shape (trace_tensor t).

(** What [raise_error] is called with: one constructor per kind of message,
    carrying the values interpolated into it. [ErrorMessage] is a message
    without such values; the last two are the errors of the constraint
    checker. *)
Inductive TripyError : Set :=
| MissingArgument (name : string) (expected : list string)
| ExtraKeywordArguments (extra : list string) (expected : list string)
                        (already_positional : list string)
| IncorrectNumberOfArguments (expected got : nat) (expected_names : list string)
| UnexpectedTensorDataType (arg_name : string) (expected actual : dtype)
                           (argument : Tensor)
| UnexpectedTensorShape (arg_name : string) (min_shape max_shape shape : list Z)
                        (dim : nat) (size : Z) (bounds : Z * Z)
                        (argument : Tensor)
| ErrorMessage (msg : string)
| DtypeNotAllowed (param_name : string) (got : dtype) (allowed : list string)
| DtypeMismatch (expected got : dtype) (param_name : string).

Inductive Exception : Set :=
| TripyException (e : TripyError)
| MTRTException (msg : string)
| IndexError
| ValueError (msg : string)
| TypeError (msg : string)
| binascii_Error (msg : string).

Inductive Result (A : Type) : Type :=
| Return (a : A)
| Raise (e : Exception).
Arguments Return {A} a.
Arguments Raise {A} e.

(** Effects of a call that are visible outside it. *)
Inductive Event : Set :=
| TensorEval (t : Tensor)
| ExecutorExecute (output_devices : list device) (inputs : list TraceTensor).

(** A computation logs events and returns or raises; what follows a raise is
    not run. *)
Definition M (A : Type) : Type := list Event * Result A.

Definition ret {A} (a : A) : M A := ([], Return a).
Definition raise {A} (e : Exception) : M A := ([], Raise e).
Definition emit (ev : Event) : M unit := ([ev], Return tt).
Definition lift {A} (r : Result A) : M A := ([], r).
Definition bind {A B} (m : M A) (k : A -> M B) : M B :=
  match m with
  | (log, Return a) => let (log', r) := k a in (log ++ log', r)
  | (log, Raise e) => (log, Raise e)
  end.

Notation "x <- m ;; k" := (bind m (fun x => k))
  (at level 61, m at next level, right associativity).
Notation "m ;;; k" := (bind m (fun _ => k))
  (at level 61, right associativity).

Definition events {A} (m : M A) : list Event := fst m.
Definition outcome {A} (m : M A) : Result A := snd m.

(** [for x in xs: body(x)] for a body that only has effects. *)
Fixpoint for_each {A} (xs : list A) (body : A -> M unit) : M unit :=
  match xs with
  | [] => ret tt
  | x :: rest => body x ;;; for_each rest body
  end.

(** [pat in s] on Python strings. *)
Fixpoint str_contains (pat s : string) : bool :=
  if prefix pat s then true
  else match s with
       | EmptyString => false
       | String _ rest => str_contains pat rest
       end.

(** A Python [dict] with string keys, in insertion order. *)
Definition dict (V : Type) : Type := list (string * V).

Definition dict_keys {V} (d : dict V) : list string := map fst d.

Fixpoint dict_get {V} (k : string) (d : dict V) : option V :=
  match d with
  | [] => None
  | (k', v) :: rest => if String.eqb k k' then Some v else dict_get k rest
  end.

Definition dict_del {V} (k : string) (d : dict V) : dict V :=
  filter (fun kv => negb (String.eqb k (fst kv))) d.

Definition is_empty {A} (l : list A) : bool :=
  match l with [] => true | _ => false end.

(** Three-way [zip], as long as its shortest argument. *)
Fixpoint zip3 {A B C} (xs : list A) (ys : list B) (zs : list C)
  : list (A * B * C) :=
  match xs, ys, zs with
  | x :: xs', y :: ys', z :: zs' => (x, y, z) :: zip3 xs' ys' zs'
  | _, _, _ => []
  end.

(** ** The MLIR-TensorRT runtime, as far as [executable.py] uses it *)

Record MemRefType (code : Type) : Type := {
  memref_shape : list Z;
  memref_dtype : code
}.
Arguments memref_shape {code} _.
Arguments memref_dtype {code} _.

(** The result of [get_arg_bound]: [min()] and [max()]. *)
Record ArgBound : Set := { bound_min : list Z; bound_max : list Z }.

(** The signature of the entry point: the input arguments and then the
    output arguments, each with its type and its bounds. Functions compiled by
    Tripy take and return tensors, so every argument is a memref. *)
Record FunctionSignature (code : Type) : Type := {
  input_args : list (MemRefType code * ArgBound);
  output_args : list (MemRefType code * ArgBound)
}.
Arguments input_args {code} _.
Arguments output_args {code} _.

Definition get_num_input_args {code} (s : FunctionSignature code) : nat :=
  length (input_args s).
Definition get_num_output_args {code} (s : FunctionSignature code) : nat :=
  length (output_args s).
Definition get_arg {code} (s : FunctionSignature code) (idx : nat)
  : Result (MemRefType code) :=
  match nth_error (input_args s ++ output_args s) idx with
  | Some (ty, _) => Return ty
  | None => Raise IndexError
  end.
Definition get_arg_bound {code} (s : FunctionSignature code) (idx : nat)
  : Result ArgBound :=
  match nth_error (input_args s ++ output_args s) idx with
  | Some (_, b) => Return b
  | None => Raise IndexError
  end.

(** The operations of [mlir_tensorrt.runtime.api] and of the [Executor] that
    the executable calls. None of them is in this repository's Python code. *)
Class Runtime : Type := {
  ScalarTypeCode : Type;
  convert_runtime_dtype_to_tripy_dtype : ScalarTypeCode -> dtype;
  runtime_Executable : Type;
  (** [runtime.Executable(executable_bytes)] *)
  runtime_Executable_of_bytes : list byte -> Result runtime_Executable;
  serialize : runtime_Executable -> list byte;
  (** [executable.get_signature("main")] *)
  get_signature : runtime_Executable -> FunctionSignature ScalarTypeCode;
  (** [Executor(executable).execute(output_devices, inputs)] *)
  Executor_execute :
    runtime_Executable -> list device -> list TraceTensor ->
    Result (list TraceTensor)
}.

(** ** [str]

    A [str] is a string of characters with code points below 256. The
    predicates are Python's on such strings: [str.isidentifier] (a first
    character of class XID_Start or an underscore, then characters of class
    XID_Continue), [str.isdigit], [repr] and [keyword.iskeyword]. *)

Definition ord (c : ascii) : N := N_of_ascii c.

Definition in_range (lo hi : N) (c : ascii) : bool :=
  (lo <=? ord c)%N && (ord c <=? hi)%N.

Definition is_xid_start (c : ascii) : bool :=
  in_range 65 90 c || in_range 97 122 c
  || (ord c =? 170)%N || (ord c =? 181)%N || (ord c =? 186)%N
  || in_range 192 214 c || in_range 216 246 c || in_range 248 255 c.

Definition is_xid_continue (c : ascii) : bool :=
  is_xid_start c || in_range 48 57 c || (ord c =? 95)%N || (ord c =? 183)%N.

Definition is_digit (c : ascii) : bool :=
  in_range 48 57 c || in_range 178 179 c || (ord c =? 185)%N.

Definition is_printable (c : ascii) : bool :=
  in_range 32 126 c || in_range 161 172 c || in_range 174 255 c.

Definition str_isidentifier (s : string) : bool :=
  match s with
  | EmptyString => false
  | String first rest =>
      (is_xid_start first || (ord first =? 95)%N)
      && forallb is_xid_continue (list_ascii_of_string rest)
  end.

Definition str_isdigit (s : string) : bool :=
  match s with
  | EmptyString => false
  | _ => forallb is_digit (list_ascii_of_string s)
  end.

Definition single_quote : ascii := ascii_of_N 39.
Definition double_quote : ascii := ascii_of_N 34.
Definition backslash : ascii := ascii_of_N 92.

Definition hex_digit (n : N) : ascii :=
  if (n <? 10)%N then ascii_of_N (48 + n) else ascii_of_N (87 + n).

Definition hex_escape (c : ascii) : string :=
  String backslash
    (String "x" (String (hex_digit (ord c / 16)) (String (hex_digit (ord c mod 16)) ""))).

Definition repr_char (quote c : ascii) : string :=
  if Ascii.eqb c quote || Ascii.eqb c backslash then String backslash (String c "")
  else if (ord c =? 9)%N then String backslash "t"
  else if (ord c =? 10)%N then String backslash "n"
  else if (ord c =? 13)%N then String backslash "r"
  else if is_printable c then String c ""
  else hex_escape c.

Definition repr (s : string) : string :=
  let chars := list_ascii_of_string s in
  let quote :=
    if existsb (Ascii.eqb single_quote) chars
       && negb (existsb (Ascii.eqb double_quote) chars)
    then double_quote else single_quote in
  String quote (String.concat "" (map (repr_char quote) chars) ++ String quote "")%string.

Definition kwlist : list string :=
  ["False"; "None"; "True"; "and"; "as"; "assert"; "async"; "await"; "break";
   "class"; "continue"; "def"; "del"; "elif"; "else"; "except"; "finally";
   "for"; "from"; "global"; "if"; "import"; "in"; "is"; "lambda"; "nonlocal";
   "not"; "or"; "pass"; "raise"; "return"; "try"; "while"; "with"; "yield"].

Definition iskeyword (s : string) : bool := existsb (String.eqb s) kwlist.

(** ** [inspect.Parameter]

    Only the name and the kind are kept: [Executable.__init__] gives every
    parameter the annotation [Tensor] and no default. *)

Inductive ParameterKind : Set :=
| POSITIONAL_ONLY | POSITIONAL_OR_KEYWORD | VAR_POSITIONAL | KEYWORD_ONLY
| VAR_KEYWORD.

Definition kind_value (kind : ParameterKind) : nat :=
  match kind with
  | POSITIONAL_ONLY => 0 | POSITIONAL_OR_KEYWORD => 1 | VAR_POSITIONAL => 2
  | KEYWORD_ONLY => 3 | VAR_KEYWORD => 4
  end.

Definition description (kind : ParameterKind) : string :=
  match kind with
  | POSITIONAL_ONLY => "positional-only"
  | POSITIONAL_OR_KEYWORD => "positional or keyword"
  | VAR_POSITIONAL => "variadic positional"
  | KEYWORD_ONLY => "keyword-only"
  | VAR_KEYWORD => "variadic keyword"
  end.

Record Param : Set := {
  param_name : string;
  param_kind : ParameterKind
}.

(** [inspect.Parameter(name, kind)]: [name[0]] raises [IndexError] for the
    empty name; a name [.N] of an implicit argument is recast as [implicitN]
    and made positional-only; a keyword (unless positional-only) or a name
    that is not an identifier is refused. *)
Definition inspect_Parameter (name : string) (kind : ParameterKind)
  : Result Param :=
  match name with
  | EmptyString => Raise IndexError
  | String first rest =>
      let implicit := Ascii.eqb first "." && str_isdigit rest in
      if implicit && negb (Nat.eqb (kind_value kind) (kind_value POSITIONAL_OR_KEYWORD))
      then Raise (ValueError ("implicit arguments must be passed as positional or keyword arguments, not " ++ description kind)%string)
      else
        let kind := if implicit then POSITIONAL_ONLY else kind in
        let name := if implicit then ("implicit" ++ rest)%string else name in
        let is_keyword :=
          iskeyword name
          && negb (Nat.eqb (kind_value kind) (kind_value POSITIONAL_ONLY)) in
        if is_keyword || negb (str_isidentifier name)
        then Raise (ValueError (repr name ++ " is not a valid parameter name")%string)
        else Return {| param_name := name; param_kind := kind |}
  end.

(** ** [inspect.Signature] *)

Inductive annotation : Set := Tensor_annotation | Sequence_Tensor_annotation.

Record Signature : Set := {
  parameters : list Param;
  return_annotation : annotation
}.

(** The loop of [Signature.__init__] over the parameters: [params] holds the
    names seen so far and [top_kind] the greatest kind seen. No parameter
    has a default, so the check on the order of defaults never fires. *)
Fixpoint validate_parameters (params : list string) (top_kind : ParameterKind)
    (parameters : list Param) : option Exception :=
  match parameters with
  | [] => None
  | param :: rest =>
      let kind := param_kind param in
      let name := param_name param in
      if Nat.ltb (kind_value kind) (kind_value top_kind)
      then Some (ValueError ("wrong parameter order: " ++ description top_kind
                             ++ " parameter before " ++ description kind
                             ++ " parameter")%string)
      else
        let top_kind :=
          if Nat.ltb (kind_value top_kind) (kind_value kind) then kind else top_kind in
        if existsb (String.eqb name) params
        then Some (ValueError ("duplicate parameter name: " ++ repr name)%string)
        else validate_parameters (name :: params) top_kind rest
  end.

(** [inspect.Signature(parameters, return_annotation=...)] *)
Definition inspect_Signature (parameters : list Param) (ret_ann : annotation)
  : Result Signature :=
  match validate_parameters [] POSITIONAL_ONLY parameters with
  | Some e => Raise e
  | None => Return {| parameters := parameters; return_annotation := ret_ann |}
  end.

(** The parameter that [inspect.Parameter] makes of a name that is an
    identifier and not a keyword. *)
Definition positional_or_keyword (name : string) : Param :=
  {| param_name := name; param_kind := POSITIONAL_OR_KEYWORD |}.

(** The loop of [Executable.__init__] that appends an [inspect.Parameter] of
    kind [POSITIONAL_OR_KEYWORD] for each name. *)
Fixpoint build_params (arg_names : list string) : Result (list Param) :=
  match arg_names with
  | [] => Return []
  | name :: rest =>
      match inspect_Parameter name POSITIONAL_OR_KEYWORD with
      | Raise e => Raise e
      | Return param =>
          match build_params rest with
          | Raise e => Raise e
          | Return params => Return (param :: params)
          end
      end
  end.

(** ** [ArgInfo] and [Executable] *)

Record ArgInfo : Set := {
  shape_bounds : list (Z * Z);
  ArgInfo_dtype : dtype
}.

Section Executable.
Context {RT : Runtime}.

Record Executable : Type := {
  _executable : runtime_Executable;
  _arg_names : list string;
  _num_expected_args : nat;
  _output_devices : list device;
  _executable_signature : FunctionSignature ScalarTypeCode;
  __signature__ : Signature
}.

(** [Executable.__init__] *)
Definition Executable__init__ (executable : runtime_Executable)
    (arg_names : list string) (output_devices : list device)
  : Result Executable :=
  let executable_signature := get_signature executable in
  match build_params arg_names with
  | Raise e => Raise e
  | Return params =>
      let return_annotation :=
        if Nat.eqb (get_num_output_args executable_signature) 1
        then Tensor_annotation else Sequence_Tensor_annotation in
      match inspect_Signature params return_annotation with
      | Raise e => Raise e
      | Return sig =>
          Return {| _executable := executable;
                    _arg_names := arg_names;
                    _num_expected_args := length arg_names;
                    _output_devices := output_devices;
                    _executable_signature := executable_signature;
                    __signature__ := sig |}
      end
  end.

(** [_get_arg_info], after its two look-ups in the signature: the bounds
    are [zip(arg_bound.min(), arg_bound.max())], or [(x, x)] for each [x] of
    [arg.shape] when that is empty. *)
Definition make_ArgInfo (arg : MemRefType ScalarTypeCode) (arg_bound : ArgBound)
  : ArgInfo :=
  let shape_bounds := combine (bound_min arg_bound) (bound_max arg_bound) in
  let shape_bounds :=
    if Nat.eqb (length shape_bounds) 0
    then map (fun x => (x, x)) (memref_shape arg)
    else shape_bounds in
  {| shape_bounds := shape_bounds;
     ArgInfo_dtype := convert_runtime_dtype_to_tripy_dtype (memref_dtype arg) |}.

(** [_get_arg_info] *)
Definition _get_arg_info (self : Executable) (idx : nat) : Result ArgInfo :=
  match get_arg (_executable_signature self) idx with
  | Raise e => Raise e
  | Return arg =>
      match get_arg_bound (_executable_signature self) idx with
      | Raise e => Raise e
      | Return arg_bound => Return (make_ArgInfo arg arg_bound)
      end
  end.

Fixpoint collect_arg_info (self : Executable) (idxs : list nat)
  : Result (list ArgInfo) :=
  match idxs with
  | [] => Return []
  | idx :: rest =>
      match _get_arg_info self idx with
      | Raise e => Raise e
      | Return info =>
          match collect_arg_info self rest with
          | Raise e => Raise e
          | Return infos => Return (info :: infos)
          end
      end
  end.

(** [_get_input_info] *)
Definition _get_input_info (self : Executable) : Result (list ArgInfo) :=
  collect_arg_info self
    (seq 0 (get_num_input_args (_executable_signature self))).

(** [_get_output_info] *)
Definition _get_output_info (self : Executable) : Result (list ArgInfo) :=
  let offset := get_num_input_args (_executable_signature self) in
  collect_arg_info self
    (map (fun idx => idx + offset)
         (seq 0 (get_num_output_args (_executable_signature self)))).

(** The first loop of [__call__]: take the keyword arguments in the order of
    [expected_kwargs], deleting each from [kwargs]. *)
Fixpoint bind_kwargs (arg_names expected_kwargs : list string)
    (input_tensors : list Tensor) (kwargs : dict Tensor)
  : Result (list Tensor * dict Tensor) :=
  match expected_kwargs with
  | [] => Return (input_tensors, kwargs)
  | name :: rest =>
      match dict_get name kwargs with
      | None => Raise (TripyException (MissingArgument name arg_names))
      | Some v =>
          bind_kwargs arg_names rest (input_tensors ++ [v]) (dict_del name kwargs)
      end
  end.

(** The loop over [zip(input_tensors, expected_input_dtypes, arg_names)]:
    [Some] is what it raises, [None] that it ran to its end. *)
Fixpoint check_dtypes (zipped : list (Tensor * dtype * string))
  : option Exception :=
  match zipped with
  | [] => None
  | (tensor, dtype, arg_name) :: rest =>
      if negb (datatype.eqb (Tensor_dtype tensor) dtype)
      then Some (TripyException
                   (UnexpectedTensorDataType arg_name dtype (Tensor_dtype tensor) tensor))
      else check_dtypes rest
  end.

(** The inner loop [for i in range(len(shape))]; [expected_bounds[i]] raises
    when the tensor has more dimensions than there are bounds. *)
Fixpoint check_dims (tensor : Tensor) (expected_bounds : list (Z * Z))
    (arg_name : string) (shape : list Z) (range : list nat)
  : option Exception :=
  match range with
  | [] => None
  | i :: rest =>
      match nth_error shape i, nth_error expected_bounds i with
      | Some shape_i, Some (lo, hi) =>
          if (shape_i <? lo)%Z || (shape_i >? hi)%Z
          then
            let (min_shape, max_shape) := List.split expected_bounds in
            Some (TripyException
                    (UnexpectedTensorShape arg_name min_shape max_shape shape
                       i shape_i (lo, hi) tensor))
          else check_dims tensor expected_bounds arg_name shape rest
      | _, _ => Some IndexError
      end
  end.

(** The loop over [zip(input_tensors, expected_input_shapes, arg_names)]. *)
Fixpoint check_shapes (zipped : list (Tensor * list (Z * Z) * string))
  : option Exception :=
  match zipped with
  | [] => None
  | (tensor, expected_bounds, arg_name) :: rest =>
      let shape := Tensor_shape tensor in
      match check_dims tensor expected_bounds arg_name shape
              (seq 0 (length shape)) with
      | Some e => Some e
      | None => check_shapes rest
      end
  end.

(** The [except runtime.MTRTException as err] handler. It always raises. *)
Definition handle_MTRTException (self : Executable)
    (input_tensors : list Tensor) (err : string) : Exception :=
  let reraise := MTRTException err in
  if str_contains "function expects a memref type with element type" err then
    match _get_input_info self with
    | Raise e => e
    | Return infos =>
        let expected_input_dtypes := map ArgInfo_dtype infos in
        match check_dtypes
                (zip3 input_tensors expected_input_dtypes (_arg_names self)) with
        | Some e => e
        | None => reraise
        end
    end
  else if str_contains "InternalError: failed to set input shape" err
          || str_contains "Runtime shape mismatch" err then
    match _get_input_info self with
    | Raise e => e
    | Return infos =>
        let expected_input_shapes := map shape_bounds infos in
        match check_shapes
                (zip3 input_tensors expected_input_shapes (_arg_names self)) with
        | Some e => e
        | None => reraise
        end
    end
  else if str_contains "Runtime stride mismatch" err then
    TripyException (ErrorMessage err)
  else reraise.

Inductive Output : Set :=
| OneTensor (t : Tensor)
| TensorSequence (ts : list Tensor).

(** [Executable.__call__] *)
Definition __call__ (self : Executable) (args : list Tensor)
    (kwargs : dict Tensor) : M Output :=
  let num_positional := length args in
  let NUM_ARGS := num_positional + length kwargs in
  let input_tensors := args in
  let expected_kwargs := skipn num_positional (_arg_names self) in
  bound <- lift (bind_kwargs (_arg_names self) expected_kwargs input_tensors kwargs) ;;
  let '(input_tensors, kwargs) := bound in
  if negb (is_empty kwargs) then
    raise (TripyException
             (ExtraKeywordArguments (dict_keys kwargs) (_arg_names self)
                (firstn num_positional (_arg_names self))))
  else if negb (Nat.eqb NUM_ARGS (_num_expected_args self)) then
    raise (TripyException
             (IncorrectNumberOfArguments (_num_expected_args self) NUM_ARGS
                (_arg_names self)))
  else
    for_each input_tensors (fun tensor => emit (TensorEval tensor)) ;;;
    emit (ExecutorExecute (_output_devices self) (map trace_tensor input_tensors)) ;;;
    match Executor_execute (_executable self) (_output_devices self)
            (map trace_tensor input_tensors) with
    | Raise (MTRTException err) =>
        raise (handle_MTRTException self input_tensors err)
    | Raise e => raise e
    | Return executor_outputs =>
        let output_tensors := map fast_init executor_outputs in
        match output_tensors with
        | [t] => ret (OneTensor t)
        | _ => ret (TensorSequence output_tensors)
        end
    end.
End Executable.

(** ** [base64.b64encode] and [base64.b64decode]

    The two functions of Python's standard library that the serialization
    goes through, as [binascii] implements them: the encoder takes the bytes
    three at a time and pads the last group; the decoder (not in strict mode)
    is a loop over the characters that skips what is not in the alphabet and
    stops at the padding that completes a group. *)
Module base64.
Definition table_b2a_base64 : string :=
  "ABCDEFGHIJKLMNOPQRSTUVWXYZabcdefghijklmnopqrstuvwxyz0123456789+/".

Definition BASE64_PAD : ascii := "="%char.

Definition b2a (n : N) : ascii :=
  match String.get (N.to_nat n) table_b2a_base64 with
  | Some c => c
  | None => BASE64_PAD
  end.

Fixpoint index_from (c : ascii) (table : string) (i : N) : option N :=
  match table with
  | EmptyString => None
  | String c' rest => if Ascii.eqb c c' then Some i else index_from c rest (N.succ i)
  end.

Definition table_a2b_base64 (c : ascii) : option N :=
  index_from c table_b2a_base64 0.

(** What is stored into an [unsigned char]. *)
Definition to_byte (n : N) : byte :=
  match Byte.of_N (n mod 256) with
  | Some b => b
  | None => x00
  end.

Fixpoint b2a_base64 (bin_data : list byte) : string :=
  match bin_data with
  | [] => EmptyString
  | [a] =>
      let a := Byte.to_N a in
      String (b2a (N.shiftr a 2))
        (String (b2a (N.shiftl (N.land a 3) 4))
           (String BASE64_PAD (String BASE64_PAD EmptyString)))
  | [a; b] =>
      let a := Byte.to_N a in
      let b := Byte.to_N b in
      String (b2a (N.shiftr a 2))
        (String (b2a (N.lor (N.shiftl (N.land a 3) 4) (N.shiftr b 4)))
           (String (b2a (N.shiftl (N.land b 15) 2))
              (String BASE64_PAD EmptyString)))
  | a :: b :: c :: rest =>
      let a := Byte.to_N a in
      let b := Byte.to_N b in
      let c := Byte.to_N c in
      String (b2a (N.shiftr a 2))
        (String (b2a (N.lor (N.shiftl (N.land a 3) 4) (N.shiftr b 4)))
           (String (b2a (N.lor (N.shiftl (N.land b 15) 2) (N.shiftr c 6)))
              (String (b2a (N.land c 63)) (b2a_base64 rest))))
  end.

(** The decoding loop, with the variables of the C function: the position in
    the current group of four, the bits left over from the previous
    character, the padding characters seen in a row, and the output. *)
Fixpoint a2b_base64_loop (ascii_data : string) (quad_pos : nat) (leftchar : N)
    (pads : nat) (bin_data : list byte) : Result (list byte) :=
  match ascii_data with
  | EmptyString =>
      if Nat.eqb quad_pos 0 then Return bin_data
      else if Nat.eqb quad_pos 1
           then Raise (binascii_Error
                         "Invalid base64-encoded string: number of data characters cannot be 1 more than a multiple of 4")
           else Raise (binascii_Error "Incorrect padding")
  | String this_ch rest =>
      if Ascii.eqb this_ch BASE64_PAD then
        if Nat.leb 2 quad_pos then
          if Nat.leb 4 (quad_pos + S pads) then Return bin_data
          else a2b_base64_loop rest quad_pos leftchar (S pads) bin_data
        else a2b_base64_loop rest quad_pos leftchar pads bin_data
      else
        match table_a2b_base64 this_ch with
        | None => a2b_base64_loop rest quad_pos leftchar pads bin_data
        | Some this_ch =>
            match quad_pos with
            | 0 => a2b_base64_loop rest 1 this_ch 0 bin_data
            | 1 =>
                a2b_base64_loop rest 2 (N.land this_ch 15) 0
                  (bin_data ++ [to_byte (N.lor (N.shiftl leftchar 2) (N.shiftr this_ch 4))])
            | 2 =>
                a2b_base64_loop rest 3 (N.land this_ch 3) 0
                  (bin_data ++ [to_byte (N.lor (N.shiftl leftchar 4) (N.shiftr this_ch 2))])
            | _ =>
                a2b_base64_loop rest 0 0 0
                  (bin_data ++ [to_byte (N.lor (N.shiftl leftchar 6) this_ch)])
            end
        end
  end.

Definition a2b_base64 (ascii_data : string) : Result (list byte) :=
  a2b_base64_loop ascii_data 0 0 0 [].

(** [base64.b64encode(s).decode()]: the encoding is ASCII, so the string has
    the same characters as the bytes. *)
Definition b64encode (s : list byte) : string := b2a_base64 s.

Fixpoint is_ascii (s : string) : bool :=
  match s with
  | EmptyString => true
  | String c rest => (N_of_ascii c <? 128)%N && is_ascii rest
  end.

(** [base64.b64decode(s)] for a string [s]: the string must be ASCII. *)
Definition b64decode (s : string) : Result (list byte) :=
  if is_ascii s then a2b_base64 s
  else Raise (ValueError "string argument should contain only ASCII characters").
End base64.

(** ** [encode_executable] and [decode_executable] *)

(** The dictionary that is written to the JSON file. *)
Record ExecutableDict : Set := {
  dict_arg_names : list string;
  dict_output_devices : list device;
  dict_executable : string
}.

Section Serialization.
Context {RT : Runtime}.

Definition encode_executable (executable : Executable) : ExecutableDict :=
  {| dict_arg_names := _arg_names executable;
     dict_output_devices := _output_devices executable;
     dict_executable := base64.b64encode (serialize (_executable executable)) |}.

Definition decode_executable (executable_dict : ExecutableDict) : Result Executable :=
  match base64.b64decode (dict_executable executable_dict) with
  | Raise e => Raise e
  | Return executable_bytes =>
      match runtime_Executable_of_bytes executable_bytes with
      | Raise e => Raise e
      | Return executable =>
          Executable__init__ executable
            (dict_arg_names executable_dict) (dict_output_devices executable_dict)
      end
  end.
End Serialization.

(** ** Dtype constraints of the public operations *)

Module constraints.
Definition RETURN_VALUE : string := "__RETURN_VALUE".

(** The two arguments of the decorator: the dtypes each type variable may
    take, by name, and the type variable of each parameter and of the return
    value. *)
Record dtype_info : Type := {
  dtype_variables : dict (list string);
  dtype_constraints : dict string
}.

Definition allowed (info : dtype_info) (variable : string) : list string :=
  match dict_get variable (dtype_variables info) with
  | Some names => names
  | None => []
  end.

Definition is_allowed (info : dtype_info) (variable : string) (d : dtype) : bool :=
  existsb (String.eqb (datatype.name d)) (allowed info variable).

(** Modelled from the spec: the constraint checker [check] of section 4.2,
    which the decorators [constraints.dtype_info] and [wrappers.interface]
    apply before the body of an operation runs; their code is not among the
    sources. The parameters are taken in declaration order with the bindings
    made so far; an unbound variable is bound to the dtype of the argument if
    that dtype is allowed for it, a bound one must be equal to it. *)
Fixpoint check_params (info : dtype_info) (bound : dict dtype)
    (arguments : list (string * dtype)) : Result (dict dtype) :=
  match arguments with
  | [] => Return bound
  | (param, d) :: rest =>
      match dict_get param (dtype_constraints info) with
      | None => check_params info bound rest
      | Some variable =>
          match dict_get variable bound with
          | None =>
              if is_allowed info variable d
              then check_params info (bound ++ [(variable, d)]) rest
              else Raise (TripyException
                            (DtypeNotAllowed param d (allowed info variable)))
          | Some expected =>
              if datatype.eqb d expected
              then check_params info bound rest
              else Raise (TripyException (DtypeMismatch expected d param))
          end
      end
  end.

Definition check (info : dtype_info) (arguments : list (string * dtype))
  : Result (dict dtype) :=
  check_params info [] arguments.

(** Modelled from the spec: what the decorators make of a function (their
    code is not among the sources): the check runs once, before the body, and
    the body runs only if the check succeeds. *)
Definition decorated {A} (info : dtype_info) (arguments : list (string * dtype))
    (body : Result A) : Result A :=
  match check info arguments with
  | Raise e => Raise e
  | Return _ => body
  end.
End constraints.

(** ** [tripy/frontend/trace/ops/unary_elementwise.py] *)

Module unary_elementwise.
Inductive Kind : Set := EXP | TANH | RSQRT | LOG | SINE | COSINE | SQRT | ABS.

Record UnaryElementwise : Set := build {
  inputs : list Tensor;
  kind : Kind
}.

Definition T1 (names : list string) : constraints.dtype_info :=
  {| constraints.dtype_variables := [("T1", names)];
     constraints.dtype_constraints :=
       [("input", "T1"); (constraints.RETURN_VALUE, "T1")] |}.

Definition float_dtypes : list string := ["float32"; "float16"; "bfloat16"].
Definition float_and_float8_dtypes : list string :=
  ["float32"; "float16"; "bfloat16"; "float8"].
Definition abs_dtypes : list string :=
  ["float32"; "float16"; "bfloat16"; "int8"; "int32"].

Definition unary (names : list string) (k : Kind) (input : Tensor)
  : Result UnaryElementwise :=
  constraints.decorated (T1 names) [("input", Tensor_dtype input)]
    (Return (build [input] k)).

Definition exp := unary float_dtypes EXP.
Definition tanh := unary float_dtypes TANH.
Definition sin := unary float_dtypes SINE.
Definition cos := unary float_dtypes COSINE.
Definition rsqrt := unary float_and_float8_dtypes RSQRT.
Definition sqrt := unary float_and_float8_dtypes SQRT.
Definition log := unary float_dtypes LOG.

Definition abs (input : Tensor) : Result UnaryElementwise :=
  constraints.decorated (T1 abs_dtypes) [("input", Tensor_dtype input)]
    (if datatype.eqb (Tensor_dtype input) datatype.int64
     then Raise (TripyException
                   (ErrorMessage
                      "Known issue with i64. Abs currently does not work with int64 inputs. Issue #116"))
     else Return (build [input] ABS)).
End unary_elementwise.

(** ** [nvtripy/frontend/ops/squeeze.py] *)

Module squeeze_op.
(** The [dims] argument: [Union[Sequence[int], int]]. *)
Inductive dims_argument : Set :=
| dims_int (d : Z)
| dims_sequence (ds : list Z).

(** [utils.utils.make_tuple] *)
Definition make_tuple (dims : dims_argument) : list Z :=
  match dims with
  | dims_int d => [d]
  | dims_sequence ds => ds
  end.

Definition squeeze_dtypes : list string :=
  ["float32"; "float16"; "bfloat16"; "float8"; "int8"; "int32"; "int64"; "bool"].

Definition squeeze_info : constraints.dtype_info :=
  {| constraints.dtype_variables := [("T1", squeeze_dtypes)];
     constraints.dtype_constraints :=
       [("input", "T1"); (constraints.RETURN_VALUE, "T1")] |}.

Fixpoint remove_dims (shape : list Z) (dims : list Z) (i : Z) : Result (list Z) :=
  match shape with
  | [] => Return []
  | size :: rest =>
      match remove_dims rest dims (i + 1)%Z with
      | Raise e => Raise e
      | Return rest' =>
          if existsb (Z.eqb i) dims
          then if (size =? 1)%Z then Return rest'
               else Raise (TripyException
                             (ErrorMessage "Cannot squeeze a dimension whose size is not 1"))
          else Return (size :: rest')
      end
  end.

(** Modelled from the spec: the [Squeeze] trace operation that
    [op_utils.create_op(Squeeze, [input], dims)] builds, whose code is not
    among the sources. The target dimensions are removed from the shape (each
    must have size 1); with no target dimensions, every dimension of size 1 is
    removed. The dtype is that of the input. *)
Definition create_op_Squeeze (input : Tensor) (dims : list Z) : Result Tensor :=
  let t := trace_tensor input in
  match dims with
  | [] =>
      Return (fast_init {| tt_name := tt_name t;
                           tt_shape := filter (fun size => negb (size =? 1)%Z) (tt_shape t);
                           tt_dtype := tt_dtype t |})
  | _ =>
      match remove_dims (tt_shape t) dims 0 with
      | Raise e => Raise e
      | Return shape =>
          Return (fast_init {| tt_name := tt_name t; tt_shape := shape;
                               tt_dtype := tt_dtype t |})
      end
  end.

(** [squeeze(input, dims)]. Both parameters are required: a call that leaves
    [dims] out ([None] here) cannot be bound to the parameters and raises
    [TypeError]; the body does not run. *)
Definition squeeze (input : Tensor) (dims : option dims_argument) : Result Tensor :=
  match dims with
  | None => Raise (TypeError "squeeze() missing 1 required positional argument: 'dims'")
  | Some dims =>
      constraints.decorated squeeze_info [("input", Tensor_dtype input)]
        (create_op_Squeeze input (make_tuple dims))
  end.
End squeeze_op.

(** ** [nvtripy/trace/ops/convolution.py] *)

Module trace.
(** A tensor of the trace: rank and dtype are unset until they are inferred. *)
Record TraceTensor : Set := {
  name : string;
  rank : option nat;
  dtype : option datatype.dtype
}.

Record Convolution : Set := {
  inputs : list TraceTensor;
  outputs : list TraceTensor;
  padding : list (list Z);
  stride : list Z;
  groups : Z;
  lhs_dilation : list Z;
  rhs_dilation : list Z
}.

Definition set_outputs (self : Convolution) (outs : list TraceTensor) : Convolution :=
  {| inputs := inputs self; outputs := outs; padding := padding self;
     stride := stride self; groups := groups self;
     lhs_dilation := lhs_dilation self; rhs_dilation := rhs_dilation self |}.

(** Modelled from the spec: [op_utils.InferRankPolicies.same_as_input], whose
    code is not among the sources: the policy that gives the first output the
    rank of a designated input, the first one unless another index is given. *)
Definition same_as_input (idx : nat) (self : Convolution) : Result Convolution :=
  match nth_error (inputs self) idx, outputs self with
  | Some input, out :: outs =>
      Return (set_outputs self
                ({| name := name out; rank := rank input; dtype := dtype out |} :: outs))
  | _, _ => Raise IndexError
  end.

(** [infer_rank = op_utils.InferRankPolicies.same_as_input()] *)
Definition infer_rank : Convolution -> Result Convolution := same_as_input 0.

(** [infer_dtypes]: [self.outputs[0].dtype = self.inputs[0].dtype] *)
Definition infer_dtypes (self : Convolution) : Result Convolution :=
  match inputs self, outputs self with
  | input :: _, out :: outs =>
      Return (set_outputs self
                ({| name := name out; rank := rank out; dtype := dtype input |} :: outs))
  | _, _ => Raise IndexError
  end.

(** Modelled from the spec: the construction of a node ([BaseTraceOp.build] is
    not among the sources): the node gets one output with nothing known about
    it, and then its rank and its dtype are inferred. *)
Definition build (ins : list TraceTensor) (padding : list (list Z))
    (stride : list Z) (groups : Z) (lhs_dilation rhs_dilation : list Z)
  : Result Convolution :=
  let fresh := {| name := "out"; rank := None; dtype := None |} in
  let node := {| inputs := ins; outputs := [fresh]; padding := padding;
                 stride := stride; groups := groups;
                 lhs_dilation := lhs_dilation; rhs_dilation := rhs_dilation |} in
  match infer_rank node with
  | Raise e => Raise e
  | Return node => infer_dtypes node
  end.
End trace.

(** ** [tripy/flat_ir/ops/constant.py] *)

Module flat_ir.
Inductive PointerType : Set := host | pinned_host | device.

(** A memref of the runtime: where it lives, its shape and dtype, and the
    bytes of its buffer. The buffer is dense (C-contiguous), as the runtime
    allocates it. *)
Record MemRefValue : Set := {
  address_space : PointerType;
  memref_value_shape : list Z;
  memref_value_dtype : datatype.dtype;
  contents : list byte
}.

(** The data of a constant that is not a memref: a number or a nesting of
    sequences of numbers. *)
Inductive number : Set :=
| py_int (z : Z)
| py_bool (b : Datatypes.bool)
| py_float (literal : string).

Inductive sequence : Set :=
| Number (n : number)
| Sequence (elements : list sequence).

Inductive constant_data : Set :=
| memref_data (m : MemRefValue)
| sequence_data (s : sequence).

Record FlatIRTensor : Set := {
  tensor_shape : list Z;
  tensor_dtype : datatype.dtype
}.

Record ConstantOp : Set := {
  outputs : list FlatIRTensor;
  data : constant_data
}.

(** The MLIR that is built. *)
Record RankedTensorType : Set := {
  element_type : datatype.dtype;
  type_shape : list Z
}.

Inductive DenseElementsAttr : Set :=
| DenseElementsAttr_array (array : MemRefValue) (type : datatype.dtype) (shape : list Z)
| DenseElementsAttr_attrs (attrs : list (datatype.dtype * number)) (type : RankedTensorType).

Inductive Operation : Set :=
| stablehlo_ConstantOp (attr : DenseElementsAttr)
| stablehlo_ConvertOp (result : RankedTensorType) (operand : Operation).

(** [runtime_client.copy_to_host]: the same memref in host memory. *)
Definition copy_to_host (device_memref : MemRefValue) : MemRefValue :=
  {| address_space := host;
     memref_value_shape := memref_value_shape device_memref;
     memref_value_dtype := memref_value_dtype device_memref;
     contents := contents device_memref |}.

(** [runtime_client.create_memref(array, shape=, dtype=, device=None)]: a host
    memref over the bytes of [array]. *)
Definition create_memref (array : list byte) (shape : list Z) (d : datatype.dtype)
  : MemRefValue :=
  {| address_space := host; memref_value_shape := shape;
     memref_value_dtype := d; contents := array |}.

(** A byte read with the format ["b"]: a signed char. *)
Definition signed_char (b : byte) : Z :=
  let n := Z.of_N (Byte.to_N b) in
  if (n <? 128)%Z then n else (n - 256)%Z.

(** [memoryview(m).cast("b").tolist()]. The view has the shape of the memref;
    the cast to one dimension of bytes is refused for a view that does not
    have exactly one dimension and has a dimension of size zero. Otherwise the
    list has every byte of the buffer, as a signed char. *)
Definition memoryview_cast_b_tolist (m : MemRefValue) : Result (list Z) :=
  if negb (Nat.eqb (length (memref_value_shape m)) 1)
     && existsb (Z.eqb 0) (memref_value_shape m)
  then Raise (TypeError "memoryview: cannot cast view with zeros in shape or strides")
  else Return (map signed_char (contents m)).

Definition byte_of_Z (z : Z) : byte :=
  match Byte.of_N (Z.to_N (z mod 256)) with
  | Some b => b
  | None => x00
  end.

(** The four bytes of a C [int], least significant first. *)
Definition int_bytes (z : Z) : list byte :=
  let u := (z mod 4294967296)%Z in
  [byte_of_Z u; byte_of_Z (u / 256); byte_of_Z (u / 65536); byte_of_Z (u / 16777216)].

(** The buffer of [array.array("i", values)]: four bytes for each value, in
    the byte order of the machine (little-endian). *)
Definition array_i (values : list Z) : list byte := flat_map int_bytes values.

(** The values of a buffer of C [int]s, read back. *)
Definition int_of_bytes (b0 b1 b2 b3 : byte) : Z :=
  let u := (Z.of_N (Byte.to_N b0) + 256 * Z.of_N (Byte.to_N b1)
            + 65536 * Z.of_N (Byte.to_N b2) + 16777216 * Z.of_N (Byte.to_N b3))%Z in
  if (u <? 2147483648)%Z then u else (u - 4294967296)%Z.

Fixpoint array_i_tolist (buffer : list byte) : list Z :=
  match buffer with
  | b0 :: b1 :: b2 :: b3 :: rest => int_of_bytes b0 b1 b2 b3 :: array_i_tolist rest
  | _ => []
  end.

(** [mlir_utils.make_mlir_tensor(dtype, shape)] and [FlatIRTensor.to_mlir()] *)
Definition make_mlir_tensor (d : datatype.dtype) (shape : list Z) : RankedTensorType :=
  {| element_type := d; type_shape := shape |}.

Definition FlatIRTensor_to_mlir (t : FlatIRTensor) : RankedTensorType :=
  make_mlir_tensor (tensor_dtype t) (tensor_shape t).

(** The local function [to_attrs] of the second branch. *)
Fixpoint to_attrs (out_dtype : datatype.dtype) (data : sequence)
  : list (datatype.dtype * number) :=
  match data with
  | Number n => [(out_dtype, n)]
  | Sequence elements =>
      (fix extend (elements : list sequence) : list (datatype.dtype * number) :=
         match elements with
         | [] => []
         | element :: rest => to_attrs out_dtype element ++ extend rest
         end) elements
  end.

(** Building an operation inserts it at the insertion point: a computation
    returns its value together with the operations it has inserted, in order. *)
Definition Builder (A : Type) : Type := list Operation * A.

Definition insert (op : Operation) : Builder Operation := ([op], op).

(** [ConstantOp.to_mlir] *)
Definition to_mlir (self : ConstantOp) : Result (Builder (list Operation)) :=
  match outputs self with
  | [] => Raise IndexError
  | output :: _ =>
      match data self with
      | memref_data self_data =>
          let data_memref := self_data in
          let data_memref :=
            match address_space data_memref with
            | device => copy_to_host data_memref
            | _ => data_memref
            end in
          if datatype.eqb (tensor_dtype output) datatype.bool then
            match memoryview_cast_b_tolist data_memref with
            | Raise e => Raise e
            | Return values =>
                let int_memref :=
                  create_memref (array_i values)
                    (memref_value_shape self_data) datatype.int32 in
                let attr :=
                  DenseElementsAttr_array int_memref datatype.int32
                    (memref_value_shape data_memref) in
                let cast_output :=
                  make_mlir_tensor datatype.bool (memref_value_shape data_memref) in
                let (inserted, constant_op) := insert (stablehlo_ConstantOp attr) in
                let (inserted', convert_op) :=
                  insert (stablehlo_ConvertOp cast_output constant_op) in
                Return (inserted ++ inserted', [convert_op])
            end
          else
            let attr :=
              DenseElementsAttr_array data_memref (tensor_dtype output)
                (memref_value_shape data_memref) in
            let (inserted, constant_op) := insert (stablehlo_ConstantOp attr) in
            Return (inserted, [constant_op])
      | sequence_data self_data =>
          let out_dtype := tensor_dtype output in
          let attr :=
            DenseElementsAttr_attrs (to_attrs out_dtype self_data)
              (FlatIRTensor_to_mlir output) in
          let (inserted, constant_op) := insert (stablehlo_ConstantOp attr) in
          Return (inserted, [constant_op])
      end
  end.
End flat_ir.

(** ** A runtime to run the model on

    The artifact is its own serialized form; the signature and the behaviour
    of the executor are functions of these bytes. *)
Definition bytes_runtime
    (signature_of : list byte -> FunctionSignature dtype)
    (run : list byte -> list device -> list TraceTensor -> Result (list TraceTensor))
  : Runtime :=
  {| ScalarTypeCode := dtype;
     convert_runtime_dtype_to_tripy_dtype := fun d => d;
     runtime_Executable := list byte;
     runtime_Executable_of_bytes := fun bs => Return bs;
     serialize := fun x => x;
     get_signature := signature_of;
     Executor_execute := run |}.

Definition static_memref (shape : list Z) (d : dtype) : MemRefType dtype * ArgBound :=
  ({| memref_shape := shape; memref_dtype := d |},
   {| bound_min := []; bound_max := [] |}).

Definition dynamic_memref (shape : list Z) (d : dtype) (bounds : list (Z * Z))
  : MemRefType dtype * ArgBound :=
  ({| memref_shape := shape; memref_dtype := d |},
   {| bound_min := map fst bounds; bound_max := map snd bounds |}).

Definition tensor (name : string) (shape : list Z) (d : dtype) : Tensor :=
  fast_init {| tt_name := name; tt_shape := shape; tt_dtype := d |}.

(** [add(a, b)] over two [float32] tensors of shape [(1,)], with a runtime
    that answers with one tensor. *)
Definition add_signature : FunctionSignature dtype :=
  {| input_args := [static_memref [1%Z] datatype.float32;
                    static_memref [1%Z] datatype.float32];
     output_args := [static_memref [1%Z] datatype.float32] |}.

Definition add_runtime : Runtime :=
  bytes_runtime (fun _ => add_signature)
    (fun _ _ _ => Return [{| tt_name := "out"; tt_shape := [1%Z];
                             tt_dtype := datatype.float32 |}]).

Definition compiled_add : @Executable add_runtime :=
  {| _executable := ([] : list byte) : @runtime_Executable add_runtime;
     _arg_names := ["a"; "b"];
     _num_expected_args := 2;
     _output_devices := [Device "gpu" 0];
     _executable_signature := add_signature;
     __signature__ := {| parameters := map positional_or_keyword ["a"; "b"];
                         return_annotation := Tensor_annotation |} |}.

(** A function of one [float32] argument [x] of shape [(2,)]. Its runtime
    checks the element type of the input against the signature, the way the
    MLIR-TensorRT session does, and raises with that message. *)
Definition unary_signature : FunctionSignature dtype :=
  {| input_args := [static_memref [2%Z] datatype.float32];
     output_args := [static_memref [2%Z] datatype.float32] |}.

Definition element_type_message : string :=
  "InvalidArgument: Input argument 0 validation failed against corresponding function signature arg 0. Reason: function expects a memref type with element type f32 but receieved i32".

Definition unary_runtime : Runtime :=
  bytes_runtime (fun _ => unary_signature)
    (fun _ _ inputs =>
       if forallb (fun t => datatype.eqb (tt_dtype t) datatype.float32) inputs
       then Return [{| tt_name := "out"; tt_shape := [2%Z];
                       tt_dtype := datatype.float32 |}]
       else Raise (MTRTException element_type_message)).

Definition compiled_unary : @Executable unary_runtime :=
  {| _executable := ([] : list byte) : @runtime_Executable unary_runtime;
     _arg_names := ["x"];
     _num_expected_args := 1;
     _output_devices := [Device "gpu" 0];
     _executable_signature := unary_signature;
     __signature__ := {| parameters := map positional_or_keyword ["x"];
                         return_annotation := Tensor_annotation |} |}.

(** A function of one [float32] argument [x] whose only dimension is dynamic,
    with bounds [(1, 4)]. Its runtime refuses sizes outside the bounds. *)
Definition dynamic_dimension : Z := (-9223372036854775808)%Z.

Definition dynamic_signature : FunctionSignature dtype :=
  {| input_args := [dynamic_memref [dynamic_dimension] datatype.float32 [(1, 4)%Z]];
     output_args := [dynamic_memref [dynamic_dimension] datatype.float32 [(1, 4)%Z]] |}.

Definition input_shape_message : string :=
  "InternalError: failed to set input shape".

Definition dynamic_runtime : Runtime :=
  bytes_runtime (fun _ => dynamic_signature)
    (fun _ _ inputs =>
       match inputs with
       | [t] =>
           match tt_shape t with
           | [n] => if ((1 <=? n) && (n <=? 4))%Z
                    then Return [t]
                    else Raise (MTRTException input_shape_message)
           | _ => Raise (MTRTException "function expects a memref type with rank 1")
           end
       | _ => Raise (MTRTException "wrong number of arguments")
       end).

Definition compiled_dynamic : @Executable dynamic_runtime :=
  {| _executable := ([] : list byte) : @runtime_Executable dynamic_runtime;
     _arg_names := ["x"];
     _num_expected_args := 1;
     _output_devices := [Device "gpu" 0];
     _executable_signature := dynamic_signature;
     __signature__ := {| parameters := map positional_or_keyword ["x"];
                         return_annotation := Tensor_annotation |} |}.

(** The numbers below [n], to check a property of bytes or of sextets on all
    of them. *)
Definition N_below (n : nat) : list N := map N.of_nat (seq 0 n).

(** ** [UnaryElementwise.to_flat_ir] *)

Module unary_lowering.
(** The flat-IR operations the unary kinds are lowered to. *)
Inductive FlatIROpType : Set :=
| ExpOp | LogOp | RsqrtOp | TanhOp | SineOp | CosineOp | SqrtOp | AbsOp.

(** What [OpType.build(inputs, outputs)] builds. *)
Record FlatIROp : Set := {
  op_type : FlatIROpType;
  op_inputs : list flat_ir.FlatIRTensor;
  op_outputs : list flat_ir.FlatIRTensor
}.

Definition Kind_eqb (a b : unary_elementwise.Kind) : bool :=
  match a, b with
  | unary_elementwise.EXP, unary_elementwise.EXP
  | unary_elementwise.TANH, unary_elementwise.TANH
  | unary_elementwise.RSQRT, unary_elementwise.RSQRT
  | unary_elementwise.LOG, unary_elementwise.LOG
  | unary_elementwise.SINE, unary_elementwise.SINE
  | unary_elementwise.COSINE, unary_elementwise.COSINE
  | unary_elementwise.SQRT, unary_elementwise.SQRT
  | unary_elementwise.ABS, unary_elementwise.ABS => true
  | _, _ => false
  end.

(** The dictionary literal of [to_flat_ir], in the order it is written. *)
Definition OpType : list (unary_elementwise.Kind * FlatIROpType) :=
  [(unary_elementwise.EXP, ExpOp);
   (unary_elementwise.TANH, TanhOp);
   (unary_elementwise.RSQRT, RsqrtOp);
   (unary_elementwise.LOG, LogOp);
   (unary_elementwise.SINE, SineOp);
   (unary_elementwise.COSINE, CosineOp);
   (unary_elementwise.SQRT, SqrtOp);
   (unary_elementwise.ABS, AbsOp)].

Fixpoint lookup (k : unary_elementwise.Kind)
    (table : list (unary_elementwise.Kind * FlatIROpType)) : option FlatIROpType :=
  match table with
  | [] => None
  | (k', v) :: rest => if Kind_eqb k k' then Some v else lookup k rest
  end.

(** [UnaryElementwise.to_flat_ir]; [None] is the [KeyError] of the dictionary
    look-up. *)
Definition to_flat_ir (self : unary_elementwise.UnaryElementwise)
    (inputs outputs : list flat_ir.FlatIRTensor) : option FlatIROp :=
  match lookup (unary_elementwise.kind self) OpType with
  | None => None
  | Some T => Some {| op_type := T; op_inputs := inputs; op_outputs := outputs |}
  end.
End unary_lowering.

(** ** The result type of the operations [ConstantOp.to_mlir] builds *)

Module mlir.
(** A [stablehlo.constant] has the type of its attribute, a
    [stablehlo.convert] the result type it was given. *)
Definition attr_type (attr : flat_ir.DenseElementsAttr) : flat_ir.RankedTensorType :=
  match attr with
  | flat_ir.DenseElementsAttr_array _ type shape =>
      {| flat_ir.element_type := type; flat_ir.type_shape := shape |}
  | flat_ir.DenseElementsAttr_attrs _ type => type
  end.

Definition result_type (op : flat_ir.Operation) : flat_ir.RankedTensorType :=
  match op with
  | flat_ir.stablehlo_ConstantOp attr => attr_type attr
  | flat_ir.stablehlo_ConvertOp result _ => result
  end.

(** Nested data all of whose sequences at one depth have the same length. *)
Fixpoint has_shape (data : flat_ir.sequence) (dims : list nat) : bool :=
  match data, dims with
  | flat_ir.Number _, [] => true
  | flat_ir.Sequence elements, d :: dims' =>
      Nat.eqb (length elements) d
      && (fix all (elements : list flat_ir.sequence) : bool :=
            match elements with
            | [] => true
            | element :: rest => has_shape element dims' && all rest
            end) elements
  | _, _ => false
  end.
End mlir.

(** ** Executables for the examples *)

(** An executable over a runtime with one signature and one behaviour. *)
Definition fixture (sig : FunctionSignature dtype)
    (run : list device -> list TraceTensor -> Result (list TraceTensor))
    (names : list string)
  : @Executable (bytes_runtime (fun _ => sig) (fun _ => run)) :=
  {| _executable := ([] : list byte)
                    : @runtime_Executable (bytes_runtime (fun _ => sig) (fun _ => run));
     _arg_names := names;
     _num_expected_args := length names;
     _output_devices := [Device "gpu" 0];
     _executable_signature := sig;
     __signature__ :=
       {| parameters := map positional_or_keyword names;
          return_annotation :=
            if Nat.eqb (length (output_args sig)) 1
            then Tensor_annotation else Sequence_Tensor_annotation |} |}.

Definition raising (msg : string) : list device -> list TraceTensor -> Result (list TraceTensor) :=
  fun _ _ => Raise (MTRTException msg).

Definition echo : list device -> list TraceTensor -> Result (list TraceTensor) :=
  fun _ inputs => Return inputs.

(** Two inputs: [a] of static shape [(2,)] and [b] with one dynamic dimension
    bounded by [(1, 4)]; two outputs. *)
Definition pair_signature : FunctionSignature dtype :=
  {| input_args := [static_memref [2%Z] datatype.float32;
                    dynamic_memref [dynamic_dimension] datatype.float32 [(1, 4)%Z]];
     output_args := [static_memref [2%Z] datatype.float32;
                     dynamic_memref [dynamic_dimension] datatype.float32 [(1, 4)%Z]] |}.

(** * Properties *)

(** ** Python dictionaries *)

Lemma dict_get_del_other {V} (k k' : string) (d : dict V) :
  k <> k' -> dict_get k (dict_del k' d) = dict_get k d.
Proof.
  intros Hne. induction d as [|[k0 v] d IH]; simpl; auto.
  destruct (String.eqb_spec k' k0) as [->|Hk0]; simpl.
  - destruct (String.eqb_spec k k0); [congruence|exact IH].
  - destruct (String.eqb_spec k k0); [reflexivity|exact IH].
Qed.

Lemma dict_get_None_iff {V} (k : string) (d : dict V) :
  dict_get k d = None <-> ~ In k (dict_keys d).
Proof.
  induction d as [|[k0 v] d IH]; simpl.
  - tauto.
  - destruct (String.eqb_spec k k0) as [->|Hne].
    + split; [discriminate|]. intros H; exfalso; apply H; now left.
    + rewrite IH. split.
      * intros H [Heq|Hin]; [congruence|tauto].
      * tauto.
Qed.

Lemma dict_get_In {V} (k : string) (v : V) (d : dict V) :
  NoDup (dict_keys d) -> In (k, v) d -> dict_get k d = Some v.
Proof.
  induction d as [|[k0 v0] d IH]; simpl; [tauto|].
  intros Hnd [Heq|Hin].
  - inversion Heq; subst. now rewrite String.eqb_refl.
  - inversion Hnd as [|? ? Hnotin Hnd']; subst.
    destruct (String.eqb_spec k k0) as [->|Hne].
    + exfalso. apply Hnotin. unfold dict_keys.
      change k0 with (fst (k0, v)). now apply in_map.
    + now apply IH.
Qed.

(** The keys of [kwargs] that binding against [expected] leaves behind. *)
Lemma filter_del {V} (name : string) (rest : list string) (d : dict V) :
  filter (fun kv => negb (existsb (String.eqb (fst kv)) rest)) (dict_del name d)
  = filter (fun kv => negb (existsb (String.eqb (fst kv)) (name :: rest))) d.
Proof.
  unfold dict_del. induction d as [|[k v] d IH]; simpl; auto.
  rewrite (String.eqb_sym k name).
  destruct (String.eqb name k); simpl; [exact IH|].
  destruct (existsb (String.eqb k) rest); simpl; [exact IH|now rewrite IH].
Qed.

(** ** The binding loop *)

Section Binding.
Context {RT : Runtime}.

(** The values [kwargs] holds for the names [expected], in that order. *)
Lemma bind_kwargs_returns (arg_names expected : list string) :
  NoDup expected ->
  forall (acc : list Tensor) (kwargs : dict Tensor) (vs : list Tensor),
    Forall2 (fun n v => dict_get n kwargs = Some v) expected vs ->
    bind_kwargs arg_names expected acc kwargs
    = Return (acc ++ vs,
              filter (fun kv => negb (existsb (String.eqb (fst kv)) expected)) kwargs).
Proof.
  induction 1 as [|name rest Hnotin Hnd IH]; intros acc kwargs vs Hall.
  - inversion Hall; subst. simpl. rewrite app_nil_r.
    replace (filter (fun _ => true) kwargs) with kwargs; [reflexivity|].
    clear. induction kwargs as [|kv d IHd]; simpl; congruence.
  - inversion Hall as [|? v ? vs' Hget Hrest]; subst. simpl.
    rewrite Hget. rewrite (IH (acc ++ [v]) (dict_del name kwargs) vs').
    + rewrite <- app_assoc. simpl. now rewrite filter_del.
    + clear -Hrest Hnotin. induction Hrest as [|n w ns ws Hn Hns IHr]; constructor.
      * rewrite dict_get_del_other; auto. intros ->. apply Hnotin. now left.
      * apply IHr. intros Hin. apply Hnotin. now right.
Qed.

(** The first expected name without a keyword value stops the loop. *)
Lemma bind_kwargs_missing (arg_names : list string) (name : string) :
  forall (before after : list string) (acc : list Tensor) (kwargs : dict Tensor),
    NoDup (before ++ name :: after) ->
    (forall n, In n before -> dict_get n kwargs <> None) ->
    dict_get name kwargs = None ->
    bind_kwargs arg_names (before ++ name :: after) acc kwargs
    = Raise (TripyException (MissingArgument name arg_names)).
Proof.
  induction before as [|n before IH]; intros after acc kwargs Hnd Hall Hnone; simpl.
  - now rewrite Hnone.
  - destruct (dict_get n kwargs) as [v|] eqn:Hn.
    + simpl in Hnd. inversion Hnd as [|? ? Hnotin Hnd']; subst.
      apply IH; auto.
      * intros m Hm. rewrite dict_get_del_other; [apply Hall; now right|].
        intros ->. apply Hnotin, in_or_app. now left.
      * rewrite dict_get_del_other; auto.
        intros ->. apply Hnotin, in_or_app. right. now left.
    + exfalso. apply (Hall n); [now left|exact Hn].
Qed.
End Binding.

Lemma build_params_Return (names : list string) (params : list Param) :
  build_params names = Return params ->
  Forall2 (fun name param =>
             inspect_Parameter name POSITIONAL_OR_KEYWORD = Return param)
          names params.
Proof.
  revert params. induction names as [|name rest IH]; intros params; simpl.
  - intros H. inversion H. constructor.
  - destruct (inspect_Parameter name POSITIONAL_OR_KEYWORD) as [param|err] eqn:Hp;
      [|discriminate].
    destruct (build_params rest) as [ps|err]; [|discriminate].
    intros H. inversion H; subst. constructor; auto.
Qed.

Lemma validate_parameters_None (seen : list string) (top_kind : ParameterKind)
    (params : list Param) :
  validate_parameters seen top_kind params = None ->
  NoDup (map param_name params)
  /\ forall param, In param params -> ~ In (param_name param) seen.
Proof.
  revert seen top_kind.
  induction params as [|param rest IH]; intros seen top_kind; simpl.
  - intros _. split; [constructor|intros ? []].
  - destruct (Nat.ltb _ _); [discriminate|].
    destruct (existsb (String.eqb (param_name param)) seen) eqn:Hseen;
      [discriminate|].
    intros H. destruct (IH _ _ H) as [Hnd Hfresh].
    assert (Hnew : ~ In (param_name param) seen).
    { intros Hin.
      assert (existsb (String.eqb (param_name param)) seen = true) as Habs.
      { apply existsb_exists. exists (param_name param).
        split; [exact Hin|apply String.eqb_refl]. }
      congruence. }
    split.
    + constructor; [|exact Hnd].
      intros Hin. apply in_map_iff in Hin. destruct Hin as (q & Hq & Hin).
      apply (Hfresh q Hin). left. now symmetry.
    + intros q [<-|Hin]; [exact Hnew|].
      intros Hq. apply (Hfresh q Hin). now right.
Qed.

Lemma Forall2_Return_NoDup {A B C} (f : A -> Result B) (g : B -> C)
    (l : list A) (l' : list B) :
  Forall2 (fun a b => f a = Return b) l l' -> NoDup (map g l') -> NoDup l.
Proof.
  induction 1 as [|a b l l' Hab Hrest IH]; simpl; intros Hnd; [constructor|].
  inversion Hnd as [|? ? Hnotin Hnd']; subst.
  constructor; [|now apply IH].
  intros Hin. apply Hnotin.
  clear IH Hnd Hnd' Hnotin. induction Hrest as [|a' b' l l' Hab' Hrest IH].
  - destruct Hin.
  - destruct Hin as [->|Hin].
    + left. congruence.
    + right. now apply IH.
Qed.

Lemma identifier_not_implicit (first : ascii) (rest : string) :
  str_isidentifier (String first rest) = true -> Ascii.eqb first "." = false.
Proof.
  intros H. destruct (Ascii.eqb_spec first "."%char) as [->|]; [|reflexivity].
  discriminate H.
Qed.

Lemma inspect_Parameter_identifier (name : string) :
  str_isidentifier name = true -> iskeyword name = false ->
  inspect_Parameter name POSITIONAL_OR_KEYWORD = Return (positional_or_keyword name).
Proof.
  intros Hid Hkw. destruct name as [|first rest]; [discriminate|].
  unfold inspect_Parameter.
  rewrite (identifier_not_implicit _ _ Hid). cbn [andb].
  rewrite Hkw, Hid. reflexivity.
Qed.

Lemma keyword_not_implicit (name : string) :
  iskeyword name = true ->
  exists first rest, name = String first rest /\ Ascii.eqb first "." = false.
Proof.
  intros H. apply existsb_exists in H. destruct H as (k & Hin & Heq).
  apply String.eqb_eq in Heq. subst k.
  simpl in Hin.
  repeat (destruct Hin as [<-|Hin]; [eexists; eexists; split; reflexivity|]).
  destruct Hin.
Qed.

Lemma inspect_Parameter_refused (name : string) :
  iskeyword name = true
  \/ (str_isidentifier name = false /\ name <> ""
      /\ forall rest, name <> String "." rest) ->
  inspect_Parameter name POSITIONAL_OR_KEYWORD
  = Raise (ValueError (repr name ++ " is not a valid parameter name")%string).
Proof.
  intros [Hkw|(Hid & Hne & Hdot)].
  - destruct (keyword_not_implicit _ Hkw) as (first & rest & -> & Hfirst).
    unfold inspect_Parameter. rewrite Hfirst. cbn [andb]. now rewrite Hkw.
  - destruct name as [|first rest]; [congruence|].
    assert (Hfirst : Ascii.eqb first "." = false).
    { destruct (Ascii.eqb_spec first "."%char) as [->|]; [|reflexivity].
      now destruct (Hdot rest). }
    unfold inspect_Parameter. rewrite Hfirst. cbn [andb].
    rewrite Hid. now rewrite orb_true_r.
Qed.

Lemma build_params_identifiers (names : list string) :
  Forall (fun name => str_isidentifier name = true /\ iskeyword name = false)
         names ->
  build_params names = Return (map positional_or_keyword names).
Proof.
  induction 1 as [|name rest [Hid Hkw] _ IH]; [reflexivity|].
  simpl. now rewrite (inspect_Parameter_identifier _ Hid Hkw), IH.
Qed.

Lemma build_params_first_refused (before : list string) (bad : string)
    (after : list string) (err : Exception) :
  Forall (fun name => str_isidentifier name = true /\ iskeyword name = false)
         before ->
  inspect_Parameter bad POSITIONAL_OR_KEYWORD = Raise err ->
  build_params (before ++ bad :: after) = Raise err.
Proof.
  intros Hbefore Hbad.
  induction Hbefore as [|name rest [Hid Hkw] _ IH]; simpl.
  - now rewrite Hbad.
  - now rewrite (inspect_Parameter_identifier _ Hid Hkw), IH.
Qed.

Lemma validate_parameters_distinct (seen : list string)
    (top_kind : ParameterKind) (names : list string) :
  kind_value top_kind <= 1 ->
  NoDup names -> (forall name, In name names -> ~ In name seen) ->
  validate_parameters seen top_kind (map positional_or_keyword names) = None.
Proof.
  revert seen top_kind.
  induction names as [|name rest IH]; intros seen top_kind Htop Hnd Hfresh;
    [reflexivity|].
  inversion Hnd as [|? ? Hnotin Hnd']; subst.
  cbn [map validate_parameters positional_or_keyword param_kind param_name
       kind_value].
  assert (Hlt : Nat.ltb 1 (kind_value top_kind) = false)
    by (apply Nat.ltb_ge; exact Htop).
  rewrite Hlt.
  assert (Hseen : existsb (String.eqb name) seen = false).
  { destruct (existsb (String.eqb name) seen) eqn:Hex; [|reflexivity].
    apply existsb_exists in Hex. destruct Hex as (k & Hin & Heq).
    apply String.eqb_eq in Heq. subst k.
    exfalso. apply (Hfresh name); [now left|exact Hin]. }
  rewrite Hseen.
  apply IH.
  - destruct (Nat.ltb (kind_value top_kind) 1); [apply Nat.le_refl|exact Htop].
  - exact Hnd'.
  - intros k Hk [<-|Hin].
    + contradiction.
    + apply (Hfresh k); [now right|exact Hin].
Qed.

Lemma first_true_split {A} (f : A -> bool) (l : list A) :
  (forall x, In x l -> f x = false)
  \/ exists before x after,
       l = before ++ x :: after /\ f x = true
       /\ forall y, In y before -> f y = false.
Proof.
  induction l as [|a l IH].
  - left. intros x [].
  - destruct (f a) eqn:Ha.
    + right. exists [], a, l. repeat split; auto. intros y [].
    + destruct IH as [Hall|(before & x & after & -> & Hx & Hbefore)].
      * left. intros x [<-|Hin]; auto.
      * right. exists (a :: before), x, after. repeat split; auto.
        intros y [<-|Hin]; auto.
Qed.

Lemma dict_keys_filter {V} (f : string -> bool) (d : dict V) :
  dict_keys (filter (fun kv => f (fst kv)) d) = filter f (dict_keys d).
Proof.
  induction d as [|[k v] d IH]; simpl; auto.
  destruct (f k); simpl; congruence.
Qed.

Lemma is_empty_dict_keys {V} (d : dict V) : is_empty (dict_keys d) = is_empty d.
Proof. now destruct d. Qed.

Lemma is_empty_false {A} (l : list A) : l <> [] -> is_empty l = false.
Proof. destruct l; [congruence|reflexivity]. Qed.

Lemma keyword_values {V} (expected : list string) (kwargs : dict V) :
  (forall n, In n expected -> dict_get n kwargs <> None) ->
  exists vs, Forall2 (fun n v => dict_get n kwargs = Some v) expected vs.
Proof.
  induction expected as [|n rest IH]; intros Hall.
  - exists []. constructor.
  - destruct IH as [vs Hvs]; [intros m Hm; apply Hall; now right|].
    destruct (dict_get n kwargs) as [v|] eqn:Hn.
    + exists (v :: vs). now constructor.
    + exfalso. apply (Hall n); [now left|exact Hn].
Qed.

Section Calling.
Context {RT : Runtime}.

(** What the constructor establishes. *)
Lemma Executable__init__inv (x : runtime_Executable) (names : list string)
    (devs : list device) (e : Executable) :
  Executable__init__ x names devs = Return e ->
  _executable e = x /\ _arg_names e = names /\ NoDup names
  /\ _num_expected_args e = length names /\ _output_devices e = devs
  /\ _executable_signature e = get_signature x.
Proof.
  unfold Executable__init__, inspect_Signature.
  destruct (build_params names) as [params|err] eqn:Hparams; [|discriminate].
  destruct (validate_parameters [] POSITIONAL_ONLY params) eqn:Hvalid;
    [discriminate|].
  intros H. inversion H; subst; simpl.
  repeat split.
  apply (Forall2_Return_NoDup _ param_name _ _ (build_params_Return _ _ Hparams)).
  now apply (validate_parameters_None _ _ _ Hvalid).
Qed.

Lemma skipn_NoDup {A} (n : nat) (l : list A) : NoDup l -> NoDup (skipn n l).
Proof.
  revert l. induction n as [|n IH]; intros l Hnd; simpl; auto.
  destruct l; auto. inversion Hnd; subst. now apply IH.
Qed.

(** The three binding failures, in the order the code checks them. *)
Lemma call_missing (e : Executable) (args : list Tensor) (kwargs : dict Tensor)
    (before after : list string) (name : string) :
  NoDup (_arg_names e) ->
  skipn (length args) (_arg_names e) = before ++ name :: after ->
  (forall n, In n before -> dict_get n kwargs <> None) ->
  dict_get name kwargs = None ->
  __call__ e args kwargs
  = ([], Raise (TripyException (MissingArgument name (_arg_names e)))).
Proof.
  intros Hnd Hsplit Hbefore Hname. unfold __call__.
  rewrite Hsplit, bind_kwargs_missing; auto.
  rewrite <- Hsplit. now apply skipn_NoDup.
Qed.

Lemma call_bound (e : Executable) (args : list Tensor) (kwargs : dict Tensor) :
  NoDup (_arg_names e) ->
  (forall n, In n (skipn (length args) (_arg_names e)) -> dict_get n kwargs <> None) ->
  exists vs,
    Forall2 (fun n v => dict_get n kwargs = Some v)
            (skipn (length args) (_arg_names e)) vs
    /\ bind_kwargs (_arg_names e) (skipn (length args) (_arg_names e)) args kwargs
       = Return (args ++ vs,
                 filter (fun kv => negb (existsb (String.eqb (fst kv))
                                           (skipn (length args) (_arg_names e))))
                        kwargs).
Proof.
  intros Hnd Hall. destruct (keyword_values _ _ Hall) as [vs Hvs].
  exists vs. split; [exact Hvs|].
  apply bind_kwargs_returns; [now apply skipn_NoDup|exact Hvs].
Qed.

Lemma call_extra (e : Executable) (args : list Tensor) (kwargs : dict Tensor) :
  NoDup (_arg_names e) ->
  (forall n, In n (skipn (length args) (_arg_names e)) -> dict_get n kwargs <> None) ->
  let unconsumed :=
    filter (fun k => negb (existsb (String.eqb k) (skipn (length args) (_arg_names e))))
           (dict_keys kwargs) in
  unconsumed <> [] ->
  __call__ e args kwargs
  = ([], Raise (TripyException
                  (ExtraKeywordArguments unconsumed (_arg_names e)
                     (firstn (length args) (_arg_names e))))).
Proof.
  intros Hnd Hall unconsumed Hne.
  destruct (call_bound e args kwargs Hnd Hall) as (vs & _ & Hbind).
  unfold __call__. rewrite Hbind. cbn [lift bind].
  rewrite <- is_empty_dict_keys.
  rewrite (dict_keys_filter
             (fun k => negb (existsb (String.eqb k) (skipn (length args) (_arg_names e))))).
  fold unconsumed. rewrite (is_empty_false _ Hne). reflexivity.
Qed.

Lemma call_arity (e : Executable) (args : list Tensor) (kwargs : dict Tensor) :
  NoDup (_arg_names e) ->
  (forall n, In n (skipn (length args) (_arg_names e)) -> dict_get n kwargs <> None) ->
  filter (fun k => negb (existsb (String.eqb k) (skipn (length args) (_arg_names e))))
         (dict_keys kwargs) = [] ->
  length args + length kwargs <> _num_expected_args e ->
  __call__ e args kwargs
  = ([], Raise (TripyException
                  (IncorrectNumberOfArguments (_num_expected_args e)
                     (length args + length kwargs) (_arg_names e)))).
Proof.
  intros Hnd Hall Hnone Hlen.
  destruct (call_bound e args kwargs Hnd Hall) as (vs & _ & Hbind).
  unfold __call__. rewrite Hbind. cbn [lift bind].
  rewrite <- is_empty_dict_keys.
  rewrite (dict_keys_filter
             (fun k => negb (existsb (String.eqb k) (skipn (length args) (_arg_names e))))).
  rewrite Hnone. cbn [is_empty negb].
  apply Nat.eqb_neq in Hlen. rewrite Hlen. reflexivity.
Qed.

(** C1. Binding fails with [MissingArgument] for the first declared name
    that has neither a positional nor a keyword value; otherwise with
    [ExtraKeywordArguments] listing the keyword arguments left over;
    otherwise with [IncorrectNumberOfArguments] when the number of supplied
    arguments is not the declared arity. In all three cases the event log is
    empty: no tensor was evaluated and the executor was not called. *)
Theorem call_binding_failures
    (x : runtime_Executable) (names : list string) (devs : list device)
    (e : Executable) (args : list Tensor) (kwargs : dict Tensor) :
  Executable__init__ x names devs = Return e ->
  let keyword_names := skipn (length args) names in
  let unbound name := In name keyword_names /\ dict_get name kwargs = None in
  let unconsumed :=
    filter (fun k => negb (existsb (String.eqb k) keyword_names)) (dict_keys kwargs) in
  (forall before name after,
      keyword_names = before ++ name :: after ->
      (forall n, In n before -> ~ unbound n) -> unbound name ->
      __call__ e args kwargs
      = ([], Raise (TripyException (MissingArgument name names))))
  /\ ((exists name, unbound name) ->
      exists name, unbound name
        /\ __call__ e args kwargs
           = ([], Raise (TripyException (MissingArgument name names))))
  /\ ((forall name, ~ unbound name) -> unconsumed <> [] ->
      __call__ e args kwargs
      = ([], Raise (TripyException
                      (ExtraKeywordArguments unconsumed names
                         (firstn (length args) names)))))
  /\ ((forall name, ~ unbound name) -> unconsumed = [] ->
      length args + length kwargs <> length names ->
      __call__ e args kwargs
      = ([], Raise (TripyException
                      (IncorrectNumberOfArguments (length names)
                         (length args + length kwargs) names)))).
Proof.
  intros Hinit keyword_names unbound unconsumed.
  destruct (Executable__init__inv _ _ _ _ Hinit)
    as (_ & Hnames & Hnd & Hnum & _ & _).
  subst names.
  assert (Hfirst : forall before name after,
             keyword_names = before ++ name :: after ->
             (forall n, In n before -> ~ unbound n) -> unbound name ->
             __call__ e args kwargs
             = ([], Raise (TripyException (MissingArgument name (_arg_names e))))).
  { intros before name after Hsplit Hbefore [_ Hname].
    apply (call_missing e args kwargs before after name Hnd Hsplit); [|exact Hname].
    intros n Hn Hnone. apply (Hbefore n Hn). split; [|exact Hnone].
    rewrite Hsplit. apply in_or_app. now left. }
  assert (Hall : (forall name, ~ unbound name) ->
                 forall n, In n keyword_names -> dict_get n kwargs <> None).
  { intros Hno n Hn Hnone. apply (Hno n). now split. }
  split; [exact Hfirst|]. split; [|split].
  - intros [name0 Hname0].
    destruct (first_true_split
                (fun n => match dict_get n kwargs with None => true | Some _ => false end)
                keyword_names)
      as [Hnone|(before & name & after & Hsplit & Hname & Hbefore)].
    + destruct Hname0 as [Hin Hget]. specialize (Hnone _ Hin).
      cbv beta in Hnone. rewrite Hget in Hnone. discriminate.
    + assert (unbound name) as Hunb.
      { split; [rewrite Hsplit; apply in_or_app; right; now left|].
        destruct (dict_get name kwargs); [discriminate|reflexivity]. }
      exists name. split; [exact Hunb|].
      apply (Hfirst before name after Hsplit); [|exact Hunb].
      intros n Hn [_ Hget]. specialize (Hbefore n Hn). cbv beta in Hbefore.
      rewrite Hget in Hbefore. discriminate.
  - intros Hno Hne. apply call_extra; auto.
  - intros Hno Hnone Hlen. rewrite <- Hnum.
    apply call_arity; auto. now rewrite Hnum.
Qed.
End Calling.

Lemma compiled_add_constructed :
  @Executable__init__ add_runtime [] ["a"; "b"] [Device "gpu" 0] = Return compiled_add.
Proof. reflexivity. Qed.

Lemma call_binding_failures_witness :
  let x := tensor "x" [1%Z] datatype.float32 in
  let y := tensor "y" [1%Z] datatype.float32 in
  let z := tensor "z" [1%Z] datatype.float32 in
  __call__ compiled_add [] []
  = ([], Raise (TripyException (MissingArgument "a" ["a"; "b"])))
  /\ __call__ compiled_add [x] []
     = ([], Raise (TripyException (MissingArgument "b" ["a"; "b"])))
  /\ __call__ compiled_add [x] [("b", y); ("c", z)]
     = ([], Raise (TripyException (ExtraKeywordArguments ["c"] ["a"; "b"] ["a"])))
  /\ __call__ compiled_add [x; y; z] []
     = ([], Raise (TripyException (IncorrectNumberOfArguments 2 3 ["a"; "b"]))).
Proof.
  intros x y z.
  pose proof (fun args kwargs =>
                @call_binding_failures add_runtime [] ["a"; "b"] [Device "gpu" 0]
                  compiled_add args kwargs eq_refl) as H.
  split; [|split; [|split]].
  - destruct (H [] []) as (H1 & _).
    apply (H1 [] "a" ["b"]); simpl; [reflexivity|tauto|].
    split; [now left|reflexivity].
  - destruct (H [x] []) as (H1 & _).
    apply (H1 [] "b" []); simpl; [reflexivity|tauto|].
    split; [now left|reflexivity].
  - destruct (H [x] [("b", y); ("c", z)]) as (_ & _ & H3 & _).
    apply H3; simpl; [|discriminate].
    intros name [[Hname|[]] Hget]. subst name. discriminate Hget.
  - destruct (H [x; y; z] []) as (_ & _ & _ & H4).
    apply H4; simpl; [|reflexivity|lia].
    intros name [[] _].
Defined.

Section Mixing.
Context {RT : Runtime}.

Lemma Forall2_combine_get (d : dict Tensor) :
  forall (ns : list string) (vs : list Tensor),
    length ns = length vs ->
    (forall n v, In (n, v) (combine ns vs) -> dict_get n d = Some v) ->
    Forall2 (fun n v => dict_get n d = Some v) ns vs.
Proof.
  induction ns as [|n ns IH]; intros [|v vs] Hlen Hall; simpl in *;
    try discriminate; constructor.
  - apply Hall. now left.
  - apply IH; [lia|]. intros m w Hin. apply Hall. now right.
Qed.

Lemma map_fst_combine {A B} :
  forall (xs : list A) (ys : list B),
    length xs = length ys -> map fst (combine xs ys) = xs.
Proof.
  induction xs as [|x xs IH]; intros [|y ys] Hlen; simpl in *;
    try discriminate; auto.
  f_equal. apply IH. lia.
Qed.

Lemma skipn_min_length {A B} (k : nat) (names : list A) (vals : list B) :
  length vals = length names ->
  skipn (length (firstn k vals)) names = skipn k names.
Proof.
  intros Hlen. rewrite length_firstn.
  destruct (Nat.le_ge_cases k (length vals)) as [Hle|Hge].
  - now rewrite Nat.min_l.
  - rewrite Nat.min_r by exact Hge.
    rewrite !skipn_all2; auto; lia.
Qed.

(** C9. However the values of the declared arguments are split between a
    positional prefix and keyword arguments (in whatever order the keywords
    come), binding produces the values in the declared order, and the call
    is the same as the all-positional one. *)
Theorem binding_independent_of_mixing
    (x : runtime_Executable) (names : list string) (devs : list device)
    (e : Executable) (vals : list Tensor) (k : nat) (kwargs : dict Tensor) :
  Executable__init__ x names devs = Return e ->
  length vals = length names ->
  Permutation kwargs (combine (skipn k names) (skipn k vals)) ->
  bind_kwargs names (skipn (length (firstn k vals)) names) (firstn k vals) kwargs
  = Return (vals, [])
  /\ __call__ e (firstn k vals) kwargs = __call__ e vals [].
Proof.
  intros Hinit Hlen Hperm.
  destruct (Executable__init__inv _ _ _ _ Hinit)
    as (_ & Hnames & Hnd & Hnum & _ & _).
  subst names.
  set (ks := skipn k (_arg_names e)) in *.
  set (vs := skipn k vals) in *.
  assert (Hlen' : length ks = length vs).
  { unfold ks, vs. rewrite !length_skipn. lia. }
  assert (Hkeys : Permutation (dict_keys kwargs) ks).
  { unfold dict_keys. rewrite <- (map_fst_combine ks vs Hlen').
    now apply Permutation_map. }
  assert (Hndk : NoDup (dict_keys kwargs)).
  { apply (Permutation_NoDup (Permutation_sym Hkeys)).
    now apply skipn_NoDup. }
  assert (Hget : Forall2 (fun n v => dict_get n kwargs = Some v) ks vs).
  { apply Forall2_combine_get; [exact Hlen'|].
    intros n v Hin. apply dict_get_In; [exact Hndk|].
    apply (Permutation_in _ (Permutation_sym Hperm) Hin). }
  assert (Hrest : filter (fun kv : string * Tensor =>
                            negb (existsb (String.eqb (fst kv)) ks)) kwargs = []).
  { assert (forall kv, In kv kwargs -> In (fst kv) ks) as Hin.
    { intros kv Hkv. apply (Permutation_in _ Hkeys). now apply in_map. }
    clear -Hin. induction kwargs as [|kv d IH]; simpl; auto.
    assert (existsb (String.eqb (fst kv)) ks = true) as ->.
    { apply existsb_exists. exists (fst kv). split; [|apply String.eqb_refl].
      apply Hin. now left. }
    simpl. apply IH. intros kv' Hkv'. apply Hin. now right. }
  assert (Hbind : bind_kwargs (_arg_names e)
                    (skipn (length (firstn k vals)) (_arg_names e))
                    (firstn k vals) kwargs = Return (vals, [])).
  { rewrite (skipn_min_length k _ _ Hlen). fold ks.
    rewrite (bind_kwargs_returns _ ks (skipn_NoDup _ _ Hnd) _ _ vs Hget).
    rewrite Hrest. unfold vs. now rewrite firstn_skipn. }
  split; [exact Hbind|].
  unfold __call__. rewrite Hbind.
  assert (skipn (length vals) (_arg_names e) = []) as ->
    by (apply skipn_all2; lia).
  cbn [bind_kwargs lift bind is_empty negb length].
  assert (length (firstn k vals) + length kwargs = length (_arg_names e)) as ->.
  { rewrite (Permutation_length Hperm), length_combine, <- Hlen', Nat.min_id.
    unfold ks. rewrite length_firstn, length_skipn. lia. }
  now rewrite Hlen, Nat.add_0_r.
Qed.
End Mixing.

Lemma binding_independent_of_mixing_witness :
  let x := tensor "x" [1%Z] datatype.float32 in
  let y := tensor "y" [1%Z] datatype.float32 in
  __call__ compiled_add [] [("b", y); ("a", x)] = __call__ compiled_add [x; y] []
  /\ __call__ compiled_add [x] [("b", y)] = __call__ compiled_add [x; y] []
  /\ __call__ compiled_add [x; y] []
     = ([TensorEval x; TensorEval y;
         ExecutorExecute [Device "gpu" 0] [trace_tensor x; trace_tensor y]],
        Return (OneTensor (tensor "out" [1%Z] datatype.float32))).
Proof.
  intros x y.
  pose proof (fun k kwargs =>
                @binding_independent_of_mixing add_runtime [] ["a"; "b"]
                  [Device "gpu" 0] compiled_add [x; y] k kwargs eq_refl eq_refl) as H.
  split; [|split].
  - apply (H 0 [("b", y); ("a", x)]). simpl. apply perm_swap.
  - apply (H 1 [("b", y)]). simpl. apply Permutation_refl.
  - reflexivity.
Defined.

Section DoubleBinding.
Context {RT : Runtime}.

(** C10, as amended. With declared arguments [(a, b)], a call that gives [a]
    both positionally and by keyword, and that also gives [b] (as a second
    positional argument or by keyword), fails with [ExtraKeywordArguments]:
    the leftover keywords include [a], the note lists [a] among the
    arguments already given positionally, and the event log is empty. *)
Theorem duplicate_argument_is_extra_keyword
    (x : runtime_Executable) (devs : list device) (e : Executable)
    (args : list Tensor) (kwargs : dict Tensor) :
  Executable__init__ x ["a"; "b"] devs = Return e ->
  1 <= length args ->
  dict_get "a" kwargs <> None ->
  2 <= length args \/ dict_get "b" kwargs <> None ->
  exists extra,
    In "a" extra
    /\ In "a" (firstn (length args) ["a"; "b"])
    /\ __call__ e args kwargs
       = ([], Raise (TripyException
                       (ExtraKeywordArguments extra ["a"; "b"]
                          (firstn (length args) ["a"; "b"])))).
Proof.
  intros Hinit Hpos Ha Hb.
  destruct (Executable__init__inv _ _ _ _ Hinit)
    as (_ & Hnames & Hnd & _ & _ & _).
  set (keyword_names := skipn (length args) ["a"; "b"]).
  assert (Hkw : keyword_names = ["b"] /\ dict_get "b" kwargs <> None
                \/ keyword_names = []).
  { unfold keyword_names. destruct args as [|t0 [|t1 rest]]; simpl in *.
    - lia.
    - left. split; [reflexivity|]. destruct Hb as [Hb|Hb]; [lia|exact Hb].
    - right. now destruct rest. }
  assert (Hall : forall n, In n keyword_names -> dict_get n kwargs <> None).
  { destruct Hkw as [[-> Hget]| ->]; intros n [].
    - now subst n.
    - contradiction. }
  assert (Hnota : existsb (String.eqb "a") keyword_names = false).
  { destruct Hkw as [[-> _]| ->]; reflexivity. }
  exists (filter (fun k => negb (existsb (String.eqb k) keyword_names))
                 (dict_keys kwargs)).
  assert (Hin : In "a" (filter (fun k => negb (existsb (String.eqb k) keyword_names))
                               (dict_keys kwargs))).
  { apply filter_In. split; [|now rewrite Hnota].
    destruct (in_dec string_dec "a" (dict_keys kwargs)) as [Hi|Hni]; [exact Hi|].
    exfalso. apply Ha. now apply dict_get_None_iff. }
  split; [exact Hin|]. split.
  - destruct args; simpl in *; [lia|now left].
  - unfold keyword_names in *. rewrite <- Hnames in *.
    apply call_extra; auto.
    intros Hnil. rewrite Hnil in Hin. contradiction.
Qed.
End DoubleBinding.

Lemma duplicate_argument_is_extra_keyword_witness :
  let x := tensor "x" [1%Z] datatype.float32 in
  let y := tensor "y" [1%Z] datatype.float32 in
  let z := tensor "z" [1%Z] datatype.float32 in
  exists extra,
    In "a" extra /\ In "a" ["a"]
    /\ __call__ compiled_add [x] [("a", y); ("b", z)]
       = ([], Raise (TripyException (ExtraKeywordArguments extra ["a"; "b"] ["a"]))).
Proof.
  intros x y z.
  apply (@duplicate_argument_is_extra_keyword add_runtime [] [Device "gpu" 0]
           compiled_add [x] [("a", y); ("b", z)] eq_refl).
  - simpl. lia.
  - simpl. discriminate.
  - right. simpl. discriminate.
Defined.

(** C10 as stated fails when [b] is not given: the missing-argument check
    comes first. *)
Lemma duplicate_argument_counterexample :
  let x := tensor "x" [1%Z] datatype.float32 in
  let y := tensor "y" [1%Z] datatype.float32 in
  @Executable__init__ add_runtime [] ["a"; "b"] [Device "gpu" 0] = Return compiled_add
  /\ 1 <= length [x]
  /\ dict_get "a" [("a", y)] = Some y
  /\ __call__ compiled_add [x] [("a", y)]
     = ([], Raise (TripyException (MissingArgument "b" ["a"; "b"])))
  /\ ~ (exists extra expected positional,
           outcome (__call__ compiled_add [x] [("a", y)])
           = Raise (TripyException (ExtraKeywordArguments extra expected positional))).
Proof.
  intros x y. repeat split; auto.
  intros (extra & expected & positional & H). discriminate H.
Qed.

(** ** Translating a failure of the runtime *)

Lemma datatype_eqb_spec (a b : dtype) : reflect (a = b) (datatype.eqb a b).
Proof. destruct a, b; constructor; congruence. Qed.

Lemma split_map {A B} (l : list (A * B)) : List.split l = (map fst l, map snd l).
Proof.
  induction l as [|[a b] l IH]; simpl; [reflexivity|]. now rewrite IH.
Qed.

Lemma nth_error_zip3 {A B C} :
  forall (xs : list A) (ys : list B) (zs : list C) (i : nat) x y z,
    nth_error xs i = Some x -> nth_error ys i = Some y -> nth_error zs i = Some z ->
    nth_error (zip3 xs ys zs) i = Some (x, y, z).
Proof.
  induction xs as [|x0 xs IH]; intros [|y0 ys] [|z0 zs] [|i] x y z Hx Hy Hz;
    simpl in *; try discriminate.
  - congruence.
  - now apply IH.
Qed.

Lemma nth_error_zip3_inv {A B C} :
  forall (xs : list A) (ys : list B) (zs : list C) (i : nat) x y z,
    nth_error (zip3 xs ys zs) i = Some (x, y, z) ->
    nth_error xs i = Some x /\ nth_error ys i = Some y /\ nth_error zs i = Some z.
Proof.
  induction xs as [|x0 xs IH]; intros [|y0 ys] [|z0 zs] [|i] x y z H;
    simpl in *; try discriminate.
  - inversion H; subst. auto.
  - now apply IH.
Qed.

Section Translation.
Context {RT : Runtime}.

Lemma for_each_eval (ts : list Tensor) :
  for_each ts (fun t => emit (TensorEval t)) = (map TensorEval ts, Return tt).
Proof.
  induction ts as [|t ts IH]; simpl; [reflexivity|]. now rewrite IH.
Qed.

(** A call whose arguments bind and whose execution raises an
    [MTRTException] has evaluated every input, called the executor once, and
    raises what the handler makes of the message. *)
Lemma call_backend_failure (e : Executable) (args : list Tensor)
    (kwargs : dict Tensor) (inputs : list Tensor) (err : string) :
  bind_kwargs (_arg_names e) (skipn (length args) (_arg_names e)) args kwargs
  = Return (inputs, []) ->
  length args + length kwargs = _num_expected_args e ->
  Executor_execute (_executable e) (_output_devices e) (map trace_tensor inputs)
  = Raise (MTRTException err) ->
  __call__ e args kwargs
  = (map TensorEval inputs
       ++ [ExecutorExecute (_output_devices e) (map trace_tensor inputs)],
     Raise (handle_MTRTException e inputs err)).
Proof.
  intros Hbind Hnum Hexec. unfold __call__.
  rewrite Hbind. cbn [lift bind is_empty negb].
  rewrite Hnum, Nat.eqb_refl. cbn [negb].
  rewrite for_each_eval, Hexec. reflexivity.
Qed.

Lemma collect_arg_info_eq (self : Executable) (idxs : list nat) :
  Forall (fun idx => idx < length (input_args (_executable_signature self)
                                   ++ output_args (_executable_signature self))) idxs ->
  exists infos,
    collect_arg_info self idxs = Return infos
    /\ length infos = length idxs
    /\ forall i idx arg arg_bound,
         nth_error idxs i = Some idx ->
         nth_error (input_args (_executable_signature self)
                    ++ output_args (_executable_signature self)) idx
         = Some (arg, arg_bound) ->
         nth_error infos i = Some (make_ArgInfo arg arg_bound).
Proof.
  induction 1 as [|idx idxs Hidx Hall (infos & Hinfos & Hlen & Hnth)]; simpl.
  - exists []. repeat split. intros [|i]; discriminate.
  - unfold _get_arg_info, get_arg, get_arg_bound.
    destruct (nth_error _ idx) as [[arg arg_bound]|] eqn:Hentry.
    + rewrite Hinfos. exists (make_ArgInfo arg arg_bound :: infos).
      repeat split; [simpl; lia|].
      intros [|i] idx' arg' bound' Hi Hentry'; simpl in *.
      * inversion Hi; subst. rewrite Hentry in Hentry'. now inversion Hentry'.
      * eapply Hnth; eauto.
    + apply nth_error_None in Hentry. lia.
Qed.

(** [_get_input_info] does not raise: it has one [ArgInfo] for each input
    argument of the signature. *)
Lemma _get_input_info_eq (self : Executable) :
  exists infos,
    _get_input_info self = Return infos
    /\ length infos = length (input_args (_executable_signature self))
    /\ forall i arg arg_bound,
         nth_error (input_args (_executable_signature self)) i = Some (arg, arg_bound) ->
         nth_error infos i = Some (make_ArgInfo arg arg_bound).
Proof.
  unfold _get_input_info, get_num_input_args.
  set (ins := input_args (_executable_signature self)).
  destruct (collect_arg_info_eq self (seq 0 (length ins)))
    as (infos & Hinfos & Hlen & Hnth).
  - apply Forall_forall. intros idx Hin. apply in_seq in Hin.
    rewrite length_app. fold ins. lia.
  - exists infos. rewrite length_seq in Hlen. repeat split; auto.
    intros i arg arg_bound Hi.
    assert (i < length ins) by (apply nth_error_Some; congruence).
    apply (Hnth i i).
    + rewrite nth_error_seq. destruct (Nat.ltb_spec i (length ins)); [reflexivity|lia].
    + fold ins. rewrite nth_error_app1; auto.
Qed.

Lemma check_dtypes_first :
  forall (zipped : list (Tensor * dtype * string)) (i : nat) tensor expected name,
    nth_error zipped i = Some (tensor, expected, name) ->
    Tensor_dtype tensor <> expected ->
    (forall j t d n, j < i -> nth_error zipped j = Some (t, d, n) -> Tensor_dtype t = d) ->
    check_dtypes zipped
    = Some (TripyException
              (UnexpectedTensorDataType name expected (Tensor_dtype tensor) tensor)).
Proof.
  induction zipped as [|[[t d] n] zipped IH]; intros [|i] tensor expected name Hi Hne Hbefore;
    simpl in *; try discriminate.
  - inversion Hi; subst.
    destruct (datatype_eqb_spec (Tensor_dtype tensor) expected); [contradiction|reflexivity].
  - destruct (datatype_eqb_spec (Tensor_dtype t) d) as [_|Hd].
    + simpl. apply (IH i); auto.
      intros j t' d' n' Hj. apply (Hbefore (S j)). lia.
    + exfalso. apply Hd. apply (Hbefore 0 t d n); [lia|reflexivity].
Qed.

Lemma check_dtypes_none (zipped : list (Tensor * dtype * string)) :
  (forall j t d n, nth_error zipped j = Some (t, d, n) -> Tensor_dtype t = d) ->
  check_dtypes zipped = None.
Proof.
  induction zipped as [|[[t d] n] zipped IH]; intros Hall; simpl; [reflexivity|].
  destruct (datatype_eqb_spec (Tensor_dtype t) d) as [_|Hd]; simpl.
  - apply IH. intros j. apply (Hall (S j)).
  - exfalso. apply Hd. now apply (Hall 0 t d n).
Qed.
End Translation.

Section DtypeTranslation.
Context {RT : Runtime}.

(** C2. When the arguments bind and the runtime raises an [MTRTException]
    whose message contains the element-type phrase, and some supplied tensor
    has a dtype other than the one the signature records for its argument,
    the call raises [UnexpectedTensorDataType] for the first such argument
    in declared order, with the recorded dtype as expected and the tensor's
    dtype as actual. *)
Theorem dtype_mismatch_names_first_parameter
    (x : runtime_Executable) (names : list string) (devs : list device)
    (e : Executable) (args : list Tensor) (kwargs : dict Tensor)
    (inputs : list Tensor) (err : string)
    (i : nat) (name : string) (tensor : Tensor)
    (arg : MemRefType ScalarTypeCode) (arg_bound : ArgBound) :
  Executable__init__ x names devs = Return e ->
  bind_kwargs names (skipn (length args) names) args kwargs = Return (inputs, []) ->
  length args + length kwargs = length names ->
  Executor_execute x devs (map trace_tensor inputs) = Raise (MTRTException err) ->
  str_contains "function expects a memref type with element type" err = true ->
  nth_error names i = Some name ->
  nth_error inputs i = Some tensor ->
  nth_error (input_args (get_signature x)) i = Some (arg, arg_bound) ->
  Tensor_dtype tensor <> convert_runtime_dtype_to_tripy_dtype (memref_dtype arg) ->
  (forall j t a b,
      j < i -> nth_error inputs j = Some t ->
      nth_error (input_args (get_signature x)) j = Some (a, b) ->
      Tensor_dtype t = convert_runtime_dtype_to_tripy_dtype (memref_dtype a)) ->
  outcome (__call__ e args kwargs)
  = Raise (TripyException
             (UnexpectedTensorDataType name
                (convert_runtime_dtype_to_tripy_dtype (memref_dtype arg))
                (Tensor_dtype tensor) tensor)).
Proof.
  intros Hinit Hbind Hnum Hexec Hmsg Hname Htensor Harg Hne Hbefore.
  destruct (Executable__init__inv _ _ _ _ Hinit)
    as (Hx & Hnames & _ & Hnum' & Hdevs & Hsig).
  subst names x devs.
  rewrite (call_backend_failure e args kwargs inputs err); auto; [|congruence].
  unfold outcome, handle_MTRTException. cbn [snd]. rewrite Hmsg.
  destruct (_get_input_info_eq e) as (infos & -> & Hlen & Hinfos).
  rewrite Hsig in Hinfos. f_equal.
  erewrite check_dtypes_first; [reflexivity| | exact Hne |].
  - apply nth_error_zip3; eauto.
    rewrite nth_error_map, (Hinfos i arg arg_bound Harg). reflexivity.
  - intros j t d n Hj Hz. apply nth_error_zip3_inv in Hz.
    destruct Hz as (Ht & Hd & _). rewrite nth_error_map in Hd.
    destruct (nth_error (input_args (get_signature (_executable e))) j)
      as [[a b]|] eqn:Hj'.
    + rewrite (Hinfos j a b Hj') in Hd. inversion Hd; subst. cbn.
      now apply (Hbefore j t a b).
    + apply nth_error_None in Hj'. rewrite <- Hsig, <- Hlen in Hj'.
      apply nth_error_None in Hj'. rewrite Hj' in Hd. discriminate.
Qed.

(** When no supplied dtype differs, the handler has nothing to report and
    the exception of the runtime goes on unchanged. *)
Lemma dtype_phrase_without_mismatch (e : Executable) (inputs : list Tensor)
    (err : string) :
  str_contains "function expects a memref type with element type" err = true ->
  (forall j t a b,
      nth_error inputs j = Some t ->
      nth_error (input_args (_executable_signature e)) j = Some (a, b) ->
      Tensor_dtype t = convert_runtime_dtype_to_tripy_dtype (memref_dtype a)) ->
  handle_MTRTException e inputs err = MTRTException err.
Proof.
  intros Hmsg Hall. unfold handle_MTRTException. rewrite Hmsg.
  destruct (_get_input_info_eq e) as (infos & -> & Hlen & Hinfos).
  rewrite check_dtypes_none; [reflexivity|].
  intros j t d n Hz. apply nth_error_zip3_inv in Hz.
  destruct Hz as (Ht & Hd & _). rewrite nth_error_map in Hd.
  destruct (nth_error (input_args (_executable_signature e)) j) as [[a b]|] eqn:Hj.
  - rewrite (Hinfos j a b Hj) in Hd. inversion Hd; subst. cbn.
    now apply (Hall j t a b).
  - apply nth_error_None in Hj. rewrite <- Hlen in Hj.
    apply nth_error_None in Hj. rewrite Hj in Hd. discriminate.
Qed.
End DtypeTranslation.

Lemma dtype_mismatch_names_first_parameter_witness :
  let t := tensor "t" [2%Z] datatype.int32 in
  outcome (__call__ compiled_unary [t] [])
  = Raise (TripyException
             (UnexpectedTensorDataType "x" datatype.float32 datatype.int32 t)).
Proof.
  intros t.
  apply (@dtype_mismatch_names_first_parameter unary_runtime
           [] ["x"] [Device "gpu" 0] compiled_unary [t] [] [t]
           element_type_message 0 "x" t
           (fst (static_memref [2%Z] datatype.float32))
           (snd (static_memref [2%Z] datatype.float32)));
    try reflexivity.
  - simpl. discriminate.
  - intros j ? ? ? Hj. inversion Hj.
Defined.

Section ShapeTranslation.
Context {RT : Runtime}.

Lemma check_dims_first (tensor : Tensor) (bounds : list (Z * Z)) (name : string)
    (shape : list Z) (i : nat) (size lo hi : Z) :
  nth_error shape i = Some size ->
  nth_error bounds i = Some (lo, hi) ->
  (size < lo \/ hi < size)%Z ->
  forall (n a : nat),
    a + n = length shape -> a <= i ->
    (forall j s, a <= j < i -> nth_error shape j = Some s ->
                 exists l h, nth_error bounds j = Some (l, h) /\ (l <= s <= h)%Z) ->
    check_dims tensor bounds name shape (seq a n)
    = Some (TripyException
              (UnexpectedTensorShape name (map fst bounds) (map snd bounds) shape
                 i size (lo, hi) tensor)).
Proof.
  intros Hsize Hbound Hout.
  assert (i < length shape) as Hi by (apply nth_error_Some; congruence).
  induction n as [|n IH]; intros a Hlen Hle Hbefore; [lia|].
  cbn [seq check_dims].
  destruct (Nat.eq_dec a i) as [->|Hai].
  - rewrite Hsize, Hbound, Z.gtb_ltb, split_map.
    destruct (Z.ltb_spec size lo); [reflexivity|].
    destruct (Z.ltb_spec hi size); [reflexivity|lia].
  - destruct (nth_error shape a) as [s|] eqn:Hs;
      [|apply nth_error_None in Hs; lia].
    destruct (Hbefore a s) as (l & h & -> & Hin); [lia|exact Hs|].
    rewrite Z.gtb_ltb.
    destruct (Z.ltb_spec s l); [lia|]. destruct (Z.ltb_spec h s); [lia|].
    cbn [orb]. apply IH; [lia|lia|].
    intros j s' Hj. apply Hbefore. lia.
Qed.

Lemma check_dims_none (tensor : Tensor) (bounds : list (Z * Z)) (name : string)
    (shape : list Z) :
  (forall j s, nth_error shape j = Some s ->
               exists l h, nth_error bounds j = Some (l, h) /\ (l <= s <= h)%Z) ->
  forall (n a : nat),
    a + n = length shape ->
    check_dims tensor bounds name shape (seq a n) = None.
Proof.
  intros Hall. induction n as [|n IH]; intros a Hlen; [reflexivity|].
  cbn [seq check_dims].
  destruct (nth_error shape a) as [s|] eqn:Hs;
    [|apply nth_error_None in Hs; lia].
  destruct (Hall a s Hs) as (l & h & -> & Hin).
  rewrite Z.gtb_ltb.
  destruct (Z.ltb_spec s l); [lia|]. destruct (Z.ltb_spec h s); [lia|].
  cbn [orb]. apply IH. lia.
Qed.

(** A tensor with more dimensions than its argument has bounds, and whose
    dimensions that have bounds are within them, makes the loop raise
    [IndexError]. *)
Lemma check_dims_rank_excess (tensor : Tensor) (bounds : list (Z * Z)) (name : string)
    (shape : list Z) :
  length bounds < length shape ->
  (forall j s l h, nth_error shape j = Some s -> nth_error bounds j = Some (l, h) ->
                   (l <= s <= h)%Z) ->
  forall (n a : nat),
    a + n = length shape -> a <= length bounds ->
    check_dims tensor bounds name shape (seq a n) = Some IndexError.
Proof.
  intros Hrank Hall. induction n as [|n IH]; intros a Hlen Hle; [lia|].
  cbn [seq check_dims].
  destruct (nth_error shape a) as [s|] eqn:Hs;
    [|apply nth_error_None in Hs; lia].
  destruct (nth_error bounds a) as [[l h]|] eqn:Hb; [|reflexivity].
  assert (a < length bounds) by (apply nth_error_Some; congruence).
  pose proof (Hall a s l h Hs Hb) as Hin. rewrite Z.gtb_ltb.
  destruct (Z.ltb_spec s l); [lia|]. destruct (Z.ltb_spec h s); [lia|].
  cbn [orb]. apply IH; lia.
Qed.

Lemma check_shapes_first :
  forall (zipped : list (Tensor * list (Z * Z) * string)) (k : nat)
         tensor bounds name (i : nat) (size lo hi : Z),
    nth_error zipped k = Some (tensor, bounds, name) ->
    nth_error (Tensor_shape tensor) i = Some size ->
    nth_error bounds i = Some (lo, hi) ->
    (size < lo \/ hi < size)%Z ->
    (forall j s, j < i -> nth_error (Tensor_shape tensor) j = Some s ->
                 exists l h, nth_error bounds j = Some (l, h) /\ (l <= s <= h)%Z) ->
    (forall m t w n, m < k -> nth_error zipped m = Some (t, w, n) ->
       forall j s, nth_error (Tensor_shape t) j = Some s ->
                   exists l h, nth_error w j = Some (l, h) /\ (l <= s <= h)%Z) ->
    check_shapes zipped
    = Some (TripyException
              (UnexpectedTensorShape name (map fst bounds) (map snd bounds)
                 (Tensor_shape tensor) i size (lo, hi) tensor)).
Proof.
  induction zipped as [|[[t w] n] zipped IH];
    intros [|k] tensor bounds name i size lo hi Hk Hsize Hbound Hout Hdims Htensors;
    simpl in *; try discriminate.
  - inversion Hk; subst.
    rewrite (check_dims_first tensor bounds name (Tensor_shape tensor) i size lo hi);
      auto; [lia|].
    intros j s Hj. apply Hdims. lia.
  - rewrite check_dims_none; [|apply (Htensors 0 t w n); [lia|reflexivity]|reflexivity].
    apply (IH k); auto.
    intros m t' w' n' Hm. apply (Htensors (S m)). lia.
Qed.

(** The bounds [_get_arg_info] computes, written out: the minima paired with
    the maxima, or each dimension of the static shape paired with itself when
    there is no such pair. *)
Lemma shape_bounds_make_ArgInfo (a : MemRefType ScalarTypeCode) (b : ArgBound) :
  shape_bounds (make_ArgInfo a b)
  = match combine (bound_min b) (bound_max b) with
    | [] => map (fun x => (x, x)) (memref_shape a)
    | bounds => bounds
    end.
Proof.
  unfold make_ArgInfo. cbn [shape_bounds].
  destruct (combine (bound_min b) (bound_max b)); reflexivity.
Qed.

(** C3, as amended. When the arguments bind and the runtime raises an
    [MTRTException] whose message has one of the two shape phrases and not
    the element-type phrase (which is tested first), the bounds of each input
    are recomputed from the signature: the minima paired with the maxima, or
    each dimension of the static shape paired with itself when the signature
    gives no bounds. If every dimension of the tensors before argument [k]
    and the dimensions before [i] of tensor [k] have bounds and are within
    them, and dimension [i] of tensor [k] is outside its bounds, the call
    raises [UnexpectedTensorShape] for argument [k], with the dimension [i],
    its bounds and its size. *)
Theorem shape_violation_names_first_dimension
    (x : runtime_Executable) (names : list string) (devs : list device)
    (e : Executable) (args : list Tensor) (kwargs : dict Tensor)
    (inputs : list Tensor) (err : string)
    (k : nat) (name : string) (tensor : Tensor)
    (arg : MemRefType ScalarTypeCode) (arg_bound : ArgBound)
    (i : nat) (size lo hi : Z) :
  let window (a : MemRefType ScalarTypeCode) (b : ArgBound) :=
    match combine (bound_min b) (bound_max b) with
    | [] => map (fun x => (x, x)) (memref_shape a)
    | bounds => bounds
    end in
  let within (t : Tensor) (w : list (Z * Z)) (j : nat) :=
    forall s, nth_error (Tensor_shape t) j = Some s ->
              exists l h, nth_error w j = Some (l, h) /\ (l <= s <= h)%Z in
  Executable__init__ x names devs = Return e ->
  bind_kwargs names (skipn (length args) names) args kwargs = Return (inputs, []) ->
  length args + length kwargs = length names ->
  Executor_execute x devs (map trace_tensor inputs) = Raise (MTRTException err) ->
  str_contains "function expects a memref type with element type" err = false ->
  str_contains "InternalError: failed to set input shape" err = true
  \/ str_contains "Runtime shape mismatch" err = true ->
  nth_error names k = Some name ->
  nth_error inputs k = Some tensor ->
  nth_error (input_args (get_signature x)) k = Some (arg, arg_bound) ->
  nth_error (Tensor_shape tensor) i = Some size ->
  nth_error (window arg arg_bound) i = Some (lo, hi) ->
  (size < lo \/ hi < size)%Z ->
  (forall j, j < i -> within tensor (window arg arg_bound) j) ->
  (forall m t a b,
      m < k -> nth_error inputs m = Some t ->
      nth_error (input_args (get_signature x)) m = Some (a, b) ->
      forall j, within t (window a b) j) ->
  outcome (__call__ e args kwargs)
  = Raise (TripyException
             (UnexpectedTensorShape name
                (map fst (window arg arg_bound)) (map snd (window arg arg_bound))
                (Tensor_shape tensor) i size (lo, hi) tensor)).
Proof.
  intros window within Hinit Hbind Hnum Hexec Hnot Hmsg Hname Htensor Harg
         Hsize Hbound Hout Hdims Htensors.
  assert (Hwindow : forall a b, shape_bounds (make_ArgInfo a b) = window a b)
    by (intros a b; apply shape_bounds_make_ArgInfo).
  destruct (Executable__init__inv _ _ _ _ Hinit)
    as (Hx & Hnames & _ & Hnum' & Hdevs & Hsig).
  subst names x devs.
  rewrite (call_backend_failure e args kwargs inputs err); auto; [|congruence].
  unfold outcome, handle_MTRTException. cbn [snd]. rewrite Hnot.
  assert (str_contains "InternalError: failed to set input shape" err
          || str_contains "Runtime shape mismatch" err = true) as ->.
  { apply orb_true_iff. exact Hmsg. }
  destruct (_get_input_info_eq e) as (infos & -> & Hlen & Hinfos).
  rewrite Hsig in Hinfos. f_equal.
  erewrite (check_shapes_first _ k tensor (window arg arg_bound) name i size lo hi);
    [reflexivity| | exact Hsize | exact Hbound | exact Hout | |].
  - apply nth_error_zip3; eauto.
    rewrite nth_error_map, (Hinfos k arg arg_bound Harg). cbn [option_map].
    now rewrite Hwindow.
  - intros j s Hj Hs. now apply (Hdims j Hj).
  - intros m t w n Hm Hz j s Hs. apply nth_error_zip3_inv in Hz.
    destruct Hz as (Ht & Hw & _). rewrite nth_error_map in Hw.
    destruct (nth_error (input_args (get_signature (_executable e))) m)
      as [[a b]|] eqn:Hm'.
    + rewrite (Hinfos m a b Hm') in Hw. cbn [option_map] in Hw.
      rewrite Hwindow in Hw. inversion Hw; subst.
      now apply (Htensors m t a b Hm Ht Hm' j).
    + apply nth_error_None in Hm'. rewrite <- Hsig, <- Hlen in Hm'.
      apply nth_error_None in Hm'. rewrite Hm' in Hw. discriminate.
Qed.
End ShapeTranslation.

Lemma shape_violation_names_first_dimension_witness :
  let t := tensor "t" [5%Z] datatype.float32 in
  let a := tensor "a" [3%Z] datatype.float32 in
  let b := tensor "b" [2%Z] datatype.float32 in
  outcome (__call__ compiled_dynamic [t] [])
  = Raise (TripyException
             (UnexpectedTensorShape "x" [1%Z] [4%Z] [5%Z] 0 5%Z (1, 4)%Z t))
  /\ outcome (__call__ (fixture pair_signature (raising "Runtime shape mismatch")
                          ["a"; "b"]) [a; b] [])
     = Raise (TripyException
                (UnexpectedTensorShape "a" [2%Z] [2%Z] [3%Z] 0 3%Z (2, 2)%Z a)).
Proof.
  intros t a b. split.
  - apply (@shape_violation_names_first_dimension dynamic_runtime
             [] ["x"] [Device "gpu" 0] compiled_dynamic [t] [] [t]
             input_shape_message 0 "x" t
             (fst (dynamic_memref [dynamic_dimension] datatype.float32 [(1, 4)%Z]))
             (snd (dynamic_memref [dynamic_dimension] datatype.float32 [(1, 4)%Z]))
             0 5%Z 1%Z 4%Z);
      try reflexivity.
    + left. reflexivity.
    + right. reflexivity.
    + intros j Hj. inversion Hj.
    + intros m ? ? ? Hm. inversion Hm.
  - apply (@shape_violation_names_first_dimension
             (bytes_runtime (fun _ => pair_signature)
                (fun _ => raising "Runtime shape mismatch"))
             [] ["a"; "b"] [Device "gpu" 0]
             (fixture pair_signature (raising "Runtime shape mismatch") ["a"; "b"])
             [a; b] [] [a; b] "Runtime shape mismatch" 0 "a" a
             (fst (static_memref [2%Z] datatype.float32))
             (snd (static_memref [2%Z] datatype.float32))
             0 3%Z 2%Z 2%Z);
      try reflexivity.
    + right. reflexivity.
    + right. reflexivity.
    + intros j Hj. inversion Hj.
    + intros m ? ? ? Hm. inversion Hm.
Defined.

(** C3 as stated fails on two calls whose message has a shape phrase and
    whose second tensor has size 9 (or 5) where the bounds are [(1, 4)]. On
    the first the message also has the element-type phrase: that branch is
    taken, no dtype differs, and the exception of the runtime is raised
    again. On the second the first tensor has two dimensions where its
    argument has one bound: the look-up of the second bound raises
    [IndexError] before the second tensor is looked at. *)
Lemma shape_violation_counterexample :
  let err := "function expects a memref type with element type f32; Runtime shape mismatch" in
  let a := tensor "a" [2%Z] datatype.float32 in
  let b := tensor "b" [9%Z] datatype.float32 in
  let a2 := tensor "a" [2; 3]%Z datatype.float32 in
  let b5 := tensor "b" [5%Z] datatype.float32 in
  str_contains "Runtime shape mismatch" err = true
  /\ outcome (__call__ (fixture pair_signature (raising err) ["a"; "b"]) [a; b] [])
     = Raise (MTRTException err)
  /\ outcome (__call__ (fixture pair_signature (raising "Runtime shape mismatch")
                          ["a"; "b"]) [a2; b5] [])
     = Raise IndexError
  /\ ~ (exists name mins maxs shape i size bounds t,
          outcome (__call__ (fixture pair_signature (raising err) ["a"; "b"]) [a; b] [])
          = Raise (TripyException
                     (UnexpectedTensorShape name mins maxs shape i size bounds t)))
  /\ ~ (exists name mins maxs shape i size bounds t,
          outcome (__call__ (fixture pair_signature (raising "Runtime shape mismatch")
                               ["a"; "b"]) [a2; b5] [])
          = Raise (TripyException
                     (UnexpectedTensorShape name mins maxs shape i size bounds t))).
Proof.
  intros err a b a2 b5. repeat split.
  - intros (name & mins & maxs & shape & i & size & bounds & t & H). discriminate H.
  - intros (name & mins & maxs & shape & i & size & bounds & t & H). discriminate H.
Qed.

(** ** Base64 *)

Section Exhaustive.
Local Open Scope N_scope.

Lemma forallb_N_below (P : N -> bool) (n : nat) :
  forallb P (N_below n) = true -> forall m, m < N.of_nat n -> P m = true.
Proof.
  intros Hall m Hm. rewrite forallb_forall in Hall. apply Hall.
  unfold N_below. rewrite <- (N2Nat.id m). apply in_map, in_seq. lia.
Qed.

Lemma forallb_N_below2 (P : N -> N -> bool) (n : nat) :
  forallb (fun a => forallb (P a) (N_below n)) (N_below n) = true ->
  forall a b, a < N.of_nat n -> b < N.of_nat n -> P a b = true.
Proof.
  intros Hall a b Ha Hb.
  apply (forallb_N_below (P a) n); [|exact Hb].
  apply (forallb_N_below (fun a => forallb (P a) (N_below n)) n Hall a Ha).
Qed.

Lemma sextet_char (n : N) :
  n < 64 ->
  Ascii.eqb (base64.b2a n) base64.BASE64_PAD = false
  /\ base64.table_a2b_base64 (base64.b2a n) = Some n
  /\ (N_of_ascii (base64.b2a n) <? 128) = true.
Proof.
  intros Hn.
  assert ((negb (Ascii.eqb (base64.b2a n) base64.BASE64_PAD)
           && match base64.table_a2b_base64 (base64.b2a n) with
              | Some m => N.eqb m n
              | None => false
              end
           && (N_of_ascii (base64.b2a n) <? 128))%bool = true) as H.
  { apply (forallb_N_below
             (fun n => (negb (Ascii.eqb (base64.b2a n) base64.BASE64_PAD)
                        && match base64.table_a2b_base64 (base64.b2a n) with
                           | Some m => N.eqb m n
                           | None => false
                           end
                        && (N_of_ascii (base64.b2a n) <? 128))%bool) 64);
      [vm_compute; reflexivity|exact Hn]. }
  apply andb_true_iff in H. destruct H as [H Hascii].
  apply andb_true_iff in H. destruct H as [Hpad Htab]. repeat split.
  - now apply negb_true_iff.
  - destruct (base64.table_a2b_base64 (base64.b2a n)); [|discriminate].
    apply N.eqb_eq in Htab. now subst.
  - exact Hascii.
Qed.

(** The first two characters of a group give back its first byte. *)
Lemma first_byte (a b : N) :
  a < 256 -> b < 256 ->
  let c0 := N.shiftr a 2 in
  let c1 := N.lor (N.shiftl (N.land a 3) 4) (N.shiftr b 4) in
  c0 < 64 /\ c1 < 64
  /\ N.lor (N.shiftl c0 2) (N.shiftr c1 4) = a
  /\ N.land c1 15 = N.shiftr b 4.
Proof.
  intros Ha Hb c0 c1.
  pose (P := fun a b =>
               let c0 := N.shiftr a 2 in
               let c1 := N.lor (N.shiftl (N.land a 3) 4) (N.shiftr b 4) in
               ((c0 <? 64) && (c1 <? 64)
                && (N.lor (N.shiftl c0 2) (N.shiftr c1 4) =? a)
                && (N.land c1 15 =? N.shiftr b 4))%bool).
  assert (P a b = true) as H
      by (apply (forallb_N_below2 P 256); [vm_compute; reflexivity|exact Ha|exact Hb]).
  unfold P in H. fold c0 c1 in H.
  repeat (apply andb_true_iff in H; destruct H as [H ?]).
  repeat split; try (now apply N.ltb_lt); now apply N.eqb_eq.
Qed.

(** The second and third characters give back the second byte. *)
Lemma second_byte (b c : N) :
  b < 256 -> c < 256 ->
  let c2 := N.lor (N.shiftl (N.land b 15) 2) (N.shiftr c 6) in
  c2 < 64
  /\ N.lor (N.shiftl (N.shiftr b 4) 4) (N.shiftr c2 2) = b
  /\ N.land c2 3 = N.shiftr c 6.
Proof.
  intros Hb Hc c2.
  pose (P := fun b c =>
               let c2 := N.lor (N.shiftl (N.land b 15) 2) (N.shiftr c 6) in
               ((c2 <? 64)
                && (N.lor (N.shiftl (N.shiftr b 4) 4) (N.shiftr c2 2) =? b)
                && (N.land c2 3 =? N.shiftr c 6))%bool).
  assert (P b c = true) as H
      by (apply (forallb_N_below2 P 256); [vm_compute; reflexivity|exact Hb|exact Hc]).
  unfold P in H. fold c2 in H.
  repeat (apply andb_true_iff in H; destruct H as [H ?]).
  repeat split; try (now apply N.ltb_lt); now apply N.eqb_eq.
Qed.

(** The third and fourth characters give back the third byte. *)
Lemma third_byte (c : N) :
  c < 256 ->
  N.land c 63 < 64
  /\ N.lor (N.shiftl (N.shiftr c 6) 6) (N.land c 63) = c.
Proof.
  intros Hc.
  pose (P := fun c =>
               ((N.land c 63 <? 64)
                && (N.lor (N.shiftl (N.shiftr c 6) 6) (N.land c 63) =? c))%bool).
  assert (P c = true) as H
      by (apply (forallb_N_below P 256); [vm_compute; reflexivity|exact Hc]).
  unfold P in H. apply andb_true_iff in H. destruct H as [H1 H2].
  split; [now apply N.ltb_lt|now apply N.eqb_eq].
Qed.

Lemma to_N_below (b : byte) : Byte.to_N b < 256.
Proof. pose proof (Byte.to_N_bounded b). lia. Qed.

Lemma to_byte_to_N (b : byte) : base64.to_byte (Byte.to_N b) = b.
Proof.
  unfold base64.to_byte. rewrite N.mod_small by apply to_N_below.
  now rewrite Byte.of_to_N.
Qed.
End Exhaustive.

Lemma a2b_loop_sextet (n : N) (rest : string) (quad_pos : nat) (leftchar : N)
    (pads : nat) (out : list byte) :
  (n < 64)%N ->
  base64.a2b_base64_loop (String (base64.b2a n) rest) quad_pos leftchar pads out
  = match quad_pos with
    | 0 => base64.a2b_base64_loop rest 1 n 0 out
    | 1 => base64.a2b_base64_loop rest 2 (N.land n 15) 0
             (out ++ [base64.to_byte (N.lor (N.shiftl leftchar 2) (N.shiftr n 4))])
    | 2 => base64.a2b_base64_loop rest 3 (N.land n 3) 0
             (out ++ [base64.to_byte (N.lor (N.shiftl leftchar 4) (N.shiftr n 2))])
    | _ => base64.a2b_base64_loop rest 0 0 0
             (out ++ [base64.to_byte (N.lor (N.shiftl leftchar 6) n)])
    end.
Proof.
  intros Hn. destruct (sextet_char n Hn) as (Hpad & Htab & _).
  cbn [base64.a2b_base64_loop]. now rewrite Hpad, Htab.
Qed.

(** A full group of four characters adds its three bytes to the output and
    leaves the loop at the start of a group. *)
Lemma a2b_loop_group (a b c : byte) (out : list byte) :
  base64.a2b_base64_loop (base64.b2a_base64 (a :: b :: c :: [])) 0 0 0 out
  = Return (out ++ [a; b; c])
  /\ forall tail,
      base64.a2b_base64_loop
        (String (base64.b2a (N.shiftr (Byte.to_N a) 2))
           (String (base64.b2a (N.lor (N.shiftl (N.land (Byte.to_N a) 3) 4)
                                      (N.shiftr (Byte.to_N b) 4)))
              (String (base64.b2a (N.lor (N.shiftl (N.land (Byte.to_N b) 15) 2)
                                         (N.shiftr (Byte.to_N c) 6)))
                 (String (base64.b2a (N.land (Byte.to_N c) 63)) tail))))
        0 0 0 out
      = base64.a2b_base64_loop tail 0 0 0 (out ++ [a; b; c]).
Proof.
  destruct (first_byte _ _ (to_N_below a) (to_N_below b)) as (H0 & H1 & Ha & Hl1).
  destruct (second_byte _ _ (to_N_below b) (to_N_below c)) as (H2 & Hb & Hl2).
  destruct (third_byte _ (to_N_below c)) as (H3 & Hc).
  assert (forall tail,
             base64.a2b_base64_loop
               (String (base64.b2a (N.shiftr (Byte.to_N a) 2))
                  (String (base64.b2a (N.lor (N.shiftl (N.land (Byte.to_N a) 3) 4)
                                             (N.shiftr (Byte.to_N b) 4)))
                     (String (base64.b2a (N.lor (N.shiftl (N.land (Byte.to_N b) 15) 2)
                                                (N.shiftr (Byte.to_N c) 6)))
                        (String (base64.b2a (N.land (Byte.to_N c) 63)) tail))))
               0 0 0 out
             = base64.a2b_base64_loop tail 0 0 0 (out ++ [a; b; c])) as Hgroup.
  { intros tail.
    rewrite (a2b_loop_sextet _ _ 0 _ _ _ H0).
    rewrite (a2b_loop_sextet _ _ 1 _ _ _ H1), Ha, Hl1, to_byte_to_N.
    rewrite (a2b_loop_sextet _ _ 2 _ _ _ H2), Hb, Hl2, to_byte_to_N.
    rewrite (a2b_loop_sextet _ _ 3 _ _ _ H3), Hc, to_byte_to_N.
    now rewrite <- !app_assoc. }
  split; [|exact Hgroup].
  cbn [base64.b2a_base64]. now rewrite Hgroup.
Qed.

Lemma a2b_loop_one (a : byte) (out : list byte) :
  base64.a2b_base64_loop (base64.b2a_base64 [a]) 0 0 0 out = Return (out ++ [a]).
Proof.
  destruct (first_byte _ 0%N (to_N_below a) eq_refl) as (H0 & H1 & Ha & _).
  cbn [base64.b2a_base64].
  change (N.shiftr 0 4) with 0%N in *. rewrite N.lor_0_r in *.
  rewrite (a2b_loop_sextet _ _ 0 _ _ _ H0).
  rewrite (a2b_loop_sextet _ _ 1 _ _ _ H1), Ha, to_byte_to_N.
  reflexivity.
Qed.

Lemma a2b_loop_two (a b : byte) (out : list byte) :
  base64.a2b_base64_loop (base64.b2a_base64 [a; b]) 0 0 0 out = Return (out ++ [a; b]).
Proof.
  destruct (first_byte _ _ (to_N_below a) (to_N_below b)) as (H0 & H1 & Ha & Hl1).
  destruct (second_byte _ 0%N (to_N_below b) eq_refl) as (H2 & Hb & _).
  cbn [base64.b2a_base64].
  change (N.shiftr 0 6) with 0%N in *. rewrite N.lor_0_r in *.
  rewrite (a2b_loop_sextet _ _ 0 _ _ _ H0).
  rewrite (a2b_loop_sextet _ _ 1 _ _ _ H1), Ha, Hl1, to_byte_to_N.
  rewrite (a2b_loop_sextet _ _ 2 _ _ _ H2), Hb, to_byte_to_N.
  cbn. now rewrite <- app_assoc.
Qed.

Lemma a2b_loop_b2a (n : nat) :
  forall (bin_data out : list byte),
    length bin_data <= n ->
    base64.a2b_base64_loop (base64.b2a_base64 bin_data) 0 0 0 out
    = Return (out ++ bin_data).
Proof.
  induction n as [|n IH]; intros [|a [|b [|c rest]]] out Hlen; simpl in Hlen;
    try lia.
  - cbn. now rewrite app_nil_r.
  - cbn. now rewrite app_nil_r.
  - apply a2b_loop_one.
  - apply a2b_loop_two.
  - destruct (a2b_loop_group a b c out) as [_ Hgroup].
    cbn [base64.b2a_base64]. rewrite Hgroup, IH by lia.
    now rewrite <- app_assoc.
Qed.

(** The encoder writes characters of the alphabet and padding only. *)
Lemma b2a_base64_is_ascii (n : nat) :
  forall bin_data : list byte,
    length bin_data <= n -> base64.is_ascii (base64.b2a_base64 bin_data) = true.
Proof.
  induction n as [|n IH]; intros [|a [|b [|c rest]]] Hlen; simpl in Hlen;
    try lia; try reflexivity.
  - destruct (first_byte _ 0%N (to_N_below a) eq_refl) as (H0 & H1 & _).
    change (N.shiftr 0 4) with 0%N in H1. rewrite N.lor_0_r in H1.
    destruct (sextet_char _ H0) as (_ & _ & A0).
    destruct (sextet_char _ H1) as (_ & _ & A1).
    cbn [base64.b2a_base64 base64.is_ascii]. now rewrite A0, A1.
  - destruct (first_byte _ _ (to_N_below a) (to_N_below b)) as (H0 & H1 & _).
    destruct (second_byte _ 0%N (to_N_below b) eq_refl) as (H2 & _).
    change (N.shiftr 0 6) with 0%N in H2. rewrite N.lor_0_r in H2.
    destruct (sextet_char _ H0) as (_ & _ & A0).
    destruct (sextet_char _ H1) as (_ & _ & A1).
    destruct (sextet_char _ H2) as (_ & _ & A2).
    cbn [base64.b2a_base64 base64.is_ascii]. now rewrite A0, A1, A2.
  - destruct (first_byte _ _ (to_N_below a) (to_N_below b)) as (H0 & H1 & _).
    destruct (second_byte _ _ (to_N_below b) (to_N_below c)) as (H2 & _).
    destruct (third_byte _ (to_N_below c)) as (H3 & _).
    destruct (sextet_char _ H0) as (_ & _ & A0).
    destruct (sextet_char _ H1) as (_ & _ & A1).
    destruct (sextet_char _ H2) as (_ & _ & A2).
    destruct (sextet_char _ H3) as (_ & _ & A3).
    cbn [base64.b2a_base64 base64.is_ascii]. rewrite A0, A1, A2, A3.
    cbn [andb]. apply IH. lia.
Qed.

(** Decoding what was encoded gives the bytes back. *)
Lemma b64decode_b64encode (s : list byte) :
  base64.b64decode (base64.b64encode s) = Return s.
Proof.
  unfold base64.b64decode, base64.b64encode, base64.a2b_base64.
  rewrite (b2a_base64_is_ascii (length s)) by lia.
  now rewrite (a2b_loop_b2a (length s)).
Qed.

Example b64encode_Man :
  base64.b64encode ["M"%byte; "a"%byte; "n"%byte] = "TWFu"
  /\ base64.b64encode ["M"%byte; "a"%byte] = "TWE="
  /\ base64.b64encode ["M"%byte] = "TQ=="
  /\ base64.b64decode "TWE=" = Return ["M"%byte; "a"%byte]
  /\ base64.b64decode "TQ=" = Raise (binascii_Error "Incorrect padding").
Proof. repeat split. Qed.

(** ** Saving and loading an executable *)

Section RoundTrip.
Context {RT : Runtime}.

Lemma collect_arg_info_signature (e1 e2 : Executable) (idxs : list nat) :
  _executable_signature e1 = _executable_signature e2 ->
  collect_arg_info e1 idxs = collect_arg_info e2 idxs.
Proof.
  intros Hsig. induction idxs as [|idx idxs IH]; simpl; [reflexivity|].
  unfold _get_arg_info. now rewrite Hsig, IH.
Qed.

(** C4. If the runtime loads what it serialized into an artifact with the
    same signature, then decoding the encoding of an executable succeeds and
    gives an executable with the same argument names, the same output
    devices, and the same shape bounds and dtypes for its inputs and
    outputs. The record holds the names, the devices and the encoded
    artifact only: executables that agree on these have the same record,
    whatever their signature field, and the decoded executable takes its
    signature from the artifact it loaded. *)
Theorem decode_encode_executable
    (x : runtime_Executable) (names : list string) (devs : list device)
    (e : Executable) :
  (forall a, exists a',
      runtime_Executable_of_bytes (serialize a) = Return a'
      /\ get_signature a' = get_signature a) ->
  Executable__init__ x names devs = Return e ->
  (exists e',
      decode_executable (encode_executable e) = Return e'
      /\ _arg_names e' = _arg_names e
      /\ _output_devices e' = _output_devices e
      /\ _get_input_info e' = _get_input_info e
      /\ _get_output_info e' = _get_output_info e
      /\ __signature__ e' = __signature__ e
      /\ _executable_signature e' = get_signature (_executable e')
      /\ runtime_Executable_of_bytes (serialize (_executable e))
         = Return (_executable e'))
  /\ (forall e2 : Executable,
         _arg_names e2 = _arg_names e ->
         _output_devices e2 = _output_devices e ->
         serialize (_executable e2) = serialize (_executable e) ->
         encode_executable e2 = encode_executable e).
Proof.
  intros Hload Hinit. split.
  - destruct (Hload x) as (x' & Hx' & Hsig).
    unfold decode_executable, encode_executable.
    cbn [dict_executable dict_arg_names dict_output_devices].
    rewrite b64decode_b64encode.
    destruct (Executable__init__inv _ _ _ _ Hinit)
      as (Hx & Hnames & Hnd & Hnum & Hdevs & Hesig).
    rewrite Hx, Hx', Hnames, Hdevs.
    revert Hinit. unfold Executable__init__. rewrite Hsig.
    destruct (build_params names) as [params|err]; [|discriminate].
    destruct (inspect_Signature params _) as [sig|err]; [|discriminate].
    intros Hinit. inversion Hinit; subst e; clear Hinit. cbn.
    eexists. split; [reflexivity|]. cbn.
    repeat split; try reflexivity; try congruence.
    + unfold _get_input_info. cbn [_executable_signature].
      now apply collect_arg_info_signature.
    + unfold _get_output_info. cbn [_executable_signature].
      now apply collect_arg_info_signature.
  - intros e2 H1 H2 H3. unfold encode_executable. now rewrite H1, H2, H3.
Qed.
End RoundTrip.

Lemma decode_encode_executable_witness :
  exists e',
    @decode_executable add_runtime (encode_executable compiled_add) = Return e'
    /\ _arg_names e' = ["a"; "b"]
    /\ _output_devices e' = [Device "gpu" 0]
    /\ _get_input_info e' = _get_input_info compiled_add.
Proof.
  destruct (@decode_encode_executable add_runtime [] ["a"; "b"] [Device "gpu" 0]
              compiled_add) as [(e' & H1 & H2 & H3 & H4 & _) _].
  - intros a. exists a. split; reflexivity.
  - reflexivity.
  - exists e'. repeat split; assumption.
Defined.

(** ** Dtype constraints *)

Lemma check_params_app (info : constraints.dtype_info)
    (before rest : list (string * dtype)) :
  forall bound,
    constraints.check_params info bound (before ++ rest)
    = match constraints.check_params info bound before with
      | Return bound' => constraints.check_params info bound' rest
      | Raise e => Raise e
      end.
Proof.
  induction before as [|[param d] before IH]; intros bound; simpl; [reflexivity|].
  destruct (dict_get param (constraints.dtype_constraints info)) as [variable|]; [|apply IH].
  destruct (dict_get variable bound) as [expected|].
  - destruct (datatype.eqb d expected); [apply IH|reflexivity].
  - destruct (constraints.is_allowed info variable d); [apply IH|reflexivity].
Qed.

Lemma check_params_bindings_allowed (info : constraints.dtype_info)
    (arguments : list (string * dtype)) :
  forall bound bound',
    (forall v d, In (v, d) bound -> constraints.is_allowed info v d = true) ->
    constraints.check_params info bound arguments = Return bound' ->
    forall v d, In (v, d) bound' -> constraints.is_allowed info v d = true.
Proof.
  induction arguments as [|[param d0] arguments IH]; intros bound bound' Hinv; simpl.
  - intros H; inversion H; subst. exact Hinv.
  - destruct (dict_get param (constraints.dtype_constraints info)) as [variable|];
      [|now apply IH].
    destruct (dict_get variable bound) as [expected|].
    + destruct (datatype.eqb d0 expected); [now apply IH|discriminate].
    + destruct (constraints.is_allowed info variable d0) eqn:Hallowed; [|discriminate].
      apply IH. intros v d Hin. apply in_app_or in Hin.
      destruct Hin as [Hin|[Heq|[]]]; [now apply Hinv|].
      inversion Heq; subst. exact Hallowed.
Qed.

Lemma not_allowed_T1 (names : list string) (d : dtype) :
  ~ In (datatype.name d) names ->
  constraints.is_allowed (unary_elementwise.T1 names) "T1" d = false.
Proof.
  intros Hnot. unfold constraints.is_allowed, constraints.allowed. cbn.
  destruct (existsb (String.eqb (datatype.name d)) names) eqn:Hex; [|reflexivity].
  apply existsb_exists in Hex. destruct Hex as (n & Hin & Heq).
  apply String.eqb_eq in Heq. subst n. contradiction.
Qed.

Lemma decorated_T1_not_allowed {A} (names : list string) (d : dtype)
    (body : Result A) :
  ~ In (datatype.name d) names ->
  constraints.decorated (unary_elementwise.T1 names) [("input", d)] body
  = Raise (TripyException (DtypeNotAllowed "input" d names)).
Proof.
  intros Hnot. unfold constraints.decorated, constraints.check.
  change (constraints.check_params (unary_elementwise.T1 names) [] [("input", d)])
    with (if constraints.is_allowed (unary_elementwise.T1 names) "T1" d
          then Return [("T1", d)]
          else Raise (TripyException (DtypeNotAllowed "input" d names))).
  now rewrite (not_allowed_T1 _ _ Hnot).
Qed.

(** C5. With the checker of the specification: an argument whose type
    variable is still unbound and whose dtype is not in the set declared for
    that variable makes the check fail with [DtypeNotAllowed], whatever
    follows it; a check that succeeds has bound every variable to a dtype of
    its declared set; and every public operation of the two source files
    ([abs], [squeeze], and the other unary operations, which differ in their
    set and kind only) applied to a tensor whose dtype is outside its set
    raises [DtypeNotAllowed] for [input], before its body runs. *)
Theorem dtype_outside_declared_set_not_allowed :
  (forall info before param d rest variable bound,
      constraints.check_params info [] before = Return bound ->
      dict_get param (constraints.dtype_constraints info) = Some variable ->
      dict_get variable bound = None ->
      constraints.is_allowed info variable d = false ->
      constraints.check info (before ++ (param, d) :: rest)
      = Raise (TripyException
                 (DtypeNotAllowed param d (constraints.allowed info variable))))
  /\ (forall info arguments bound variable d,
         constraints.check info arguments = Return bound ->
         In (variable, d) bound ->
         constraints.is_allowed info variable d = true)
  /\ (forall input,
         ~ In (datatype.name (Tensor_dtype input)) unary_elementwise.abs_dtypes ->
         unary_elementwise.abs input
         = Raise (TripyException
                    (DtypeNotAllowed "input" (Tensor_dtype input)
                       unary_elementwise.abs_dtypes)))
  /\ (forall input dims,
         ~ In (datatype.name (Tensor_dtype input)) squeeze_op.squeeze_dtypes ->
         squeeze_op.squeeze input (Some dims)
         = Raise (TripyException
                    (DtypeNotAllowed "input" (Tensor_dtype input)
                       squeeze_op.squeeze_dtypes)))
  /\ (forall names kind input,
         ~ In (datatype.name (Tensor_dtype input)) names ->
         unary_elementwise.unary names kind input
         = Raise (TripyException (DtypeNotAllowed "input" (Tensor_dtype input) names))).
Proof.
  split; [|split; [|split; [|split]]].
  - intros info before param d rest variable bound Hbefore Hvar Hunbound Hnot.
    unfold constraints.check. rewrite check_params_app, Hbefore. simpl.
    now rewrite Hvar, Hunbound, Hnot.
  - intros info arguments bound variable d Hcheck Hin.
    apply (check_params_bindings_allowed info arguments [] bound); auto.
  - intros input Hnot. now apply decorated_T1_not_allowed.
  - intros input dims Hnot.
    apply (decorated_T1_not_allowed squeeze_op.squeeze_dtypes). exact Hnot.
  - intros names kind input Hnot. now apply decorated_T1_not_allowed.
Qed.

Lemma dtype_outside_declared_set_not_allowed_witness :
  unary_elementwise.abs (tensor "t" [2%Z] datatype.int64)
  = Raise (TripyException
             (DtypeNotAllowed "input" datatype.int64
                ["float32"; "float16"; "bfloat16"; "int8"; "int32"]))
  /\ squeeze_op.squeeze (tensor "t" [1%Z; 2%Z] datatype.int4)
       (Some (squeeze_op.dims_int 0))
     = Raise (TripyException
                (DtypeNotAllowed "input" datatype.int4 squeeze_op.squeeze_dtypes))
  /\ unary_elementwise.exp (tensor "t" [2%Z] datatype.int32)
     = Raise (TripyException
                (DtypeNotAllowed "input" datatype.int32
                   ["float32"; "float16"; "bfloat16"]))
  /\ constraints.check (unary_elementwise.T1 ["float32"])
       [("other", datatype.int8); ("input", datatype.int8)]
     = Raise (TripyException (DtypeNotAllowed "input" datatype.int8 ["float32"])).
Proof.
  destruct dtype_outside_declared_set_not_allowed as (Hcheck & _ & Habs & Hsqueeze & Hunary).
  split; [|split; [|split]].
  - apply (Habs (tensor "t" [2%Z] datatype.int64)).
    simpl. intuition discriminate.
  - apply (Hsqueeze (tensor "t" [1%Z; 2%Z] datatype.int4)).
    simpl. intuition discriminate.
  - apply (Hunary unary_elementwise.float_dtypes unary_elementwise.EXP
             (tensor "t" [2%Z] datatype.int32)).
    simpl. intuition discriminate.
  - apply (Hcheck (unary_elementwise.T1 ["float32"]) [("other", datatype.int8)]
             "input" datatype.int8 [] "T1" []); reflexivity.
Defined.

(** An operation applied to a tensor whose dtype is in its set is built. *)
Lemma abs_int32 :
  unary_elementwise.abs (tensor "t" [2%Z] datatype.int32)
  = Return (unary_elementwise.build [tensor "t" [2%Z] datatype.int32]
              unary_elementwise.ABS).
Proof. reflexivity. Qed.

(** ** [squeeze] *)

(** C6. Squeezing a tensor of shape [(1,2,1)] with the dimensions [(0,2)]
    gives shape [(2,)]; but [dims] is a required parameter, so a call that
    leaves it out raises [TypeError] and removes nothing. *)
Theorem squeeze_without_dims_raises :
  squeeze_op.squeeze (tensor "t" [1; 2; 1]%Z datatype.float32)
    (Some (squeeze_op.dims_sequence [0; 2]%Z))
  = Return (tensor "t" [2%Z] datatype.float32)
  /\ forall input,
      squeeze_op.squeeze input None
      = Raise (TypeError "squeeze() missing 1 required positional argument: 'dims'").
Proof. split; reflexivity. Qed.

(** ** [Convolution] *)

(** C7. The policy gives the first output of a node the rank of the input it
    designates (and raises when there is no such input or no output); a
    [Convolution] node built on at least one input has one output, whose rank
    is the rank of the first input, whatever that rank is. *)
Theorem convolution_rank_same_as_input :
  (forall (self : trace.Convolution) (idx : nat),
      match nth_error (trace.inputs self) idx, trace.outputs self with
      | Some input, _ :: outs =>
          exists node out,
            trace.same_as_input idx self = Return node
            /\ trace.outputs node = out :: outs
            /\ trace.rank out = trace.rank input
      | _, _ => trace.same_as_input idx self = Raise IndexError
      end)
  /\ (forall (r : nat) name d others padding stride groups lhs_dilation rhs_dilation,
         let input := {| trace.name := name; trace.rank := Some r; trace.dtype := d |} in
         exists node out,
           trace.build (input :: others) padding stride groups lhs_dilation rhs_dilation
           = Return node
           /\ trace.outputs node = [out]
           /\ trace.rank out = Some r
           /\ trace.dtype out = d
           /\ trace.inputs node = input :: others).
Proof.
  split.
  - intros self idx. unfold trace.same_as_input.
    destruct (nth_error (trace.inputs self) idx) as [input|]; [|reflexivity].
    destruct (trace.outputs self) as [|out outs]; [reflexivity|].
    eexists. eexists. repeat split.
  - intros r name d others padding stride groups lhs_dilation rhs_dilation input.
    eexists. eexists. repeat split.
Qed.

(** ** [ConstantOp.to_mlir] *)

Lemma existsb_zero (shape : list Z) :
  existsb (Z.eqb 0) shape = true <-> In 0%Z shape.
Proof.
  rewrite existsb_exists. split.
  - intros (z & Hin & Hz). apply Z.eqb_eq in Hz. now subst.
  - intros Hin. exists 0%Z. split; [exact Hin|reflexivity].
Qed.

Lemma cast_when_castable (m : flat_ir.MemRefValue) :
  length (flat_ir.memref_value_shape m) = 1 \/ ~ In 0%Z (flat_ir.memref_value_shape m) ->
  flat_ir.memoryview_cast_b_tolist m
  = Return (map flat_ir.signed_char (flat_ir.contents m)).
Proof.
  intros H. unfold flat_ir.memoryview_cast_b_tolist. destruct H as [H|H].
  - now rewrite H.
  - destruct (existsb (Z.eqb 0) (flat_ir.memref_value_shape m)) eqn:Hz.
    + apply existsb_zero in Hz. contradiction.
    + now rewrite andb_false_r.
Qed.

Lemma cast_when_refused (m : flat_ir.MemRefValue) :
  length (flat_ir.memref_value_shape m) <> 1 ->
  In 0%Z (flat_ir.memref_value_shape m) ->
  flat_ir.memoryview_cast_b_tolist m
  = Raise (TypeError "memoryview: cannot cast view with zeros in shape or strides").
Proof.
  intros Hrank Hzero. unfold flat_ir.memoryview_cast_b_tolist.
  apply Nat.eqb_neq in Hrank. apply existsb_zero in Hzero.
  now rewrite Hrank, Hzero.
Qed.

(** The memref the cast is applied to: the data, copied to the host if it is
    on the device. The copy has the shape and the bytes of the data. *)
Lemma cast_of_host_copy (m : flat_ir.MemRefValue) :
  flat_ir.memoryview_cast_b_tolist
    match flat_ir.address_space m with
    | flat_ir.device => flat_ir.copy_to_host m
    | _ => m
    end
  = flat_ir.memoryview_cast_b_tolist m.
Proof. destruct (flat_ir.address_space m); reflexivity. Qed.

Lemma shape_of_host_copy (m : flat_ir.MemRefValue) :
  flat_ir.memref_value_shape
    match flat_ir.address_space m with
    | flat_ir.device => flat_ir.copy_to_host m
    | _ => m
    end
  = flat_ir.memref_value_shape m.
Proof. destruct (flat_ir.address_space m); reflexivity. Qed.

(** C8. For a constant whose output is boolean and whose data is a memref:
    if the view of the memref can be cast to bytes (it has exactly one
    dimension, or no dimension of size zero), two operations are inserted, in
    this order: a constant whose attribute holds the bytes of the data as an
    array of [int32], of type [int32], and a conversion of that constant to a
    boolean tensor of the same shape, which is what [to_mlir] returns. If the
    memref has a dimension of size zero and not exactly one dimension, the
    cast raises [TypeError] and nothing is lowered. *)
Theorem bool_constant_lowered_through_int32
    (self : flat_ir.ConstantOp) (output : flat_ir.FlatIRTensor)
    (others : list flat_ir.FlatIRTensor) (m : flat_ir.MemRefValue) :
  flat_ir.outputs self = output :: others ->
  flat_ir.tensor_dtype output = datatype.bool ->
  flat_ir.data self = flat_ir.memref_data m ->
  let int_memref :=
    {| flat_ir.address_space := flat_ir.host;
       flat_ir.memref_value_shape := flat_ir.memref_value_shape m;
       flat_ir.memref_value_dtype := datatype.int32;
       flat_ir.contents :=
         flat_ir.array_i (map flat_ir.signed_char (flat_ir.contents m)) |} in
  let constant :=
    flat_ir.stablehlo_ConstantOp
      (flat_ir.DenseElementsAttr_array int_memref datatype.int32
         (flat_ir.memref_value_shape m)) in
  let convert :=
    flat_ir.stablehlo_ConvertOp
      {| flat_ir.element_type := datatype.bool;
         flat_ir.type_shape := flat_ir.memref_value_shape m |} constant in
  (length (flat_ir.memref_value_shape m) = 1
   \/ ~ In 0%Z (flat_ir.memref_value_shape m) ->
   flat_ir.to_mlir self = Return ([constant; convert], [convert]))
  /\ (length (flat_ir.memref_value_shape m) <> 1 ->
      In 0%Z (flat_ir.memref_value_shape m) ->
      flat_ir.to_mlir self
      = Raise (TypeError "memoryview: cannot cast view with zeros in shape or strides")).
Proof.
  intros Hout Hbool Hdata int_memref constant convert.
  unfold flat_ir.to_mlir. rewrite Hout, Hdata, Hbool.
  cbn [datatype.eqb]. rewrite cast_of_host_copy, shape_of_host_copy. split.
  - intros Hcast. now rewrite (cast_when_castable m Hcast).
  - intros Hrank Hzero. now rewrite (cast_when_refused m Hrank Hzero).
Qed.

Lemma bool_constant_lowered_through_int32_witness :
  let m := {| flat_ir.address_space := flat_ir.device;
              flat_ir.memref_value_shape := [2%Z];
              flat_ir.memref_value_dtype := datatype.bool;
              flat_ir.contents := [x01; x00] |} in
  let empty := {| flat_ir.address_space := flat_ir.host;
                  flat_ir.memref_value_shape := [2; 0]%Z;
                  flat_ir.memref_value_dtype := datatype.bool;
                  flat_ir.contents := [] |} in
  let constant :=
    flat_ir.stablehlo_ConstantOp
      (flat_ir.DenseElementsAttr_array
         {| flat_ir.address_space := flat_ir.host;
            flat_ir.memref_value_shape := [2%Z];
            flat_ir.memref_value_dtype := datatype.int32;
            flat_ir.contents := [x01; x00; x00; x00; x00; x00; x00; x00] |}
         datatype.int32 [2%Z]) in
  let convert :=
    flat_ir.stablehlo_ConvertOp
      {| flat_ir.element_type := datatype.bool; flat_ir.type_shape := [2%Z] |}
      constant in
  flat_ir.to_mlir
    {| flat_ir.outputs := [{| flat_ir.tensor_shape := [2%Z];
                              flat_ir.tensor_dtype := datatype.bool |}];
       flat_ir.data := flat_ir.memref_data m |}
  = Return ([constant; convert], [convert])
  /\ flat_ir.to_mlir
       {| flat_ir.outputs := [{| flat_ir.tensor_shape := [2; 0]%Z;
                                 flat_ir.tensor_dtype := datatype.bool |}];
          flat_ir.data := flat_ir.memref_data empty |}
     = Raise (TypeError "memoryview: cannot cast view with zeros in shape or strides").
Proof.
  intros m empty constant convert. split.
  - apply (bool_constant_lowered_through_int32
             {| flat_ir.outputs := [{| flat_ir.tensor_shape := [2%Z];
                                       flat_ir.tensor_dtype := datatype.bool |}];
                flat_ir.data := flat_ir.memref_data m |}
             {| flat_ir.tensor_shape := [2%Z]; flat_ir.tensor_dtype := datatype.bool |}
             [] m); try reflexivity.
    left. reflexivity.
  - apply (bool_constant_lowered_through_int32
             {| flat_ir.outputs := [{| flat_ir.tensor_shape := [2; 0]%Z;
                                       flat_ir.tensor_dtype := datatype.bool |}];
                flat_ir.data := flat_ir.memref_data empty |}
             {| flat_ir.tensor_shape := [2; 0]%Z; flat_ir.tensor_dtype := datatype.bool |}
             [] empty); try reflexivity.
    + simpl. discriminate.
    + simpl. right. now left.
Defined.

(** A constant of another dtype is inserted as it is, also when it has a
    dimension of size zero. *)
Lemma int32_constant_lowered_directly (m : flat_ir.MemRefValue) :
  flat_ir.address_space m = flat_ir.host ->
  flat_ir.to_mlir
    {| flat_ir.outputs := [{| flat_ir.tensor_shape := flat_ir.memref_value_shape m;
                              flat_ir.tensor_dtype := datatype.int32 |}];
       flat_ir.data := flat_ir.memref_data m |}
  = Return ([flat_ir.stablehlo_ConstantOp
               (flat_ir.DenseElementsAttr_array m datatype.int32
                  (flat_ir.memref_value_shape m))],
            [flat_ir.stablehlo_ConstantOp
               (flat_ir.DenseElementsAttr_array m datatype.int32
                  (flat_ir.memref_value_shape m))]).
Proof. intros Hhost. unfold flat_ir.to_mlir. cbn. now rewrite Hhost. Qed.

(** * Further properties of the executable *)

Section CallPhases.
Context {RT : Runtime}.

(** What a call does once its arguments are bound. *)
Lemma call_after_binding (e : Executable) (args : list Tensor)
    (kwargs : dict Tensor) (inputs : list Tensor) :
  bind_kwargs (_arg_names e) (skipn (length args) (_arg_names e)) args kwargs
  = Return (inputs, []) ->
  length args + length kwargs = _num_expected_args e ->
  __call__ e args kwargs
  = (map TensorEval inputs
       ++ [ExecutorExecute (_output_devices e) (map trace_tensor inputs)],
     match Executor_execute (_executable e) (_output_devices e)
             (map trace_tensor inputs) with
     | Return executor_outputs =>
         Return match map fast_init executor_outputs with
                | [t] => OneTensor t
                | output_tensors => TensorSequence output_tensors
                end
     | Raise (MTRTException err) => Raise (handle_MTRTException e inputs err)
     | Raise other => Raise other
     end).
Proof.
  intros Hbind Hnum. unfold __call__.
  rewrite Hbind. cbn [lift bind is_empty negb].
  rewrite Hnum, Nat.eqb_refl. cbn [negb].
  rewrite for_each_eval.
  destruct (Executor_execute (_executable e) (_output_devices e)
              (map trace_tensor inputs)) as [outs|[]];
    try reflexivity.
  destruct (map fast_init outs) as [|t [|t' ts]]; reflexivity.
Qed.

Lemma filter_nil_keys (kw : list string) (kwargs : dict Tensor) :
  filter (fun k => negb (existsb (String.eqb k) kw)) (dict_keys kwargs) = [] ->
  (forall k, In k (dict_keys kwargs) -> In k kw)
  /\ filter (fun kv : string * Tensor => negb (existsb (String.eqb (fst kv)) kw)) kwargs = [].
Proof.
  intros Hnil. split.
  - intros k Hk.
    destruct (existsb (String.eqb k) kw) eqn:Hex.
    + apply existsb_exists in Hex. destruct Hex as (k' & Hin & Heq).
      apply String.eqb_eq in Heq. now subst.
    + assert (In k (filter (fun k => negb (existsb (String.eqb k) kw)) (dict_keys kwargs)))
        as Habs by (apply filter_In; split; [exact Hk|now rewrite Hex]).
      rewrite Hnil in Habs. contradiction.
  - rewrite <- (dict_keys_filter (fun k => negb (existsb (String.eqb k) kw))) in Hnil.
    destruct (filter _ kwargs); [reflexivity|discriminate].
Qed.

(** Every call either stops in the binding phase with an empty event log, or
    binds the positional arguments followed by the keyword values in declared
    order. *)
Lemma call_binding_cases (e : Executable) (args : list Tensor) (kwargs : dict Tensor) :
  NoDup (_arg_names e) ->
  let keyword_names := skipn (length args) (_arg_names e) in
  let binds :=
    (forall n, In n keyword_names -> dict_get n kwargs <> None)
    /\ (forall k, In k (dict_keys kwargs) -> In k keyword_names)
    /\ length args + length kwargs = _num_expected_args e in
  (~ binds /\ exists err, __call__ e args kwargs = ([], Raise (TripyException err)))
  \/ (binds
      /\ exists vs,
          Forall2 (fun n v => dict_get n kwargs = Some v) keyword_names vs
          /\ bind_kwargs (_arg_names e) keyword_names args kwargs
             = Return (args ++ vs, [])).
Proof.
  intros Hnd keyword_names binds.
  destruct (first_true_split
              (fun n => match dict_get n kwargs with None => true | Some _ => false end)
              keyword_names)
    as [Hall|(before & name & after & Hsplit & Hname & Hbefore)].
  - assert (Hall' : forall n, In n keyword_names -> dict_get n kwargs <> None).
    { intros n Hn Hnone. specialize (Hall n Hn). cbv beta in Hall.
      rewrite Hnone in Hall. discriminate. }
    destruct (filter (fun k => negb (existsb (String.eqb k) keyword_names))
                     (dict_keys kwargs)) as [|k0 ks] eqn:Hextra.
    + destruct (filter_nil_keys _ _ Hextra) as [Hkeys Hrest].
      destruct (Nat.eq_dec (length args + length kwargs) (_num_expected_args e))
        as [Hnum|Hnum].
      * right. split; [repeat split; assumption|].
        destruct (call_bound e args kwargs Hnd Hall') as (vs & Hvs & Hbind).
        exists vs. split; [exact Hvs|].
        fold keyword_names in Hbind. now rewrite Hbind, Hrest.
      * left. split; [intros (_ & _ & H); contradiction|].
        eexists. now apply call_arity.
    + left. split.
      * intros (_ & Hkeys & _).
        assert (In k0 (filter (fun k => negb (existsb (String.eqb k) keyword_names))
                              (dict_keys kwargs))) as Hin
            by (rewrite Hextra; now left).
        apply filter_In in Hin. destruct Hin as [Hk0 Hnot].
        apply negb_true_iff in Hnot.
        assert (existsb (String.eqb k0) keyword_names = true) as Habs.
        { apply existsb_exists. exists k0. split; [now apply Hkeys|apply String.eqb_refl]. }
        congruence.
      * eexists. apply call_extra; auto.
        fold keyword_names. rewrite Hextra. discriminate.
  - left. split.
    + intros (Hvals & _). apply (Hvals name).
      * rewrite Hsplit. apply in_or_app. right. now left.
      * destruct (dict_get name kwargs); [discriminate|reflexivity].
    + eexists. apply (call_missing e args kwargs before after name Hnd Hsplit).
      * intros n Hn Hnone. specialize (Hbefore n Hn). cbv beta in Hbefore.
        rewrite Hnone in Hbefore. discriminate.
      * destruct (dict_get name kwargs); [discriminate|reflexivity].
Qed.

(** X1. A call gets past binding exactly when every declared name after the
    positional ones has a keyword value, every keyword is such a name, and the
    count is the declared arity; the inputs are then the positional arguments
    followed by the keyword values in declared order. *)
Theorem call_binds_exactly_when
    (x : runtime_Executable) (names : list string) (devs : list device)
    (e : Executable) (args : list Tensor) (kwargs : dict Tensor) :
  Executable__init__ x names devs = Return e ->
  let keyword_names := skipn (length args) names in
  let binds :=
    (forall n, In n keyword_names -> dict_get n kwargs <> None)
    /\ (forall k, In k (dict_keys kwargs) -> In k keyword_names)
    /\ length args + length kwargs = length names in
  (binds <-> events (__call__ e args kwargs) <> [])
  /\ (binds ->
      exists vs,
        Forall2 (fun n v => dict_get n kwargs = Some v) keyword_names vs
        /\ events (__call__ e args kwargs)
           = map TensorEval (args ++ vs)
               ++ [ExecutorExecute devs (map trace_tensor (args ++ vs))]).
Proof.
  intros Hinit keyword_names binds.
  destruct (Executable__init__inv _ _ _ _ Hinit)
    as (_ & Hnames & Hnd & Hnum & Hdevs & _).
  subst names devs. unfold binds, keyword_names. rewrite <- Hnum.
  destruct (call_binding_cases e args kwargs Hnd)
    as [[Hnot [err Hcall]]|[Hbinds (vs & Hvs & Hbind)]].
  - split; [|intros H; contradiction].
    split; [intros H; contradiction|].
    rewrite Hcall. intros H. now contradiction H.
  - destruct Hbinds as (H1 & H2 & H3).
    rewrite (call_after_binding e args kwargs (args ++ vs) Hbind H3).
    split.
    + split; [|intros _; repeat split; assumption].
      intros _. cbn [events fst]. intros Habs.
      apply app_eq_nil in Habs. destruct Habs as [_ Habs]. discriminate.
    + intros _. exists vs. split; [exact Hvs|reflexivity].
Qed.

(** X2. Whatever the arguments, a call logs nothing or else evaluates each
    bound input once, in order, and then calls the executor once, with the
    output devices of the executable and exactly as many inputs as there are
    declared names, the positional arguments first. *)
Theorem call_effects_discipline
    (x : runtime_Executable) (names : list string) (devs : list device)
    (e : Executable) (args : list Tensor) (kwargs : dict Tensor) :
  Executable__init__ x names devs = Return e ->
  events (__call__ e args kwargs) = []
  \/ exists inputs,
      events (__call__ e args kwargs)
      = map TensorEval inputs ++ [ExecutorExecute devs (map trace_tensor inputs)]
      /\ length inputs = length names
      /\ firstn (length args) inputs = args.
Proof.
  intros Hinit.
  destruct (Executable__init__inv _ _ _ _ Hinit)
    as (_ & Hnames & Hnd & Hnum & Hdevs & _).
  subst names devs.
  destruct (call_binding_cases e args kwargs Hnd)
    as [[_ [err Hcall]]|[(H1 & H2 & H3) (vs & Hvs & Hbind)]].
  - left. now rewrite Hcall.
  - right. exists (args ++ vs).
    rewrite (call_after_binding e args kwargs (args ++ vs) Hbind H3).
    split; [reflexivity|]. split.
    + rewrite length_app, <- (Forall2_length Hvs), length_skipn. lia.
    + rewrite firstn_app, Nat.sub_diag, firstn_all. cbn. now rewrite app_nil_r.
Qed.
End CallPhases.

Lemma call_binds_exactly_when_witness :
  let x := tensor "x" [1%Z] datatype.float32 in
  let y := tensor "y" [1%Z] datatype.float32 in
  exists vs,
    Forall2 (fun n v => dict_get n [("b", y)] = Some v) ["b"] vs
    /\ events (__call__ compiled_add [x] [("b", y)])
       = map TensorEval ([x] ++ vs)
           ++ [ExecutorExecute [Device "gpu" 0] (map trace_tensor ([x] ++ vs))].
Proof.
  intros x y.
  destruct (@call_binds_exactly_when add_runtime [] ["a"; "b"] [Device "gpu" 0]
              compiled_add [x] [("b", y)] eq_refl) as [_ H].
  apply H. repeat split.
  - intros n [<-|[]]. discriminate.
  - intros k [<-|[]]. now left.
Defined.

Lemma call_effects_discipline_witness :
  let x := tensor "x" [1%Z] datatype.float32 in
  let y := tensor "y" [1%Z] datatype.float32 in
  events (__call__ compiled_add [x] [("b", y)]) = []
  \/ exists inputs,
      events (__call__ compiled_add [x] [("b", y)])
      = map TensorEval inputs
          ++ [ExecutorExecute [Device "gpu" 0] (map trace_tensor inputs)]
      /\ length inputs = 2
      /\ firstn 1 inputs = [x].
Proof.
  intros x y.
  exact (@call_effects_discipline add_runtime [] ["a"; "b"] [Device "gpu" 0]
           compiled_add [x] [("b", y)] eq_refl).
Defined.

Section CallOutcomes.
Context {RT : Runtime}.

(** X3. When the arguments bind and the executor returns, the call returns
    the single output as a tensor if there is exactly one, and the sequence of
    outputs otherwise (also when there is none). If the executor returns as
    many outputs as the signature of the artifact declares, this agrees with
    the return annotation the constructor computed. *)
Theorem call_returns_tensor_or_sequence
    (x : runtime_Executable) (names : list string) (devs : list device)
    (e : Executable) (args : list Tensor) (kwargs : dict Tensor)
    (inputs : list Tensor) (outs : list TraceTensor) :
  Executable__init__ x names devs = Return e ->
  bind_kwargs names (skipn (length args) names) args kwargs = Return (inputs, []) ->
  length args + length kwargs = length names ->
  Executor_execute x devs (map trace_tensor inputs) = Return outs ->
  outcome (__call__ e args kwargs)
  = Return match outs with
           | [o] => OneTensor (fast_init o)
           | _ => TensorSequence (map fast_init outs)
           end
  /\ (length outs = get_num_output_args (get_signature x) ->
      (return_annotation (__signature__ e) = Tensor_annotation
       <-> exists t, outcome (__call__ e args kwargs) = Return (OneTensor t))).
Proof.
  intros Hinit Hbind Hnum Hexec.
  destruct (Executable__init__inv _ _ _ _ Hinit)
    as (Hx & Hnames & _ & Hnum' & Hdevs & Hsig).
  assert (Hann : return_annotation (__signature__ e)
                 = if Nat.eqb (get_num_output_args (get_signature x)) 1
                   then Tensor_annotation else Sequence_Tensor_annotation).
  { revert Hinit. unfold Executable__init__, inspect_Signature.
    destruct (build_params names) as [params|err]; [|discriminate].
    destruct (validate_parameters [] POSITIONAL_ONLY params); [discriminate|].
    intros H. inversion H. reflexivity. }
  subst names x devs.
  rewrite (call_after_binding e args kwargs inputs); auto; [|congruence].
  unfold outcome. cbn [snd]. rewrite Hexec.
  assert (Hout : match map fast_init outs with
                 | [t] => OneTensor t
                 | output_tensors => TensorSequence output_tensors
                 end
                 = match outs with
                   | [o] => OneTensor (fast_init o)
                   | _ => TensorSequence (map fast_init outs)
                   end)
    by (destruct outs as [|o [|o' os]]; reflexivity).
  rewrite Hout. split; [reflexivity|].
  intros Hlen. rewrite Hann, <- Hlen.
  destruct outs as [|o [|o' os]]; cbn; split;
    try discriminate; try (intros [t Ht]; discriminate Ht).
  - intros _. now exists (fast_init o).
  - reflexivity.
Qed.

(** X4. A message with the stride phrase, and none of the phrases tested
    before it, is raised again as a Tripy error that carries the message of
    the runtime unchanged. *)
Theorem stride_mismatch_reraised_verbatim
    (x : runtime_Executable) (names : list string) (devs : list device)
    (e : Executable) (args : list Tensor) (kwargs : dict Tensor)
    (inputs : list Tensor) (err : string) :
  Executable__init__ x names devs = Return e ->
  bind_kwargs names (skipn (length args) names) args kwargs = Return (inputs, []) ->
  length args + length kwargs = length names ->
  Executor_execute x devs (map trace_tensor inputs) = Raise (MTRTException err) ->
  str_contains "function expects a memref type with element type" err = false ->
  str_contains "InternalError: failed to set input shape" err = false ->
  str_contains "Runtime shape mismatch" err = false ->
  str_contains "Runtime stride mismatch" err = true ->
  outcome (__call__ e args kwargs) = Raise (TripyException (ErrorMessage err)).
Proof.
  intros Hinit Hbind Hnum Hexec H1 H2 H3 H4.
  destruct (Executable__init__inv _ _ _ _ Hinit)
    as (Hx & Hnames & _ & Hnum' & Hdevs & _).
  subst names x devs.
  rewrite (call_after_binding e args kwargs inputs); auto; [|congruence].
  unfold outcome. cbn [snd]. rewrite Hexec.
  unfold handle_MTRTException. now rewrite H1, H2, H3, H4.
Qed.

(** X5. What the handler does not recognise is not touched: an
    [MTRTException] whose message has none of the four phrases, and any
    exception of the executor that is not an [MTRTException], leave the call
    as they were raised. *)
Theorem unrecognised_failures_propagate
    (x : runtime_Executable) (names : list string) (devs : list device)
    (e : Executable) (args : list Tensor) (kwargs : dict Tensor)
    (inputs : list Tensor) (raised : Exception) :
  Executable__init__ x names devs = Return e ->
  bind_kwargs names (skipn (length args) names) args kwargs = Return (inputs, []) ->
  length args + length kwargs = length names ->
  Executor_execute x devs (map trace_tensor inputs) = Raise raised ->
  (forall err, raised = MTRTException err ->
     str_contains "function expects a memref type with element type" err = false
     /\ str_contains "InternalError: failed to set input shape" err = false
     /\ str_contains "Runtime shape mismatch" err = false
     /\ str_contains "Runtime stride mismatch" err = false) ->
  outcome (__call__ e args kwargs) = Raise raised.
Proof.
  intros Hinit Hbind Hnum Hexec Hmsg.
  destruct (Executable__init__inv _ _ _ _ Hinit)
    as (Hx & Hnames & _ & Hnum' & Hdevs & _).
  subst names x devs.
  rewrite (call_after_binding e args kwargs inputs); auto; [|congruence].
  unfold outcome. cbn [snd]. rewrite Hexec.
  destruct raised as [| err | | | |]; try reflexivity.
  destruct (Hmsg err eq_refl) as (H1 & H2 & H3 & H4).
  unfold handle_MTRTException. now rewrite H1, H2, H3, H4.
Qed.

Lemma check_shapes_none (zipped : list (Tensor * list (Z * Z) * string)) :
  (forall m t w n, nth_error zipped m = Some (t, w, n) ->
     forall j s, nth_error (Tensor_shape t) j = Some s ->
                 exists l h, nth_error w j = Some (l, h) /\ (l <= s <= h)%Z) ->
  check_shapes zipped = None.
Proof.
  induction zipped as [|[[t w] n] zipped IH]; intros Hall; simpl; [reflexivity|].
  rewrite check_dims_none; [|apply (Hall 0 t w n); reflexivity|reflexivity].
  apply IH. intros m. apply (Hall (S m)).
Qed.

Lemma check_shapes_rank_excess :
  forall (zipped : list (Tensor * list (Z * Z) * string)) (k : nat) tensor bounds name,
    nth_error zipped k = Some (tensor, bounds, name) ->
    length bounds < length (Tensor_shape tensor) ->
    (forall j s l h, nth_error (Tensor_shape tensor) j = Some s ->
                     nth_error bounds j = Some (l, h) -> (l <= s <= h)%Z) ->
    (forall m t w n, m < k -> nth_error zipped m = Some (t, w, n) ->
       forall j s, nth_error (Tensor_shape t) j = Some s ->
                   exists l h, nth_error w j = Some (l, h) /\ (l <= s <= h)%Z) ->
    check_shapes zipped = Some IndexError.
Proof.
  induction zipped as [|[[t w] n] zipped IH];
    intros [|k] tensor bounds name Hk Hrank Hdims Htensors; simpl in *;
    try discriminate.
  - inversion Hk; subst.
    rewrite (check_dims_rank_excess tensor bounds name (Tensor_shape tensor));
      auto; lia.
  - rewrite check_dims_none; [|apply (Htensors 0 t w n); [lia|reflexivity]|reflexivity].
    apply (IH k tensor bounds name); auto.
    intros m t' w' n' Hm. apply (Htensors (S m)). lia.
Qed.

(** The entries of the zipped list of the shape branch, read back. *)
Lemma zipped_shapes_inv (e : Executable) (inputs : list Tensor) (infos : list ArgInfo) :
  length infos = length (input_args (_executable_signature e)) ->
  (forall i arg arg_bound,
      nth_error (input_args (_executable_signature e)) i = Some (arg, arg_bound) ->
      nth_error infos i = Some (make_ArgInfo arg arg_bound)) ->
  forall m t w n,
    nth_error (zip3 inputs (map shape_bounds infos) (_arg_names e)) m = Some (t, w, n) ->
    exists a b,
      nth_error inputs m = Some t
      /\ nth_error (input_args (_executable_signature e)) m = Some (a, b)
      /\ w = shape_bounds (make_ArgInfo a b).
Proof.
  intros Hlen Hinfos m t w n Hz. apply nth_error_zip3_inv in Hz.
  destruct Hz as (Ht & Hw & _). rewrite nth_error_map in Hw.
  destruct (nth_error (input_args (_executable_signature e)) m) as [[a b]|] eqn:Hm.
  - exists a, b. rewrite (Hinfos m a b Hm) in Hw. inversion Hw. auto.
  - apply nth_error_None in Hm. rewrite <- Hlen in Hm.
    apply nth_error_None in Hm. rewrite Hm in Hw. discriminate.
Qed.

(** X6. A shape message for inputs that are all within the bounds of the
    signature gives the handler nothing to report: the exception of the
    runtime is raised again unchanged. *)
Theorem shape_message_without_violation_propagates
    (x : runtime_Executable) (names : list string) (devs : list device)
    (e : Executable) (args : list Tensor) (kwargs : dict Tensor)
    (inputs : list Tensor) (err : string) :
  Executable__init__ x names devs = Return e ->
  bind_kwargs names (skipn (length args) names) args kwargs = Return (inputs, []) ->
  length args + length kwargs = length names ->
  Executor_execute x devs (map trace_tensor inputs) = Raise (MTRTException err) ->
  str_contains "function expects a memref type with element type" err = false ->
  str_contains "InternalError: failed to set input shape" err = true
  \/ str_contains "Runtime shape mismatch" err = true ->
  (forall m t a b,
      nth_error inputs m = Some t ->
      nth_error (input_args (get_signature x)) m = Some (a, b) ->
      forall j s, nth_error (Tensor_shape t) j = Some s ->
                  exists l h, nth_error (shape_bounds (make_ArgInfo a b)) j = Some (l, h)
                              /\ (l <= s <= h)%Z) ->
  outcome (__call__ e args kwargs) = Raise (MTRTException err).
Proof.
  intros Hinit Hbind Hnum Hexec Hnot Hmsg Hall.
  destruct (Executable__init__inv _ _ _ _ Hinit)
    as (Hx & Hnames & _ & Hnum' & Hdevs & Hsig).
  subst names x devs.
  rewrite (call_after_binding e args kwargs inputs); auto; [|congruence].
  unfold outcome. cbn [snd]. rewrite Hexec.
  unfold handle_MTRTException. rewrite Hnot.
  assert (str_contains "InternalError: failed to set input shape" err
          || str_contains "Runtime shape mismatch" err = true) as ->
      by (apply orb_true_iff; exact Hmsg).
  destruct (_get_input_info_eq e) as (infos & -> & Hlen & Hinfos).
  rewrite check_shapes_none; [reflexivity|].
  intros m t w n Hz j s Hs.
  destruct (zipped_shapes_inv e inputs infos Hlen Hinfos m t w n Hz)
    as (a & b & Ht & Hab & ->).
  rewrite Hsig in Hab. now apply (Hall m t a b Ht Hab j s).
Qed.

(** X7. The element-type phrase is tested first: if the message has it and
    every supplied dtype is the recorded one, the exception of the runtime is
    raised again unchanged, whatever else the message says and whatever the
    shapes of the inputs are. *)
Theorem dtype_phrase_takes_precedence
    (x : runtime_Executable) (names : list string) (devs : list device)
    (e : Executable) (args : list Tensor) (kwargs : dict Tensor)
    (inputs : list Tensor) (err : string) :
  Executable__init__ x names devs = Return e ->
  bind_kwargs names (skipn (length args) names) args kwargs = Return (inputs, []) ->
  length args + length kwargs = length names ->
  Executor_execute x devs (map trace_tensor inputs) = Raise (MTRTException err) ->
  str_contains "function expects a memref type with element type" err = true ->
  (forall j t a b,
      nth_error inputs j = Some t ->
      nth_error (input_args (get_signature x)) j = Some (a, b) ->
      Tensor_dtype t = convert_runtime_dtype_to_tripy_dtype (memref_dtype a)) ->
  outcome (__call__ e args kwargs) = Raise (MTRTException err).
Proof.
  intros Hinit Hbind Hnum Hexec Hmsg Hall.
  destruct (Executable__init__inv _ _ _ _ Hinit)
    as (Hx & Hnames & _ & Hnum' & Hdevs & Hsig).
  subst names x devs.
  rewrite (call_after_binding e args kwargs inputs); auto; [|congruence].
  unfold outcome. cbn [snd]. rewrite Hexec.
  rewrite dtype_phrase_without_mismatch; auto.
  now rewrite Hsig.
Qed.

(** X8. In the shape branch a tensor with more dimensions than its argument
    has bounds is not reported: if the tensors before it are within their
    bounds and so are its dimensions that have bounds, the look-up of the
    missing bound raises [IndexError], which replaces the exception of the
    runtime. *)
Theorem shape_branch_rank_excess_raises_IndexError
    (x : runtime_Executable) (names : list string) (devs : list device)
    (e : Executable) (args : list Tensor) (kwargs : dict Tensor)
    (inputs : list Tensor) (err : string)
    (k : nat) (name : string) (tensor : Tensor)
    (arg : MemRefType ScalarTypeCode) (arg_bound : ArgBound) :
  Executable__init__ x names devs = Return e ->
  bind_kwargs names (skipn (length args) names) args kwargs = Return (inputs, []) ->
  length args + length kwargs = length names ->
  Executor_execute x devs (map trace_tensor inputs) = Raise (MTRTException err) ->
  str_contains "function expects a memref type with element type" err = false ->
  str_contains "InternalError: failed to set input shape" err = true
  \/ str_contains "Runtime shape mismatch" err = true ->
  nth_error names k = Some name ->
  nth_error inputs k = Some tensor ->
  nth_error (input_args (get_signature x)) k = Some (arg, arg_bound) ->
  length (shape_bounds (make_ArgInfo arg arg_bound)) < length (Tensor_shape tensor) ->
  (forall j s l h,
      nth_error (Tensor_shape tensor) j = Some s ->
      nth_error (shape_bounds (make_ArgInfo arg arg_bound)) j = Some (l, h) ->
      (l <= s <= h)%Z) ->
  (forall m t a b,
      m < k -> nth_error inputs m = Some t ->
      nth_error (input_args (get_signature x)) m = Some (a, b) ->
      forall j s, nth_error (Tensor_shape t) j = Some s ->
                  exists l h, nth_error (shape_bounds (make_ArgInfo a b)) j = Some (l, h)
                              /\ (l <= s <= h)%Z) ->
  outcome (__call__ e args kwargs) = Raise IndexError.
Proof.
  intros Hinit Hbind Hnum Hexec Hnot Hmsg Hname Htensor Harg Hrank Hdims Hbefore.
  destruct (Executable__init__inv _ _ _ _ Hinit)
    as (Hx & Hnames & _ & Hnum' & Hdevs & Hsig).
  subst names x devs.
  rewrite (call_after_binding e args kwargs inputs); auto; [|congruence].
  unfold outcome. cbn [snd]. rewrite Hexec.
  unfold handle_MTRTException. rewrite Hnot.
  assert (str_contains "InternalError: failed to set input shape" err
          || str_contains "Runtime shape mismatch" err = true) as ->
      by (apply orb_true_iff; exact Hmsg).
  destruct (_get_input_info_eq e) as (infos & -> & Hlen & Hinfos).
  rewrite (check_shapes_rank_excess _ k tensor
             (shape_bounds (make_ArgInfo arg arg_bound)) name); auto.
  - apply nth_error_zip3; auto.
    rewrite nth_error_map, (Hinfos k arg arg_bound); [reflexivity|].
    now rewrite Hsig.
  - intros m t w n Hm Hz j s Hs.
    destruct (zipped_shapes_inv e inputs infos Hlen Hinfos m t w n Hz)
      as (a & b & Ht & Hab & ->).
    rewrite Hsig in Hab. now apply (Hbefore m t a b Hm Ht Hab j s).
Qed.
End CallOutcomes.

Lemma call_returns_tensor_or_sequence_witness :
  let x := tensor "x" [1%Z] datatype.float32 in
  let y := tensor "y" [1%Z] datatype.float32 in
  let a := tensor "a" [2%Z] datatype.float32 in
  let b := tensor "b" [3%Z] datatype.float32 in
  outcome (__call__ compiled_add [x; y] [])
  = Return (OneTensor (tensor "out" [1%Z] datatype.float32))
  /\ outcome (__call__ (fixture pair_signature echo ["a"; "b"]) [a] [("b", b)])
     = Return (TensorSequence [a; b]).
Proof.
  intros x y a b. split.
  - apply (@call_returns_tensor_or_sequence add_runtime [] ["a"; "b"]
             [Device "gpu" 0] compiled_add [x; y] [] [x; y]
             [{| tt_name := "out"; tt_shape := [1%Z]; tt_dtype := datatype.float32 |}]);
      reflexivity.
  - apply (@call_returns_tensor_or_sequence
             (bytes_runtime (fun _ => pair_signature) (fun _ => echo))
             [] ["a"; "b"] [Device "gpu" 0]
             (fixture pair_signature echo ["a"; "b"]) [a] [("b", b)] [a; b]
             [trace_tensor a; trace_tensor b]);
      reflexivity.
Defined.

Lemma stride_mismatch_reraised_verbatim_witness :
  let t := tensor "t" [2%Z] datatype.float32 in
  outcome (__call__ (fixture unary_signature
                       (raising "Runtime stride mismatch. Expected [1] but received [2]")
                       ["x"]) [t] [])
  = Raise (TripyException
             (ErrorMessage "Runtime stride mismatch. Expected [1] but received [2]")).
Proof.
  intros t.
  apply (@stride_mismatch_reraised_verbatim
           (bytes_runtime (fun _ => unary_signature)
              (fun _ => raising "Runtime stride mismatch. Expected [1] but received [2]"))
           [] ["x"] [Device "gpu" 0]
           (fixture unary_signature
              (raising "Runtime stride mismatch. Expected [1] but received [2]") ["x"])
           [t] [] [t]); reflexivity.
Defined.

Lemma unrecognised_failures_propagate_witness :
  let t := tensor "t" [2%Z] datatype.float32 in
  outcome (__call__ (fixture unary_signature (raising "CUDA error: out of memory") ["x"])
             [t] [])
  = Raise (MTRTException "CUDA error: out of memory")
  /\ outcome (__call__ (fixture unary_signature
                          (fun _ _ => Raise (ValueError "stream is closed")) ["x"])
                [t] [])
     = Raise (ValueError "stream is closed").
Proof.
  intros t. split.
  - apply (@unrecognised_failures_propagate
             (bytes_runtime (fun _ => unary_signature)
                (fun _ => raising "CUDA error: out of memory"))
             [] ["x"] [Device "gpu" 0]
             (fixture unary_signature (raising "CUDA error: out of memory") ["x"])
             [t] [] [t]); try reflexivity.
    intros err Herr. inversion Herr; subst. repeat split.
  - apply (@unrecognised_failures_propagate
             (bytes_runtime (fun _ => unary_signature)
                (fun _ _ _ => Raise (ValueError "stream is closed")))
             [] ["x"] [Device "gpu" 0]
             (fixture unary_signature
                (fun _ _ => Raise (ValueError "stream is closed")) ["x"])
             [t] [] [t]); try reflexivity.
    intros err Herr. discriminate Herr.
Defined.

Lemma shape_message_without_violation_propagates_witness :
  let a := tensor "a" [2%Z] datatype.float32 in
  let b := tensor "b" [3%Z] datatype.float32 in
  outcome (__call__ (fixture pair_signature (raising "Runtime shape mismatch")
                       ["a"; "b"]) [a; b] [])
  = Raise (MTRTException "Runtime shape mismatch").
Proof.
  intros a b.
  apply (@shape_message_without_violation_propagates
           (bytes_runtime (fun _ => pair_signature)
              (fun _ => raising "Runtime shape mismatch"))
           [] ["a"; "b"] [Device "gpu" 0]
           (fixture pair_signature (raising "Runtime shape mismatch") ["a"; "b"])
           [a; b] [] [a; b]); try reflexivity.
  - right. reflexivity.
  - subst a b.
    intros m t a0 b0 Ht Hab j s Hs.
    destruct m as [|[|m]]; simpl in Ht, Hab; [| |destruct m; discriminate];
      inversion Ht; inversion Hab; subst; cbn in Hs |- *;
      (destruct j as [|j]; [|destruct j; discriminate]);
      inversion Hs; subst; eexists; eexists; (split; [reflexivity|lia]).
Defined.

Lemma dtype_phrase_takes_precedence_witness :
  let a := tensor "a" [2%Z] datatype.float32 in
  let b := tensor "b" [9%Z] datatype.float32 in
  let err := "function expects a memref type with element type f32; Runtime shape mismatch" in
  outcome (__call__ (fixture pair_signature (raising err) ["a"; "b"]) [a; b] [])
  = Raise (MTRTException err).
Proof.
  intros a b err.
  apply (@dtype_phrase_takes_precedence
           (bytes_runtime (fun _ => pair_signature) (fun _ => raising err))
           [] ["a"; "b"] [Device "gpu" 0]
           (fixture pair_signature (raising err) ["a"; "b"])
           [a; b] [] [a; b]); try reflexivity.
  subst a b.
  intros [|[|m]] t a0 b0 Ht Hab; simpl in *;
    try (destruct m; discriminate);
    inversion Ht; inversion Hab; subst; reflexivity.
Defined.

Lemma shape_branch_rank_excess_raises_IndexError_witness :
  let a := tensor "a" [2; 3]%Z datatype.float32 in
  let b := tensor "b" [5%Z] datatype.float32 in
  outcome (__call__ (fixture pair_signature (raising "Runtime shape mismatch")
                       ["a"; "b"]) [a; b] [])
  = Raise IndexError.
Proof.
  intros a b.
  apply (@shape_branch_rank_excess_raises_IndexError
           (bytes_runtime (fun _ => pair_signature)
              (fun _ => raising "Runtime shape mismatch"))
           [] ["a"; "b"] [Device "gpu" 0]
           (fixture pair_signature (raising "Runtime shape mismatch") ["a"; "b"])
           [a; b] [] [a; b] "Runtime shape mismatch" 0 "a" a
           (fst (static_memref [2%Z] datatype.float32))
           (snd (static_memref [2%Z] datatype.float32)));
    try reflexivity.
  - right. reflexivity.
  - cbn. lia.
  - subst a b. intros [|j] s l h Hs Hb; cbn in *; [|destruct j; discriminate].
    inversion Hs; inversion Hb; subst. lia.
  - intros m t a0 b0 Hm. inversion Hm.
Defined.

(** * Further properties of the signature adapter and of serialization *)

Lemma map_add_seq (offset : nat) :
  forall (len start : nat),
    map (fun idx => idx + offset) (seq start len) = seq (start + offset) len.
Proof.
  induction len as [|len IH]; intros start; simpl; [reflexivity|].
  now rewrite IH.
Qed.

Lemma map_snd_combine {A B} :
  forall (xs : list A) (ys : list B),
    length xs = length ys -> map snd (combine xs ys) = ys.
Proof.
  induction xs as [|x xs IH]; intros [|y ys] Hlen; simpl in *;
    try discriminate; auto.
  f_equal. apply IH. lia.
Qed.

Section Adapter.
Context {RT : Runtime}.

Lemma collect_arg_info_slice (e : Executable) :
  forall (l prefix suffix : list (MemRefType ScalarTypeCode * ArgBound)),
    input_args (_executable_signature e) ++ output_args (_executable_signature e)
    = prefix ++ l ++ suffix ->
    collect_arg_info e (seq (length prefix) (length l))
    = Return (map (fun entry => make_ArgInfo (fst entry) (snd entry)) l).
Proof.
  induction l as [|[arg arg_bound] l IH]; intros prefix suffix Hargs;
    [reflexivity|].
  cbn [length seq collect_arg_info].
  unfold _get_arg_info, get_arg, get_arg_bound. rewrite Hargs.
  rewrite nth_error_app2, Nat.sub_diag by lia. cbn [nth_error app].
  specialize (IH (prefix ++ [(arg, arg_bound)]) suffix).
  rewrite length_app, Nat.add_1_r in IH.
  rewrite IH; [reflexivity|].
  now rewrite Hargs, <- app_assoc.
Qed.

(** X9. Neither [_get_input_info] nor [_get_output_info] raises: the first
    gives one [ArgInfo] for each input argument of the signature, in order,
    the second one for each output argument, read from the positions after
    the inputs. *)
Theorem input_and_output_info_follow_the_signature (e : Executable) :
  _get_input_info e
  = Return (map (fun entry => make_ArgInfo (fst entry) (snd entry))
                (input_args (_executable_signature e)))
  /\ _get_output_info e
     = Return (map (fun entry => make_ArgInfo (fst entry) (snd entry))
                   (output_args (_executable_signature e))).
Proof.
  unfold _get_input_info, _get_output_info, get_num_input_args, get_num_output_args.
  split.
  - apply (collect_arg_info_slice e (input_args (_executable_signature e)) []
             (output_args (_executable_signature e))). reflexivity.
  - rewrite map_add_seq. cbn [Nat.add].
    apply (collect_arg_info_slice e (output_args (_executable_signature e))
             (input_args (_executable_signature e)) []).
    now rewrite app_nil_r.
Qed.

(** X10. The bounds of an argument: when the signature gives no minimum or no
    maximum, every dimension of the static shape is its own minimum and
    maximum; when it gives as many minima as maxima (at least one), the
    minima and maxima are read back unchanged from the bounds. The dtype is
    the converted dtype of the memref. *)
Theorem make_ArgInfo_bounds (arg : MemRefType ScalarTypeCode) (arg_bound : ArgBound) :
  (bound_min arg_bound = [] \/ bound_max arg_bound = [] ->
   shape_bounds (make_ArgInfo arg arg_bound)
   = map (fun x => (x, x)) (memref_shape arg))
  /\ (bound_min arg_bound <> [] ->
      length (bound_min arg_bound) = length (bound_max arg_bound) ->
      map fst (shape_bounds (make_ArgInfo arg arg_bound)) = bound_min arg_bound
      /\ map snd (shape_bounds (make_ArgInfo arg arg_bound)) = bound_max arg_bound)
  /\ ArgInfo_dtype (make_ArgInfo arg arg_bound)
     = convert_runtime_dtype_to_tripy_dtype (memref_dtype arg).
Proof.
  unfold make_ArgInfo. cbn [shape_bounds ArgInfo_dtype].
  destruct arg_bound as [mins maxs]. cbn [bound_min bound_max].
  split; [|split; [|reflexivity]].
  - intros [-> | ->]; [reflexivity|]. destruct mins; reflexivity.
  - intros Hne Hlen. destruct mins as [|lo mins]; [contradiction|].
    destruct maxs as [|hi maxs]; [discriminate|].
    cbn [combine length Nat.eqb]. split.
    + apply (map_fst_combine (lo :: mins) (hi :: maxs) Hlen).
    + apply (map_snd_combine (lo :: mins) (hi :: maxs) Hlen).
Qed.

(** X11. What [Executable.__init__] does with the argument names.
    An executable it returns has the given names, in order and without
    repetition, as its arguments, their number as its arity, the given
    devices, the signature of the artifact, one [inspect.Parameter] per name
    with distinct parameter names, and the return annotation that the
    signature's number of outputs decides. It never returns for a list in
    which a name occurs twice. It returns for distinct names that are
    identifiers and not keywords, each becoming a positional-or-keyword
    parameter. The first name that is not such a name decides the exception:
    [IndexError] for the empty name, [ValueError] naming it for a keyword or
    for a name that is not an identifier and does not start with a dot;
    names repeated before it do not matter. *)
Theorem constructor_invariant
    (x : runtime_Executable) (names : list string) (devs : list device) :
  (forall e,
      Executable__init__ x names devs = Return e ->
      NoDup names
      /\ _executable e = x /\ _arg_names e = names
      /\ _num_expected_args e = length names /\ _output_devices e = devs
      /\ _executable_signature e = get_signature x
      /\ return_annotation (__signature__ e)
         = (if Nat.eqb (get_num_output_args (get_signature x)) 1
            then Tensor_annotation else Sequence_Tensor_annotation)
      /\ Forall2 (fun name param =>
                    inspect_Parameter name POSITIONAL_OR_KEYWORD = Return param)
                 names (parameters (__signature__ e))
      /\ NoDup (map param_name (parameters (__signature__ e))))
  /\ (~ NoDup names -> forall e, Executable__init__ x names devs <> Return e)
  /\ (NoDup names ->
      Forall (fun name => str_isidentifier name = true /\ iskeyword name = false)
             names ->
      exists e,
        Executable__init__ x names devs = Return e
        /\ parameters (__signature__ e) = map positional_or_keyword names)
  /\ (forall before bad after,
        names = before ++ bad :: after ->
        Forall (fun name => str_isidentifier name = true /\ iskeyword name = false)
               before ->
        (bad = "" -> Executable__init__ x names devs = Raise IndexError)
        /\ (iskeyword bad = true
            \/ (str_isidentifier bad = false /\ bad <> ""
                /\ forall rest, bad <> String "." rest) ->
            Executable__init__ x names devs
            = Raise (ValueError
                       (repr bad ++ " is not a valid parameter name")%string))).
Proof.
  assert (Hnd : forall e, Executable__init__ x names devs = Return e -> NoDup names).
  { intros e He. now destruct (Executable__init__inv _ _ _ _ He) as (_ & _ & H & _). }
  split; [|split; [|split]].
  - intros e He. split; [now apply (Hnd e)|].
    revert He. unfold Executable__init__, inspect_Signature.
    destruct (build_params names) as [params|err] eqn:Hparams; [|discriminate].
    destruct (validate_parameters [] POSITIONAL_ONLY params) eqn:Hvalid;
      [discriminate|].
    intros He. inversion He. cbn.
    split; [reflexivity|]. split; [reflexivity|]. split; [reflexivity|].
    split; [reflexivity|]. split; [reflexivity|]. split; [reflexivity|].
    split; [now apply build_params_Return|].
    now apply (validate_parameters_None _ _ _ Hvalid).
  - intros Hdup e He. apply Hdup. now apply (Hnd e).
  - intros Hdistinct Hids.
    unfold Executable__init__, inspect_Signature.
    rewrite (build_params_identifiers _ Hids).
    rewrite validate_parameters_distinct;
      [|apply Nat.le_0_l|exact Hdistinct|intros ? _ []].
    eexists. split; reflexivity.
  - intros before bad after -> Hbefore. split.
    + intros ->. unfold Executable__init__.
      now rewrite (build_params_first_refused before "" after IndexError Hbefore).
    + intros Hbad. unfold Executable__init__.
      now rewrite (build_params_first_refused before bad after _ Hbefore
                     (inspect_Parameter_refused _ Hbad)).
Qed.

(** X12. If the runtime serializes an artifact it loaded from serialized
    bytes to the same bytes, then the record of a decoded executable is the
    record it was decoded from: saving a loaded executable writes the same
    names, devices and text. *)
Theorem encode_of_decoded_is_stable
    (x : runtime_Executable) (names : list string) (devs : list device)
    (e e' : Executable) :
  (forall a a', runtime_Executable_of_bytes (serialize a) = Return a' ->
                serialize a' = serialize a) ->
  Executable__init__ x names devs = Return e ->
  decode_executable (encode_executable e) = Return e' ->
  encode_executable e' = encode_executable e.
Proof.
  intros Hstable Hinit Hdecode.
  unfold decode_executable, encode_executable in Hdecode.
  cbn [dict_executable dict_arg_names dict_output_devices] in Hdecode.
  rewrite b64decode_b64encode in Hdecode.
  destruct (runtime_Executable_of_bytes (serialize (_executable e)))
    as [x'|err] eqn:Hload; [|discriminate].
  destruct (Executable__init__inv _ _ _ _ Hdecode) as (Hx' & Hn' & _ & _ & Hd' & _).
  unfold encode_executable. rewrite Hx', Hn', Hd'.
  now rewrite (Hstable _ _ Hload).
Qed.
End Adapter.

Lemma make_ArgInfo_bounds_witness :
  shape_bounds (@make_ArgInfo add_runtime
                  (fst (static_memref [2; 3]%Z datatype.float32))
                  (snd (static_memref [2; 3]%Z datatype.float32)))
  = [(2, 2); (3, 3)]%Z
  /\ map fst (shape_bounds
                (@make_ArgInfo add_runtime
                   (fst (dynamic_memref [dynamic_dimension; 3%Z] datatype.float32
                           [(1, 4); (3, 3)]%Z))
                   (snd (dynamic_memref [dynamic_dimension; 3%Z] datatype.float32
                           [(1, 4); (3, 3)]%Z))))
     = [1; 3]%Z.
Proof.
  split.
  - apply (@make_ArgInfo_bounds add_runtime
             (fst (static_memref [2; 3]%Z datatype.float32))
             (snd (static_memref [2; 3]%Z datatype.float32))).
    left. reflexivity.
  - apply (@make_ArgInfo_bounds add_runtime
             (fst (dynamic_memref [dynamic_dimension; 3%Z] datatype.float32
                     [(1, 4); (3, 3)]%Z))
             (snd (dynamic_memref [dynamic_dimension; 3%Z] datatype.float32
                     [(1, 4); (3, 3)]%Z))).
    + discriminate.
    + reflexivity.
Defined.

Lemma constructor_invariant_witness :
  (NoDup ["a"; "b"]
   /\ _num_expected_args compiled_add = 2
   /\ return_annotation (__signature__ compiled_add) = Tensor_annotation
   /\ NoDup (map param_name (parameters (__signature__ compiled_add))))
  /\ @Executable__init__ add_runtime [] ["a"; "b"; "a"] [Device "gpu" 0]
     <> Return compiled_add
  /\ (exists e,
        @Executable__init__ add_runtime [] ["a"; "b"] [Device "gpu" 0] = Return e
        /\ parameters (__signature__ e)
           = [positional_or_keyword "a"; positional_or_keyword "b"])
  /\ @Executable__init__ add_runtime [] ["a"; "a"; ""; "b"] [Device "gpu" 0]
     = Raise IndexError
  /\ @Executable__init__ add_runtime [] ["a"; "a"; "1b"] [Device "gpu" 0]
     = Raise (ValueError "'1b' is not a valid parameter name")
  /\ @Executable__init__ add_runtime [] ["class"] [Device "gpu" 0]
     = Raise (ValueError "'class' is not a valid parameter name").
Proof.
  split; [|split; [|split; [|split; [|split]]]].
  - destruct (@constructor_invariant add_runtime [] ["a"; "b"] [Device "gpu" 0])
      as [H _].
    destruct (H compiled_add eq_refl)
      as (Hnd & _ & _ & Hnum & _ & _ & Hann & _ & Hparams).
    split; [exact Hnd|]. split; [exact Hnum|]. split; [exact Hann|exact Hparams].
  - destruct (@constructor_invariant add_runtime [] ["a"; "b"; "a"] [Device "gpu" 0])
      as (_ & H & _).
    apply H. intros Hdup. inversion Hdup as [|? ? Hnotin _]; subst.
    apply Hnotin. right. now left.
  - destruct (@constructor_invariant add_runtime [] ["a"; "b"] [Device "gpu" 0])
      as (_ & _ & H & _).
    apply H.
    + repeat constructor; simpl; intuition discriminate.
    + repeat constructor.
  - destruct (@constructor_invariant add_runtime [] ["a"; "a"; ""; "b"]
                [Device "gpu" 0]) as (_ & _ & _ & H).
    apply (H ["a"; "a"] "" ["b"] eq_refl); [repeat constructor|reflexivity].
  - destruct (@constructor_invariant add_runtime [] ["a"; "a"; "1b"]
                [Device "gpu" 0]) as (_ & _ & _ & H).
    apply (H ["a"; "a"] "1b" [] eq_refl); [repeat constructor|].
    right. split; [reflexivity|]. split; discriminate.
  - destruct (@constructor_invariant add_runtime [] ["class"] [Device "gpu" 0])
      as (_ & _ & _ & H).
    apply (H [] "class" [] eq_refl); [constructor|].
    left. reflexivity.
Defined.

Lemma encode_of_decoded_is_stable_witness :
  exists e',
    @decode_executable add_runtime (encode_executable compiled_add) = Return e'
    /\ encode_executable e' = encode_executable compiled_add.
Proof.
  exists compiled_add. split; [reflexivity|].
  apply (@encode_of_decoded_is_stable add_runtime [] ["a"; "b"] [Device "gpu" 0]
           compiled_add compiled_add).
  - intros a a' H. inversion H. reflexivity.
  - reflexivity.
  - reflexivity.
Defined.

(** * Further properties of the lowering *)

(** X13. The dictionary of [UnaryElementwise.to_flat_ir] has an entry for
    every kind, so the look-up never fails and the operation is built on the
    inputs and outputs it was given; and no two kinds are lowered to the same
    flat-IR operation. *)
Theorem unary_to_flat_ir_total_and_injective :
  (forall self inputs outputs,
      exists T,
        unary_lowering.to_flat_ir self inputs outputs
        = Some {| unary_lowering.op_type := T;
                  unary_lowering.op_inputs := inputs;
                  unary_lowering.op_outputs := outputs |})
  /\ (forall self1 self2 inputs1 outputs1 inputs2 outputs2 op1 op2,
         unary_lowering.to_flat_ir self1 inputs1 outputs1 = Some op1 ->
         unary_lowering.to_flat_ir self2 inputs2 outputs2 = Some op2 ->
         unary_lowering.op_type op1 = unary_lowering.op_type op2 ->
         unary_elementwise.kind self1 = unary_elementwise.kind self2).
Proof.
  split.
  - intros [ins []] inputs outputs; eexists; reflexivity.
  - intros [ins1 k1] [ins2 k2] inputs1 outputs1 inputs2 outputs2 op1 op2 H1 H2 Heq.
    destruct k1, k2; cbn in H1, H2; inversion H1; inversion H2; subst;
      cbn in Heq; try discriminate Heq; reflexivity.
Qed.

Lemma unary_to_flat_ir_total_and_injective_witness :
  (exists T,
      unary_lowering.to_flat_ir (unary_elementwise.build [] unary_elementwise.ABS) [] []
      = Some {| unary_lowering.op_type := T;
                unary_lowering.op_inputs := [];
                unary_lowering.op_outputs := [] |})
  /\ unary_elementwise.kind
       (unary_elementwise.build [tensor "t" [2%Z] datatype.int32] unary_elementwise.ABS)
     = unary_elementwise.kind (unary_elementwise.build [] unary_elementwise.ABS).
Proof.
  destruct unary_to_flat_ir_total_and_injective as [Htotal Hinj].
  split.
  - apply Htotal.
  - apply (Hinj (unary_elementwise.build [tensor "t" [2%Z] datatype.int32]
                   unary_elementwise.ABS)
             (unary_elementwise.build [] unary_elementwise.ABS)
             [] [] [] [] _ _ eq_refl eq_refl).
    reflexivity.
Defined.

(** X14. Whatever memory the data of a constant is in, the constant that is
    inserted never holds a device memref: a device memref is copied to the
    host first. The memref of the attribute has the shape of the data, and
    its bytes are those of the data or, for a boolean output, the bytes of
    the array of C [int]s made of the signed chars of the data. *)
Theorem constant_attribute_is_never_on_device
    (self : flat_ir.ConstantOp) (m : flat_ir.MemRefValue)
    (inserted returned : list flat_ir.Operation)
    (array : flat_ir.MemRefValue) (type : dtype) (shape : list Z) :
  flat_ir.data self = flat_ir.memref_data m ->
  flat_ir.to_mlir self = Return (inserted, returned) ->
  In (flat_ir.stablehlo_ConstantOp (flat_ir.DenseElementsAttr_array array type shape))
     inserted ->
  flat_ir.address_space array <> flat_ir.device
  /\ flat_ir.memref_value_shape array = flat_ir.memref_value_shape m
  /\ shape = flat_ir.memref_value_shape m
  /\ (flat_ir.contents array = flat_ir.contents m
      \/ flat_ir.contents array
         = flat_ir.array_i (map flat_ir.signed_char (flat_ir.contents m))).
Proof.
  intros Hdata Hmlir Hin. unfold flat_ir.to_mlir in Hmlir.
  destruct (flat_ir.outputs self) as [|output others]; [discriminate|].
  rewrite Hdata in Hmlir.
  destruct (datatype.eqb (flat_ir.tensor_dtype output) datatype.bool).
  - rewrite cast_of_host_copy, shape_of_host_copy in Hmlir.
    unfold flat_ir.memoryview_cast_b_tolist in Hmlir.
    destruct (negb (Nat.eqb (length (flat_ir.memref_value_shape m)) 1)
              && existsb (Z.eqb 0) (flat_ir.memref_value_shape m)); [discriminate|].
    cbn in Hmlir. inversion Hmlir; subst; clear Hmlir.
    destruct Hin as [Hin|[Hin|[]]]; [|discriminate Hin].
    inversion Hin; subst; clear Hin. cbn.
    repeat split; try discriminate. now right.
  - cbn in Hmlir. inversion Hmlir; subst; clear Hmlir.
    destruct Hin as [Hin|[]]. inversion Hin; clear Hin.
    destruct (flat_ir.address_space m) eqn:Hspace; cbn; rewrite ?Hspace;
      repeat split; try discriminate; auto.
Qed.

Lemma constant_attribute_is_never_on_device_witness :
  let m := {| flat_ir.address_space := flat_ir.device;
              flat_ir.memref_value_shape := [2%Z];
              flat_ir.memref_value_dtype := datatype.float32;
              flat_ir.contents := [x00; x01] |} in
  flat_ir.address_space (flat_ir.copy_to_host m) <> flat_ir.device
  /\ flat_ir.memref_value_shape (flat_ir.copy_to_host m) = [2%Z].
Proof.
  intros m.
  destruct (constant_attribute_is_never_on_device
              {| flat_ir.outputs := [{| flat_ir.tensor_shape := [2%Z];
                                        flat_ir.tensor_dtype := datatype.float32 |}];
                 flat_ir.data := flat_ir.memref_data m |}
              m
              [flat_ir.stablehlo_ConstantOp
                 (flat_ir.DenseElementsAttr_array (flat_ir.copy_to_host m)
                    datatype.float32 [2%Z])]
              [flat_ir.stablehlo_ConstantOp
                 (flat_ir.DenseElementsAttr_array (flat_ir.copy_to_host m)
                    datatype.float32 [2%Z])]
              (flat_ir.copy_to_host m) datatype.float32 [2%Z])
    as (H1 & H2 & _); [reflexivity|reflexivity|now left|].
  split; assumption.
Defined.

(** X15. An operation without outputs cannot be lowered ([IndexError]). With
    a boolean output and a memref that has a dimension of size zero and not
    exactly one dimension, the cast of the view raises [TypeError]. In every
    other case [to_mlir] returns exactly one operation, the last one it
    inserted; the element type of its result is the dtype of the first
    output, and the shape of its result is the shape of the memref when the
    data is a memref and the shape of the output otherwise. A conversion is
    inserted exactly when the output is boolean and the data is a memref. *)
Theorem to_mlir_result_has_output_dtype (self : flat_ir.ConstantOp) :
  match flat_ir.outputs self with
  | [] => flat_ir.to_mlir self = Raise IndexError
  | output :: _ =>
      (forall m,
          flat_ir.data self = flat_ir.memref_data m ->
          flat_ir.tensor_dtype output = datatype.bool ->
          length (flat_ir.memref_value_shape m) <> 1 ->
          In 0%Z (flat_ir.memref_value_shape m) ->
          flat_ir.to_mlir self
          = Raise (TypeError "memoryview: cannot cast view with zeros in shape or strides"))
      /\ ((forall m,
              flat_ir.data self = flat_ir.memref_data m ->
              flat_ir.tensor_dtype output = datatype.bool ->
              length (flat_ir.memref_value_shape m) = 1
              \/ ~ In 0%Z (flat_ir.memref_value_shape m)) ->
          exists before op,
            flat_ir.to_mlir self = Return (before ++ [op], [op])
            /\ flat_ir.element_type (mlir.result_type op) = flat_ir.tensor_dtype output
            /\ flat_ir.type_shape (mlir.result_type op)
               = match flat_ir.data self with
                 | flat_ir.memref_data m => flat_ir.memref_value_shape m
                 | flat_ir.sequence_data _ => flat_ir.tensor_shape output
                 end
            /\ ((exists result operand,
                    In (flat_ir.stablehlo_ConvertOp result operand) (before ++ [op]))
                <-> (flat_ir.tensor_dtype output = datatype.bool
                     /\ exists m, flat_ir.data self = flat_ir.memref_data m)))
  end.
Proof.
  unfold flat_ir.to_mlir.
  destruct (flat_ir.outputs self) as [|output others]; [reflexivity|].
  destruct (flat_ir.data self) as [m|s].
  - destruct (datatype_eqb_spec (flat_ir.tensor_dtype output) datatype.bool)
      as [Hbool|Hbool].
    + rewrite cast_of_host_copy, shape_of_host_copy. split.
      * intros m' Hm' _ Hrank Hzero. inversion Hm'; subst m'.
        now rewrite (cast_when_refused m Hrank Hzero).
      * intros Hcast. rewrite (cast_when_castable m (Hcast m eq_refl Hbool)).
        eexists [_], _. split; [reflexivity|].
        split; [cbn; now rewrite Hbool|].
        split; [reflexivity|].
        split.
        -- intros _. split; [exact Hbool|now exists m].
        -- intros _. eexists. eexists. right. left. reflexivity.
    + split; [intros m' _ Habs; contradiction|]. intros _.
      eexists [], _. split; [reflexivity|].
      split; [reflexivity|].
      split; [cbn; now destruct (flat_ir.address_space m)|].
      split.
      * intros (r & o & Hin). destruct Hin as [Hin|[]]. discriminate Hin.
      * intros [Habs _]. contradiction.
  - split; [intros m Habs; discriminate Habs|]. intros _.
    eexists [], _. split; [reflexivity|].
    split; [reflexivity|]. split; [reflexivity|]. split.
    + intros (r & o & Hin). destruct Hin as [Hin|[]]. discriminate Hin.
    + intros (_ & m & Habs). discriminate Habs.
Qed.

Lemma to_mlir_result_has_output_dtype_witness :
  let empty := {| flat_ir.address_space := flat_ir.host;
                  flat_ir.memref_value_shape := [0; 3]%Z;
                  flat_ir.memref_value_dtype := datatype.bool;
                  flat_ir.contents := [] |} in
  let flags := {| flat_ir.address_space := flat_ir.host;
                  flat_ir.memref_value_shape := [1; 2]%Z;
                  flat_ir.memref_value_dtype := datatype.bool;
                  flat_ir.contents := [x01; x00] |} in
  let output shape := {| flat_ir.tensor_shape := shape;
                         flat_ir.tensor_dtype := datatype.bool |} in
  flat_ir.to_mlir {| flat_ir.outputs := [output [0; 3]%Z];
                     flat_ir.data := flat_ir.memref_data empty |}
  = Raise (TypeError "memoryview: cannot cast view with zeros in shape or strides")
  /\ exists before op,
      flat_ir.to_mlir {| flat_ir.outputs := [output [1; 2]%Z];
                         flat_ir.data := flat_ir.memref_data flags |}
      = Return (before ++ [op], [op])
      /\ mlir.result_type op
         = {| flat_ir.element_type := datatype.bool; flat_ir.type_shape := [1; 2]%Z |}.
Proof.
  intros empty flags output. split.
  - destruct (to_mlir_result_has_output_dtype
                {| flat_ir.outputs := [output [0; 3]%Z];
                   flat_ir.data := flat_ir.memref_data empty |}) as [H _].
    apply (H empty); try reflexivity.
    + simpl. discriminate.
    + simpl. now left.
  - destruct (to_mlir_result_has_output_dtype
                {| flat_ir.outputs := [output [1; 2]%Z];
                   flat_ir.data := flat_ir.memref_data flags |}) as [_ H].
    destruct H as (before & op & Hmlir & Helement & Hshape & _).
    + intros m Hm _. inversion Hm; subst m. right. simpl. intuition discriminate.
    + exists before, op. split; [exact Hmlir|].
      destruct (mlir.result_type op) as [element shape].
      cbn in Helement, Hshape. now subst.
Defined.

(** Induction on nested data, with the hypothesis for every element of a
    sequence. *)
Lemma sequence_induction (P : flat_ir.sequence -> Prop) :
  (forall n, P (flat_ir.Number n)) ->
  (forall elements, Forall P elements -> P (flat_ir.Sequence elements)) ->
  forall s, P s.
Proof.
  intros HN HS. fix IH 1. intros [n|elements]; [apply HN|].
  apply HS. induction elements as [|element rest IHrest]; constructor.
  - apply IH.
  - exact IHrest.
Qed.

Lemma to_attrs_Sequence_cons (d : dtype) (element : flat_ir.sequence)
    (rest : list flat_ir.sequence) :
  flat_ir.to_attrs d (flat_ir.Sequence (element :: rest))
  = flat_ir.to_attrs d element ++ flat_ir.to_attrs d (flat_ir.Sequence rest).
Proof. reflexivity. Qed.

Lemma has_shape_Sequence_cons (element : flat_ir.sequence)
    (rest : list flat_ir.sequence) (n : nat) (dims : list nat) :
  mlir.has_shape (flat_ir.Sequence (element :: rest)) (S n :: dims) = true ->
  mlir.has_shape element dims = true
  /\ mlir.has_shape (flat_ir.Sequence rest) (n :: dims) = true.
Proof.
  cbn. intros H. apply andb_true_iff in H. destruct H as [Hlen H].
  apply andb_true_iff in H. destruct H as [He Hrest].
  split; [exact He|]. now rewrite Hlen, Hrest.
Qed.

(** X16. [to_attrs] gives one attribute for each number of the data, in the
    order the numbers are written, each with the dtype of the output: a flat
    sequence of numbers gives the attributes of these numbers, and data nested
    regularly to the dimensions [dims] gives as many attributes as the product
    of [dims]. *)
Theorem to_attrs_flattens_in_order :
  (forall d data, Forall (fun attr => fst attr = d) (flat_ir.to_attrs d data))
  /\ (forall d numbers,
         flat_ir.to_attrs d (flat_ir.Sequence (map flat_ir.Number numbers))
         = map (pair d) numbers)
  /\ (forall d data dims,
         mlir.has_shape data dims = true ->
         length (flat_ir.to_attrs d data) = fold_right Nat.mul 1 dims).
Proof.
  split; [|split].
  - intros d. apply sequence_induction.
    + intros n. repeat constructor.
    + intros elements Hall. induction Hall as [|element rest He Hrest IH].
      * constructor.
      * rewrite to_attrs_Sequence_cons. apply Forall_app. split; assumption.
  - intros d numbers. induction numbers as [|n numbers IH]; [reflexivity|].
    cbn [map]. rewrite to_attrs_Sequence_cons, IH. reflexivity.
  - intros d. apply (sequence_induction
                       (fun data => forall dims, mlir.has_shape data dims = true ->
                          length (flat_ir.to_attrs d data) = fold_right Nat.mul 1 dims)).
    + intros n [|dim dims] H; [reflexivity|discriminate H].
    + intros elements Hall. induction Hall as [|element rest He Hrest IH].
      * intros [|[|n] dims] H; try discriminate H. reflexivity.
      * intros [|[|n] dims] H; try discriminate H.
        destruct (has_shape_Sequence_cons _ _ _ _ H) as [Helement Hothers].
        rewrite to_attrs_Sequence_cons, length_app.
        rewrite (He dims Helement), (IH (n :: dims) Hothers).
        cbn [fold_right]. lia.
Qed.

Lemma to_attrs_flattens_in_order_witness :
  length (flat_ir.to_attrs datatype.int32
            (flat_ir.Sequence
               [flat_ir.Sequence (map flat_ir.Number
                                    [flat_ir.py_int 1; flat_ir.py_int 2; flat_ir.py_int 3]);
                flat_ir.Sequence (map flat_ir.Number
                                    [flat_ir.py_int 4; flat_ir.py_int 5; flat_ir.py_int 6])]))
  = 6.
Proof.
  destruct to_attrs_flattens_in_order as (_ & _ & H).
  apply (H datatype.int32 _ [2; 3]). reflexivity.
Defined.

Lemma signed_char_stored (b : byte) :
  let u := (flat_ir.signed_char b mod 4294967296)%Z in
  flat_ir.int_of_bytes (flat_ir.byte_of_Z u) (flat_ir.byte_of_Z (u / 256))
    (flat_ir.byte_of_Z (u / 65536)) (flat_ir.byte_of_Z (u / 16777216))
  = flat_ir.signed_char b.
Proof. destruct b; vm_compute; reflexivity. Qed.

Lemma array_i_tolist_signed_chars (bs : list byte) :
  flat_ir.array_i_tolist (flat_ir.array_i (map flat_ir.signed_char bs))
  = map flat_ir.signed_char bs.
Proof.
  induction bs as [|b bs IH]; [reflexivity|].
  change (flat_ir.array_i (map flat_ir.signed_char (b :: bs)))
    with (flat_ir.int_bytes (flat_ir.signed_char b)
            ++ flat_ir.array_i (map flat_ir.signed_char bs)).
  change (flat_ir.array_i_tolist
            (flat_ir.int_bytes (flat_ir.signed_char b)
               ++ flat_ir.array_i (map flat_ir.signed_char bs)))
    with (let u := (flat_ir.signed_char b mod 4294967296)%Z in
          flat_ir.int_of_bytes (flat_ir.byte_of_Z u) (flat_ir.byte_of_Z (u / 256))
            (flat_ir.byte_of_Z (u / 65536)) (flat_ir.byte_of_Z (u / 16777216))
          :: flat_ir.array_i_tolist (flat_ir.array_i (map flat_ir.signed_char bs))).
  cbv zeta. rewrite IH. cbn [map]. f_equal. exact (signed_char_stored b).
Qed.

Lemma signed_char_bounds (b : byte) :
  (-128 <= flat_ir.signed_char b <= 127)%Z
  /\ ((Byte.to_N b < 128)%N -> flat_ir.signed_char b = Z.of_N (Byte.to_N b)).
Proof.
  unfold flat_ir.signed_char. pose proof (to_N_below b) as Hb.
  destruct (Z.ltb_spec (Z.of_N (Byte.to_N b)) 128); split; lia.
Qed.

(** X17. What the boolean path stores: when [to_mlir] lowers a constant with
    a boolean output and memref data, the first operation it inserts is a
    constant over an array of C [int]s that has one value for each byte of
    the data, the byte read as a signed char. Every value is between -128 and
    127, and a byte below 128 (so the booleans 0 and 1) is stored as it is. *)
Theorem bool_bytes_stored_as_signed_ints
    (self : flat_ir.ConstantOp) (output : flat_ir.FlatIRTensor)
    (others : list flat_ir.FlatIRTensor) (m : flat_ir.MemRefValue)
    (inserted returned : list flat_ir.Operation) :
  flat_ir.outputs self = output :: others ->
  flat_ir.tensor_dtype output = datatype.bool ->
  flat_ir.data self = flat_ir.memref_data m ->
  flat_ir.to_mlir self = Return (inserted, returned) ->
  exists array shape rest,
    inserted
    = flat_ir.stablehlo_ConstantOp
        (flat_ir.DenseElementsAttr_array array datatype.int32 shape) :: rest
    /\ flat_ir.array_i_tolist (flat_ir.contents array)
       = map flat_ir.signed_char (flat_ir.contents m)
    /\ Forall (fun v => (-128 <= v <= 127)%Z)
              (flat_ir.array_i_tolist (flat_ir.contents array))
    /\ (forall i b,
          nth_error (flat_ir.contents m) i = Some b ->
          (Byte.to_N b < 128)%N ->
          nth_error (flat_ir.array_i_tolist (flat_ir.contents array)) i
          = Some (Z.of_N (Byte.to_N b))).
Proof.
  intros Hout Hbool Hdata Hmlir. unfold flat_ir.to_mlir in Hmlir.
  rewrite Hout, Hdata, Hbool in Hmlir. cbn [datatype.eqb] in Hmlir.
  rewrite cast_of_host_copy, shape_of_host_copy in Hmlir.
  unfold flat_ir.memoryview_cast_b_tolist in Hmlir.
  destruct (negb (Nat.eqb (length (flat_ir.memref_value_shape m)) 1)
            && existsb (Z.eqb 0) (flat_ir.memref_value_shape m)); [discriminate|].
  cbn [flat_ir.insert flat_ir.create_memref flat_ir.make_mlir_tensor app] in Hmlir.
  inversion Hmlir; subst; clear Hmlir.
  eexists. eexists. eexists. split; [reflexivity|].
  cbn [flat_ir.contents flat_ir.create_memref]. rewrite array_i_tolist_signed_chars.
  split; [reflexivity|]. split.
  - apply Forall_forall. intros v Hv. apply in_map_iff in Hv.
    destruct Hv as (b & <- & _). apply signed_char_bounds.
  - intros i b Hb Hsmall. rewrite nth_error_map, Hb. cbn.
    f_equal. now apply signed_char_bounds.
Qed.

Lemma bool_bytes_stored_as_signed_ints_witness :
  let m := {| flat_ir.address_space := flat_ir.host;
              flat_ir.memref_value_shape := [3%Z];
              flat_ir.memref_value_dtype := datatype.bool;
              flat_ir.contents := [x01; x00; xff] |} in
  exists array shape rest,
    fst (match flat_ir.to_mlir
                 {| flat_ir.outputs := [{| flat_ir.tensor_shape := [3%Z];
                                           flat_ir.tensor_dtype := datatype.bool |}];
                    flat_ir.data := flat_ir.memref_data m |} with
         | Return built => built
         | Raise _ => ([], [])
         end)
    = flat_ir.stablehlo_ConstantOp
        (flat_ir.DenseElementsAttr_array array datatype.int32 shape) :: rest
    /\ flat_ir.array_i_tolist (flat_ir.contents array) = [1; 0; -1]%Z.
Proof.
  intros m.
  destruct (bool_bytes_stored_as_signed_ints
              {| flat_ir.outputs := [{| flat_ir.tensor_shape := [3%Z];
                                        flat_ir.tensor_dtype := datatype.bool |}];
                 flat_ir.data := flat_ir.memref_data m |}
              {| flat_ir.tensor_shape := [3%Z]; flat_ir.tensor_dtype := datatype.bool |}
              [] m _ _ eq_refl eq_refl eq_refl eq_refl)
    as (array & shape & rest & Hins & Hvals & _).
  exists array, shape, rest. split; [exact Hins|exact Hvals].
Defined.

(** * More positional arguments than declared names *)

Section TooManyPositional.
Context {RT : Runtime}.

(** X18. A call with more positional arguments than there are declared names
    never reaches the executor. With keyword arguments it is the keywords
    that are reported, all of them, as extra; only without any keyword is the
    number of arguments reported. *)
Theorem too_many_positional_arguments
    (x : runtime_Executable) (names : list string) (devs : list device)
    (e : Executable) (args : list Tensor) (kwargs : dict Tensor) :
  Executable__init__ x names devs = Return e ->
  length names < length args ->
  __call__ e args kwargs
  = ([], Raise (TripyException
                  match kwargs with
                  | [] => IncorrectNumberOfArguments (length names) (length args) names
                  | _ => ExtraKeywordArguments (dict_keys kwargs) names names
                  end)).
Proof.
  intros Hinit Hlen.
  destruct (Executable__init__inv _ _ _ _ Hinit)
    as (_ & Hnames & _ & Hnum & _ & _).
  subst names. unfold __call__.
  rewrite skipn_all2 by lia. cbn [bind_kwargs lift bind].
  destruct kwargs as [|kv kwargs]; cbn [is_empty negb length].
  - rewrite Nat.add_0_r, Hnum.
    destruct (Nat.eqb_spec (length args) (length (_arg_names e))); [lia|reflexivity].
  - rewrite firstn_all2 by lia. reflexivity.
Qed.
End TooManyPositional.

Lemma too_many_positional_arguments_witness :
  let x := tensor "x" [1%Z] datatype.float32 in
  __call__ compiled_add [x; x; x] [("b", x)]
  = ([], Raise (TripyException (ExtraKeywordArguments ["b"] ["a"; "b"] ["a"; "b"])))
  /\ __call__ compiled_add [x; x; x] []
     = ([], Raise (TripyException (IncorrectNumberOfArguments 2 3 ["a"; "b"]))).
Proof.
  intros x. split.
  - apply (@too_many_positional_arguments add_runtime [] ["a"; "b"] [Device "gpu" 0]
             compiled_add [x; x; x] [("b", x)] eq_refl). simpl. lia.
  - apply (@too_many_positional_arguments add_runtime [] ["a"; "b"] [Device "gpu" 0]
             compiled_add [x; x; x] [] eq_refl). simpl. lia.
Defined.
